(** * MihomoCore: process supervisor and telemetry poller (Windows runner)

    A shallow embedding of [windows/runner/mihomo_core.cpp] and
    [mihomo_core.h], and of the event channel handlers of
    [platform_channel.cpp].  The object's fields form a record, member
    functions are computations in a small state / exception / trace
    monad, operating system and network results are explicit inputs of
    the call that asks for them, and everything an observer, the control
    API or the operating system sees is appended to an effect trace.  The
    control client ([HttpGet], [HttpPut] and the queries built on them)
    is modelled call by call in the module [Client]. *)

From Stdlib Require Import ZArith Bool List Ascii String Lia.
From Stdlib Require Import Floats.SpecFloat.
From Stdlib Require DecimalString DecimalPos.
Import ListNotations.

Local Open Scope string_scope.
Local Open Scope Z_scope.

(* ===================================================================== *)
(** ** Machine integers and IEEE-754 binary64 *)
(* ===================================================================== *)

Module Num.

Definition two64 : Z := 2 ^ 64.
Definition INT64_MIN : Z := - 2 ^ 63.
Definition INT64_MAX : Z := 2 ^ 63 - 1.
Definition INT_MAX : Z := 2147483647.

(** [ULONGLONG] arithmetic is modulo [2^64]. *)
Definition sub_u64 (a b : Z) : Z := (a - b) mod two64.

(** [int64_t] subtraction, two's-complement wrap written out.  The poller
    only subtracts results of [std::stoll] on digit strings, which lie in
    [0, INT64_MAX], so the wrap never fires there (see [sub_i64_exact]). *)
Definition wrap_i64 (z : Z) : Z := (z - INT64_MIN) mod two64 + INT64_MIN.
Definition sub_i64 (a b : Z) : Z := wrap_i64 (a - b).

Definition in_i64 (z : Z) : bool := (INT64_MIN <=? z) && (z <=? INT64_MAX).

(** [double] is binary64: 53 bits of precision, exponent bound 1024,
    round to nearest even. *)
Definition prec : Z := 53.
Definition emax : Z := 1024.
Definition double : Type := spec_float.

(** Integer to [double] conversion (exact below [2^53], rounded above). *)
Definition double_of_Z (z : Z) : double := binary_normalize prec emax z 0 false.

Definition ddiv (x y : double) : double := SFdiv prec emax x y.

(** [x > 0] on doubles. *)
Definition dpositive (x : double) : bool := SFltb (S754_zero false) x.

(** The literal [1000.0]. *)
Definition d1000 : double := double_of_Z 1000.

(** Truncation toward zero of a finite double. *)
Definition trunc_double (x : double) : Z :=
  match x with
  | S754_finite s m e =>
      let a := Z.shiftl (Zpos m) e in
      if s then - a else a
  | _ => 0
  end.

(** [static_cast<int64_t>(x)]: the value truncated toward zero.  The
    conversion is undefined when that value does not fit [int64_t] or [x]
    is not finite ([None]). *)
Definition static_cast_int64 (x : double) : option Z :=
  match x with
  | S754_zero _ => Some 0
  | S754_finite _ _ _ =>
      let z := trunc_double x in
      if in_i64 z then Some z else None
  | _ => None
  end.

End Num.
Export Num.

(* ===================================================================== *)
(** ** The two patterns of [ParseControllerSettings] *)
(* ===================================================================== *)

(** [std::regex_search] with the ECMAScript grammar returns the leftmost
    match, and at one start position the first match in backtracking order
    (greedy quantifiers try their longest choice first).  Both patterns
    are a literal, [\s*], an optional quote and a greedy character class
    followed only by optional items, so at a given start position the
    longest choices succeed whenever any choice does: shortening [\s*] or
    giving up the optional quote leaves a white-space or quote character
    in front of the class, which excludes both.  The matchers below take
    those longest choices. *)

Module Regex.

Definition dquote : ascii := "034"%char.
Definition squote : ascii := "039"%char.

(** [\s] in the classic locale: space, [\t], [\n], [\v], [\f], [\r]. *)
Definition is_space (c : ascii) : bool :=
  let n := Z.of_nat (nat_of_ascii c) in
  (n =? 32) || ((9 <=? n) && (n <=? 13)).

(** [\d]. *)
Definition is_digit (c : ascii) : bool :=
  let n := Z.of_nat (nat_of_ascii c) in
  (48 <=? n) && (n <=? 57).

Definition is_quote (c : ascii) : bool :=
  Ascii.eqb c squote || Ascii.eqb c dquote.

Definition is_colon (c : ascii) : bool := Ascii.eqb c ":"%char.

(** A character of the host group: not a quote, a colon or white space. *)
Definition host_char (c : ascii) : bool :=
  negb (is_quote c || is_colon c || is_space c).

(** A character of the secret group: not a quote or white space. *)
Definition secret_char (c : ascii) : bool :=
  negb (is_quote c || is_space c).

(** Strip the literal [p] from the front of [s]. *)
Fixpoint literal (p s : string) : option string :=
  match p with
  | EmptyString => Some s
  | String a p' =>
      match s with
      | EmptyString => None
      | String b s' => if Ascii.eqb a b then literal p' s' else None
      end
  end.

(** Longest prefix of [s] whose characters satisfy [f], and the rest. *)
Fixpoint span (f : ascii -> bool) (s : string) : string * string :=
  match s with
  | EmptyString => (EmptyString, EmptyString)
  | String c r =>
      if f c then let '(run, rest) := span f r in (String c run, rest)
      else (EmptyString, s)
  end.

(** An optional single character of class [f]. *)
Definition optional (f : ascii -> bool) (s : string) : string :=
  match s with
  | EmptyString => s
  | String c r => if f c then r else s
  end.

Definition is_empty (s : string) : bool :=
  match s with EmptyString => true | _ => false end.

(** [controllerRegex] anchored at the front of [s].  Writing Q for a quote
    of either kind, the pattern is
    [external-controller:\s*Q?([^Q:\s]+):?(\d+)?Q?].  The result is
    [(match[1], match[2])], an unmatched group 2 reading as the empty
    string, as [sub_match::str()] does. *)
Definition controller_here (s : string) : option (string * string) :=
  match literal "external-controller:" s with
  | None => None
  | Some r0 =>
      let r1 := snd (span is_space r0) in
      let r2 := optional is_quote r1 in
      let '(host, r3) := span host_char r2 in
      if is_empty host then None
      else
        let r4 := optional is_colon r3 in
        let '(port, _) := span is_digit r4 in
        Some (host, port)
  end.

(** [secretRegex] anchored at the front of [s]: [secret:\s*Q?([^Q\s]+)Q?].
    The result is [match[1]]. *)
Definition secret_here (s : string) : option string :=
  match literal "secret:" s with
  | None => None
  | Some r0 =>
      let r1 := snd (span is_space r0) in
      let r2 := optional is_quote r1 in
      let '(secret, _) := span secret_char r2 in
      if is_empty secret then None else Some secret
  end.

(** [std::regex_search]: the first start position at which the anchored
    matcher succeeds. *)
Fixpoint regex_search {A : Type} (here : string -> option A) (s : string) : option A :=
  match here s with
  | Some r => Some r
  | None =>
      match s with
      | EmptyString => None
      | String _ r => regex_search here r
      end
  end.

Definition controllerRegex : string -> option (string * string) :=
  regex_search controller_here.

Definition secretRegex : string -> option string :=
  regex_search secret_here.

(** Value of a string of decimal digits. *)
Fixpoint decimal (acc : Z) (s : string) : Z :=
  match s with
  | EmptyString => acc
  | String c r => decimal (10 * acc + (Z.of_nat (nat_of_ascii c) - 48)) r
  end.

(** [std::stoi] on a non-empty digit string: the value, or [None] where it
    throws [std::out_of_range] (the value does not fit [int]). *)
Definition stoi (digits : string) : option Z :=
  let v := decimal 0 digits in
  if v <=? INT_MAX then Some v else None.

End Regex.
Export Regex.

(* ===================================================================== *)
(** ** The object *)
(* ===================================================================== *)

(** [HANDLE] and [DWORD] values; [nullptr] is the null handle. *)
Definition HANDLE : Type := Z.
Definition nullptr : HANDLE := 0.
Definition STILL_ACTIVE : Z := 259.

(** A [std::thread] member together with the control point of the thread
    it owns.  [NotAThread] is the default-constructed or joined object;
    every other value is joinable.  The poller's thread function is
    [while (!stopMonitoring_) { body; Sleep(1000); }]: it is either about
    to evaluate the loop test, inside the body, or has returned.  The
    function has no handler: when the body is left by an exception,
    [std::terminate] ends the process, and when the body's behaviour is
    undefined nothing more is known; in both cases the thread is
    [Aborted] and the program takes no further step. *)
Inductive thread : Type :=
| NotAThread
| AtLoopTest
| InLoopBody
| Finished
| Aborted.

Definition joinable (t : thread) : bool :=
  match t with NotAThread => false | _ => true end.

(** A [std::function] slot: [true] when it holds a target. *)
Definition callback : Type := bool.

Record TrafficStats : Type := mkTrafficStats {
  upload : Z;
  download : Z;
  uploadSpeed : Z;
  downloadSpeed : Z
}.

Record MihomoCore : Type := mkMihomoCore {
  workDir_ : string;
  corePath_ : string;
  configPath_ : string;
  state_ : string;
  controllerHost_ : string;
  controllerPort_ : Z;
  controllerSecret_ : string;
  processHandle_ : HANDLE;
  processThread_ : HANDLE;
  processId_ : Z;
  isRunning_ : bool;
  stopMonitoring_ : bool;
  logThread_ : thread;
  trafficThread_ : thread;
  lastUpload_ : Z;
  lastDownload_ : Z;
  lastTime_ : Z;
  stateCallback_ : callback;
  trafficCallback_ : callback;
  logCallback_ : callback;
  errorCallback_ : callback
}.

(** The constructor's member initialisers; the string members without an
    initialiser are default-constructed (empty), the threads hold no
    thread and the callbacks no target. *)
Definition constructed : MihomoCore :=
  {| workDir_ := ""; corePath_ := ""; configPath_ := "";
     state_ := "disconnected";
     controllerHost_ := "127.0.0.1"; controllerPort_ := 9090;
     controllerSecret_ := "";
     processHandle_ := nullptr; processThread_ := nullptr; processId_ := 0;
     isRunning_ := false; stopMonitoring_ := false;
     logThread_ := NotAThread; trafficThread_ := NotAThread;
     lastUpload_ := 0; lastDownload_ := 0; lastTime_ := 0;
     stateCallback_ := false; trafficCallback_ := false;
     logCallback_ := false; errorCallback_ := false |}.

(** Assignment to one member. *)
Definition set_workDir_ (v : string) (c : MihomoCore) : MihomoCore :=
  mkMihomoCore v (corePath_ c) (configPath_ c) (state_ c) (controllerHost_ c)
    (controllerPort_ c) (controllerSecret_ c) (processHandle_ c)
    (processThread_ c) (processId_ c) (isRunning_ c) (stopMonitoring_ c)
    (logThread_ c) (trafficThread_ c) (lastUpload_ c) (lastDownload_ c)
    (lastTime_ c) (stateCallback_ c) (trafficCallback_ c) (logCallback_ c)
    (errorCallback_ c).

Definition set_corePath_ (v : string) (c : MihomoCore) : MihomoCore :=
  mkMihomoCore (workDir_ c) v (configPath_ c) (state_ c) (controllerHost_ c)
    (controllerPort_ c) (controllerSecret_ c) (processHandle_ c)
    (processThread_ c) (processId_ c) (isRunning_ c) (stopMonitoring_ c)
    (logThread_ c) (trafficThread_ c) (lastUpload_ c) (lastDownload_ c)
    (lastTime_ c) (stateCallback_ c) (trafficCallback_ c) (logCallback_ c)
    (errorCallback_ c).

Definition set_configPath_ (v : string) (c : MihomoCore) : MihomoCore :=
  mkMihomoCore (workDir_ c) (corePath_ c) v (state_ c) (controllerHost_ c)
    (controllerPort_ c) (controllerSecret_ c) (processHandle_ c)
    (processThread_ c) (processId_ c) (isRunning_ c) (stopMonitoring_ c)
    (logThread_ c) (trafficThread_ c) (lastUpload_ c) (lastDownload_ c)
    (lastTime_ c) (stateCallback_ c) (trafficCallback_ c) (logCallback_ c)
    (errorCallback_ c).

Definition set_state_ (v : string) (c : MihomoCore) : MihomoCore :=
  mkMihomoCore (workDir_ c) (corePath_ c) (configPath_ c) v
    (controllerHost_ c) (controllerPort_ c) (controllerSecret_ c)
    (processHandle_ c) (processThread_ c) (processId_ c) (isRunning_ c)
    (stopMonitoring_ c) (logThread_ c) (trafficThread_ c) (lastUpload_ c)
    (lastDownload_ c) (lastTime_ c) (stateCallback_ c) (trafficCallback_ c)
    (logCallback_ c) (errorCallback_ c).

Definition set_controllerHost_ (v : string) (c : MihomoCore) : MihomoCore :=
  mkMihomoCore (workDir_ c) (corePath_ c) (configPath_ c) (state_ c) v
    (controllerPort_ c) (controllerSecret_ c) (processHandle_ c)
    (processThread_ c) (processId_ c) (isRunning_ c) (stopMonitoring_ c)
    (logThread_ c) (trafficThread_ c) (lastUpload_ c) (lastDownload_ c)
    (lastTime_ c) (stateCallback_ c) (trafficCallback_ c) (logCallback_ c)
    (errorCallback_ c).

Definition set_controllerPort_ (v : Z) (c : MihomoCore) : MihomoCore :=
  mkMihomoCore (workDir_ c) (corePath_ c) (configPath_ c) (state_ c)
    (controllerHost_ c) v (controllerSecret_ c) (processHandle_ c)
    (processThread_ c) (processId_ c) (isRunning_ c) (stopMonitoring_ c)
    (logThread_ c) (trafficThread_ c) (lastUpload_ c) (lastDownload_ c)
    (lastTime_ c) (stateCallback_ c) (trafficCallback_ c) (logCallback_ c)
    (errorCallback_ c).

Definition set_controllerSecret_ (v : string) (c : MihomoCore) : MihomoCore :=
  mkMihomoCore (workDir_ c) (corePath_ c) (configPath_ c) (state_ c)
    (controllerHost_ c) (controllerPort_ c) v (processHandle_ c)
    (processThread_ c) (processId_ c) (isRunning_ c) (stopMonitoring_ c)
    (logThread_ c) (trafficThread_ c) (lastUpload_ c) (lastDownload_ c)
    (lastTime_ c) (stateCallback_ c) (trafficCallback_ c) (logCallback_ c)
    (errorCallback_ c).

Definition set_processHandle_ (v : HANDLE) (c : MihomoCore) : MihomoCore :=
  mkMihomoCore (workDir_ c) (corePath_ c) (configPath_ c) (state_ c)
    (controllerHost_ c) (controllerPort_ c) (controllerSecret_ c) v
    (processThread_ c) (processId_ c) (isRunning_ c) (stopMonitoring_ c)
    (logThread_ c) (trafficThread_ c) (lastUpload_ c) (lastDownload_ c)
    (lastTime_ c) (stateCallback_ c) (trafficCallback_ c) (logCallback_ c)
    (errorCallback_ c).

Definition set_processThread_ (v : HANDLE) (c : MihomoCore) : MihomoCore :=
  mkMihomoCore (workDir_ c) (corePath_ c) (configPath_ c) (state_ c)
    (controllerHost_ c) (controllerPort_ c) (controllerSecret_ c)
    (processHandle_ c) v (processId_ c) (isRunning_ c) (stopMonitoring_ c)
    (logThread_ c) (trafficThread_ c) (lastUpload_ c) (lastDownload_ c)
    (lastTime_ c) (stateCallback_ c) (trafficCallback_ c) (logCallback_ c)
    (errorCallback_ c).

Definition set_processId_ (v : Z) (c : MihomoCore) : MihomoCore :=
  mkMihomoCore (workDir_ c) (corePath_ c) (configPath_ c) (state_ c)
    (controllerHost_ c) (controllerPort_ c) (controllerSecret_ c)
    (processHandle_ c) (processThread_ c) v (isRunning_ c) (stopMonitoring_ c)
    (logThread_ c) (trafficThread_ c) (lastUpload_ c) (lastDownload_ c)
    (lastTime_ c) (stateCallback_ c) (trafficCallback_ c) (logCallback_ c)
    (errorCallback_ c).

Definition set_isRunning_ (v : bool) (c : MihomoCore) : MihomoCore :=
  mkMihomoCore (workDir_ c) (corePath_ c) (configPath_ c) (state_ c)
    (controllerHost_ c) (controllerPort_ c) (controllerSecret_ c)
    (processHandle_ c) (processThread_ c) (processId_ c) v (stopMonitoring_ c)
    (logThread_ c) (trafficThread_ c) (lastUpload_ c) (lastDownload_ c)
    (lastTime_ c) (stateCallback_ c) (trafficCallback_ c) (logCallback_ c)
    (errorCallback_ c).

Definition set_stopMonitoring_ (v : bool) (c : MihomoCore) : MihomoCore :=
  mkMihomoCore (workDir_ c) (corePath_ c) (configPath_ c) (state_ c)
    (controllerHost_ c) (controllerPort_ c) (controllerSecret_ c)
    (processHandle_ c) (processThread_ c) (processId_ c) (isRunning_ c) v
    (logThread_ c) (trafficThread_ c) (lastUpload_ c) (lastDownload_ c)
    (lastTime_ c) (stateCallback_ c) (trafficCallback_ c) (logCallback_ c)
    (errorCallback_ c).

Definition set_logThread_ (v : thread) (c : MihomoCore) : MihomoCore :=
  mkMihomoCore (workDir_ c) (corePath_ c) (configPath_ c) (state_ c)
    (controllerHost_ c) (controllerPort_ c) (controllerSecret_ c)
    (processHandle_ c) (processThread_ c) (processId_ c) (isRunning_ c)
    (stopMonitoring_ c) v (trafficThread_ c) (lastUpload_ c) (lastDownload_ c)
    (lastTime_ c) (stateCallback_ c) (trafficCallback_ c) (logCallback_ c)
    (errorCallback_ c).

Definition set_trafficThread_ (v : thread) (c : MihomoCore) : MihomoCore :=
  mkMihomoCore (workDir_ c) (corePath_ c) (configPath_ c) (state_ c)
    (controllerHost_ c) (controllerPort_ c) (controllerSecret_ c)
    (processHandle_ c) (processThread_ c) (processId_ c) (isRunning_ c)
    (stopMonitoring_ c) (logThread_ c) v (lastUpload_ c) (lastDownload_ c)
    (lastTime_ c) (stateCallback_ c) (trafficCallback_ c) (logCallback_ c)
    (errorCallback_ c).

Definition set_lastUpload_ (v : Z) (c : MihomoCore) : MihomoCore :=
  mkMihomoCore (workDir_ c) (corePath_ c) (configPath_ c) (state_ c)
    (controllerHost_ c) (controllerPort_ c) (controllerSecret_ c)
    (processHandle_ c) (processThread_ c) (processId_ c) (isRunning_ c)
    (stopMonitoring_ c) (logThread_ c) (trafficThread_ c) v (lastDownload_ c)
    (lastTime_ c) (stateCallback_ c) (trafficCallback_ c) (logCallback_ c)
    (errorCallback_ c).

Definition set_lastDownload_ (v : Z) (c : MihomoCore) : MihomoCore :=
  mkMihomoCore (workDir_ c) (corePath_ c) (configPath_ c) (state_ c)
    (controllerHost_ c) (controllerPort_ c) (controllerSecret_ c)
    (processHandle_ c) (processThread_ c) (processId_ c) (isRunning_ c)
    (stopMonitoring_ c) (logThread_ c) (trafficThread_ c) (lastUpload_ c) v
    (lastTime_ c) (stateCallback_ c) (trafficCallback_ c) (logCallback_ c)
    (errorCallback_ c).

Definition set_lastTime_ (v : Z) (c : MihomoCore) : MihomoCore :=
  mkMihomoCore (workDir_ c) (corePath_ c) (configPath_ c) (state_ c)
    (controllerHost_ c) (controllerPort_ c) (controllerSecret_ c)
    (processHandle_ c) (processThread_ c) (processId_ c) (isRunning_ c)
    (stopMonitoring_ c) (logThread_ c) (trafficThread_ c) (lastUpload_ c)
    (lastDownload_ c) v (stateCallback_ c) (trafficCallback_ c)
    (logCallback_ c) (errorCallback_ c).

Definition set_stateCallback_ (v : callback) (c : MihomoCore) : MihomoCore :=
  mkMihomoCore (workDir_ c) (corePath_ c) (configPath_ c) (state_ c)
    (controllerHost_ c) (controllerPort_ c) (controllerSecret_ c)
    (processHandle_ c) (processThread_ c) (processId_ c) (isRunning_ c)
    (stopMonitoring_ c) (logThread_ c) (trafficThread_ c) (lastUpload_ c)
    (lastDownload_ c) (lastTime_ c) v (trafficCallback_ c) (logCallback_ c)
    (errorCallback_ c).

Definition set_trafficCallback_ (v : callback) (c : MihomoCore) : MihomoCore :=
  mkMihomoCore (workDir_ c) (corePath_ c) (configPath_ c) (state_ c)
    (controllerHost_ c) (controllerPort_ c) (controllerSecret_ c)
    (processHandle_ c) (processThread_ c) (processId_ c) (isRunning_ c)
    (stopMonitoring_ c) (logThread_ c) (trafficThread_ c) (lastUpload_ c)
    (lastDownload_ c) (lastTime_ c) (stateCallback_ c) v (logCallback_ c)
    (errorCallback_ c).

Definition set_logCallback_ (v : callback) (c : MihomoCore) : MihomoCore :=
  mkMihomoCore (workDir_ c) (corePath_ c) (configPath_ c) (state_ c)
    (controllerHost_ c) (controllerPort_ c) (controllerSecret_ c)
    (processHandle_ c) (processThread_ c) (processId_ c) (isRunning_ c)
    (stopMonitoring_ c) (logThread_ c) (trafficThread_ c) (lastUpload_ c)
    (lastDownload_ c) (lastTime_ c) (stateCallback_ c) (trafficCallback_ c) v
    (errorCallback_ c).

Definition set_errorCallback_ (v : callback) (c : MihomoCore) : MihomoCore :=
  mkMihomoCore (workDir_ c) (corePath_ c) (configPath_ c) (state_ c)
    (controllerHost_ c) (controllerPort_ c) (controllerSecret_ c)
    (processHandle_ c) (processThread_ c) (processId_ c) (isRunning_ c)
    (stopMonitoring_ c) (logThread_ c) (trafficThread_ c) (lastUpload_ c)
    (lastDownload_ c) (lastTime_ c) (stateCallback_ c) (trafficCallback_ c)
    (logCallback_ c) v.

(* ===================================================================== *)
(** ** Effects and the computation monad *)
(* ===================================================================== *)

(** What leaves the object: callback invocations, calls of the control
    API ([HttpGet] and [HttpPut]; what comes back is an input of the
    caller), operating-system calls, and (as a history variable) every
    assignment to [state_]. *)
Inductive effect : Type :=
| StateWrite (v : string)
| StateEvent (v : string)
| TrafficEvent (stats : TrafficStats)
| ErrorEvent (msg : string)
| ControlApi (verb path body : string)
| CreateDirectoryA (path : string)
| CreateProcessA (cmdLine cwd : string)
| Sleep (ms : Z)
| TerminateProcess (h : HANDLE) (code : Z)
| WaitForSingleObject (h : HANDLE) (ms : Z) (result : Z)
| CloseHandle (h : HANDLE)
| ThreadStart
| ThreadJoin.

(** A call returns a value, leaves by an exception, runs into behaviour
    the language leaves undefined, or does not come back because
    [std::terminate] has ended the process. *)
Inductive completion (A : Type) : Type :=
| Normal (a : A)
| Throw (what : string)
| Undefined
| Terminated.
Arguments Normal {A} a.
Arguments Throw {A} what.
Arguments Undefined {A}.
Arguments Terminated {A}.

Definition M (A : Type) : Type :=
  MihomoCore -> completion A * MihomoCore * list effect.

Definition ret {A : Type} (a : A) : M A :=
  fun c => (Normal a, c, []).

Definition bind {A B : Type} (m : M A) (k : A -> M B) : M B :=
  fun c =>
    match m c with
    | (Normal a, c1, t1) =>
        match k a c1 with
        | (r, c2, t2) => (r, c2, (t1 ++ t2)%list)
        end
    | (Throw what, c1, t1) => (Throw what, c1, t1)
    | (Undefined, c1, t1) => (Undefined, c1, t1)
    | (Terminated, c1, t1) => (Terminated, c1, t1)
    end.

Definition read {A : Type} (f : MihomoCore -> A) : M A :=
  fun c => (Normal (f c), c, []).

Definition write (f : MihomoCore -> MihomoCore) : M unit :=
  fun c => (Normal tt, f c, []).

Definition emit (e : effect) : M unit :=
  fun c => (Normal tt, c, [e]).

Definition throw {A : Type} (what : string) : M A :=
  fun c => (Throw what, c, []).

Definition undefined {A : Type} : M A :=
  fun c => (Undefined, c, []).

(** The value of a conversion, where it has one. *)
Definition defined {A : Type} (o : option A) : M A :=
  match o with
  | Some a => ret a
  | None => undefined
  end.

Definition when (b : bool) (m : M unit) : M unit :=
  if b then m else ret tt.

Declare Scope core_scope.
Delimit Scope core_scope with core.
Notation "x <- m ;; k" := (bind m (fun x => k))
  (at level 61, m at next level, right associativity) : core_scope.
Notation "m ;; k" := (bind m (fun _ => k))
  (at level 61, right associativity) : core_scope.
Local Open Scope core_scope.

(** Accessors of a run. *)
Definition result_of {A : Type} (r : completion A * MihomoCore * list effect) : completion A :=
  fst (fst r).
Definition core_of {A : Type} (r : completion A * MihomoCore * list effect) : MihomoCore :=
  snd (fst r).
Definition trace_of {A : Type} (r : completion A * MihomoCore * list effect) : list effect :=
  snd r.

(* ===================================================================== *)
(** ** The control client *)
(* ===================================================================== *)

(** [std::to_string] on an integer. *)
Definition to_string (z : Z) : string :=
  DecimalString.NilZero.string_of_int (Z.to_int z).

Module Client.

(** The WinHTTP calls one request makes. *)
Inductive winhttp_call : Type :=
| WinHttpOpen
| WinHttpConnect (session : HANDLE) (host : string) (port : Z)
| WinHttpOpenRequest (connection : HANDLE) (verb path : string)
| WinHttpAddRequestHeaders (request : HANDLE) (headers : string)
| WinHttpSendRequest (request : HANDLE) (body : string)
| WinHttpReceiveResponse (request : HANDLE)
| WinHttpQueryHeaders (request : HANDLE)
| WinHttpQueryDataAvailable (request : HANDLE)
| WinHttpReadData (request : HANDLE) (size : Z)
| WinHttpCloseHandle (h : HANDLE).

(** One round of the read loop: what [WinHttpQueryDataAvailable] reports
    ([None] when it fails) and what [WinHttpReadData] delivers ([None]
    when it fails, otherwise the bytes read). *)
Record chunk : Type := mkChunk {
  available : option Z;
  delivered : option string
}.

(** What WinHTTP answers during one request: the three handles (null on
    failure), whether sending and receiving succeed, the status code the
    header query stores ([None] when the query fails) and the rounds of
    the read loop; after the last round no data is available. *)
Record exchange : Type := mkExchange {
  opened : HANDLE;
  connected : HANDLE;
  requested : HANDLE;
  sent : bool;
  received : bool;
  status : option Z;
  rounds : list chunk
}.

(** The local variables of [HttpGet] and [HttpPut]. *)
Record locals : Type := mkLocals {
  hSession : HANDLE;
  hConnect : HANDLE;
  hRequest : HANDLE;
  result : string
}.

(** The body of the [try] block: a computation over the locals that may
    throw ([None]). *)
Definition W (A : Type) : Type :=
  locals -> option A * locals * list winhttp_call.

Definition wret {A : Type} (a : A) : W A := fun l => (Some a, l, []).

Definition wbind {A B : Type} (m : W A) (k : A -> W B) : W B :=
  fun l =>
    match m l with
    | (Some a, l1, t1) =>
        match k a l1 with
        | (r, l2, t2) => (r, l2, (t1 ++ t2)%list)
        end
    | (None, l1, t1) => (None, l1, t1)
    end.

(** [throw std::runtime_error(...)] *)
Definition wthrow {A : Type} : W A := fun l => (None, l, []).

Definition call (e : winhttp_call) : W unit := fun l => (Some tt, l, [e]).

Definition assign (f : locals -> locals) : W unit := fun l => (Some tt, f l, []).

Definition set_hSession (h : HANDLE) (l : locals) : locals :=
  {| hSession := h; hConnect := hConnect l; hRequest := hRequest l; result := result l |}.
Definition set_hConnect (h : HANDLE) (l : locals) : locals :=
  {| hSession := hSession l; hConnect := h; hRequest := hRequest l; result := result l |}.
Definition set_hRequest (h : HANDLE) (l : locals) : locals :=
  {| hSession := hSession l; hConnect := hConnect l; hRequest := h; result := result l |}.
Definition set_result (s : string) (l : locals) : locals :=
  {| hSession := hSession l; hConnect := hConnect l; hRequest := hRequest l; result := s |}.

Declare Scope http_scope.
Delimit Scope http_scope with http.
Notation "x <- m ;; k" := (wbind m (fun x => k))
  (at level 61, m at next level, right associativity) : http_scope.
Notation "m ;; k" := (wbind m (fun _ => k))
  (at level 61, right associativity) : http_scope.

(** [static_cast<INTERNET_PORT>(controllerPort_)]: the low 16 bits. *)
Definition INTERNET_PORT (port : Z) : Z := port mod 65536.

Definition CRLF : string := String "013"%char (String "010"%char EmptyString).

(** Opening the session, the connection and the request, each followed by
    its null test. *)
Definition open_request (verb path : string) (x : exchange) (c : MihomoCore) : W unit :=
  (call WinHttpOpen ;;
   assign (set_hSession (opened x)) ;;
   (if opened x =? nullptr then wthrow else wret tt) ;;
   call (WinHttpConnect (opened x) (controllerHost_ c)
           (INTERNET_PORT (controllerPort_ c))) ;;
   assign (set_hConnect (connected x)) ;;
   (if connected x =? nullptr then wthrow else wret tt) ;;
   call (WinHttpOpenRequest (connected x) verb path) ;;
   assign (set_hRequest (requested x)) ;;
   (if requested x =? nullptr then wthrow else wret tt))%http.

(** The read loop of [HttpGet]:
    [do { query; if failed or size == 0 break; read; append if read }
     while (size > 0)]. *)
Fixpoint read_loop (h : HANDLE) (rounds : list chunk) : W unit :=
  match rounds with
  | [] => call (WinHttpQueryDataAvailable h)
  | r :: rest =>
      (call (WinHttpQueryDataAvailable h) ;;
       match available r with
       | None => wret tt
       | Some size =>
           if size =? 0 then wret tt
           else
             call (WinHttpReadData h size) ;;
             match delivered r with
             | Some bytes =>
                 assign (fun l => set_result (result l ++ bytes)%string l)
             | None => wret tt
             end ;;
             read_loop h rest
       end)%http
  end.

(** The [try] block of [HttpGet]. *)
Definition try_get (path : string) (x : exchange) (c : MihomoCore) : W unit :=
  (open_request "GET" path x c ;;
   (if is_empty (controllerSecret_ c) then wret tt
    else call (WinHttpAddRequestHeaders (requested x)
                 ("Authorization: Bearer " ++ controllerSecret_ c)%string)) ;;
   call (WinHttpSendRequest (requested x) "") ;;
   (if sent x then wret tt else wthrow) ;;
   call (WinHttpReceiveResponse (requested x)) ;;
   (if received x then wret tt else wthrow) ;;
   read_loop (requested x) (rounds x))%http.

(** The [try] block of [HttpPut]. *)
Definition try_put (path body : string) (x : exchange) (c : MihomoCore) : W unit :=
  (open_request "PUT" path x c ;;
   let headers :=
     ("Content-Type: application/json" ++ CRLF
      ++ (if is_empty (controllerSecret_ c) then ""
          else "Authorization: Bearer " ++ controllerSecret_ c ++ CRLF))%string in
   call (WinHttpAddRequestHeaders (requested x) headers) ;;
   call (WinHttpSendRequest (requested x) body) ;;
   (if sent x then wret tt else wthrow) ;;
   call (WinHttpReceiveResponse (requested x)) ;;
   (if received x then wret tt else wthrow) ;;
   call (WinHttpQueryHeaders (requested x)) ;;
   let statusCode := match status x with Some code => code | None => 0 end in
   if (200 <=? statusCode) && (statusCode <? 300)
   then assign (set_result "success")
   else wret tt)%http.

(** What follows the [catch (...)]: the three conditional
    [WinHttpCloseHandle] calls. *)
Definition cleanup (l : locals) : list winhttp_call :=
  ((if hRequest l =? nullptr then [] else [WinHttpCloseHandle (hRequest l)])
   ++ (if hConnect l =? nullptr then [] else [WinHttpCloseHandle (hConnect l)])
   ++ (if hSession l =? nullptr then [] else [WinHttpCloseHandle (hSession l)]))%list.

(** A function body [try { block } catch (...) {} close; return result;]. *)
Definition guarded (block : W unit) : string * list winhttp_call :=
  let '(_, l, t) :=
    block {| hSession := nullptr; hConnect := nullptr; hRequest := nullptr;
             result := "" |} in
  (result l, (t ++ cleanup l)%list).

(** [MihomoCore::HttpGet] *)
Definition HttpGet (path : string) (x : exchange) (c : MihomoCore)
  : string * list winhttp_call :=
  guarded (try_get path x c).

(** [MihomoCore::HttpPut], call by call. *)
Definition HttpPut (path body : string) (x : exchange) (c : MihomoCore)
  : string * list winhttp_call :=
  guarded (try_put path body x c).

(** *** The patterns of the queries *)

Definition not_dquote (c : ascii) : bool := negb (Ascii.eqb c dquote).

Definition quoted (name : string) : string :=
  String dquote (name ++ String dquote EmptyString).

(** The key of a JSON member, the colon and the white space around it:
    Q name Q [\s*:\s*], anchored at the front of [s]. *)
Definition member_here (name s : string) : option string :=
  match literal (quoted name) s with
  | None => None
  | Some r0 =>
      match literal ":" (snd (span is_space r0)) with
      | None => None
      | Some r1 => Some (snd (span is_space r1))
      end
  end.

(** Q name Q [\s*:\s*(\d+)] anchored at the front of [s]; the result is
    [match[1]].  The classes of the pattern do not overlap, so the longest
    choices are the only ones that can succeed. *)
Definition number_here (name s : string) : option string :=
  match member_here name s with
  | None => None
  | Some r =>
      let '(digits, _) := span is_digit r in
      if is_empty digits then None else Some digits
  end.

(** Q version Q [\s*:\s*] Q [([^Q]+)] Q anchored at the front of [s]: the
    longest run without a quote, which a quote must follow. *)
Definition version_here (s : string) : option string :=
  match member_here "version" s with
  | None => None
  | Some r =>
      match r with
      | String c r' =>
          if Ascii.eqb c dquote then
            let '(text, rest) := span not_dquote r' in
            if is_empty text then None
            else
              match rest with
              | String _ _ => Some text
              | EmptyString => None
              end
          else None
      | EmptyString => None
      end
  end.

Definition versionRegex : string -> option string := regex_search version_here.
Definition upRegex : string -> option string := regex_search (number_here "up").
Definition downRegex : string -> option string := regex_search (number_here "down").
Definition delayRegex : string -> option string := regex_search (number_here "delay").

(** [std::stoll] on a non-empty digit string: [None] where it throws
    [std::out_of_range]. *)
Definition stoll (digits : string) : option Z :=
  let v := decimal 0 digits in
  if v <=? INT64_MAX then Some v else None.

(** [MihomoCore::GetVersion] on the answer of [GET /version]. *)
Definition GetVersion (x : exchange) (c : MihomoCore) : string :=
  let response := fst (HttpGet "/version" x c) in
  if negb (is_empty response) then
    match versionRegex response with
    | Some v => v
    | None => "unknown"
    end
  else "unknown".

(** [if (std::regex_search(response, match, re)) field = std::stoll(match[1].str());]:
    the new value of the counter [field]. *)
Definition parse_counter (found : option string) (field : Z) : completion Z :=
  match found with
  | Some digits =>
      match stoll digits with
      | Some v => Normal v
      | None => Throw "stoll argument out of range"
      end
  | None => Normal field
  end.

(** [MihomoCore::GetTrafficStats] on the answer of [GET /traffic]. *)
Definition GetTrafficStats (x : exchange) (c : MihomoCore) : completion TrafficStats :=
  let response := fst (HttpGet "/traffic" x c) in
  if negb (is_empty response) then
    match parse_counter (upRegex response) 0 with
    | Normal up =>
        match parse_counter (downRegex response) 0 with
        | Normal down =>
            Normal {| upload := up; download := down;
                      uploadSpeed := 0; downloadSpeed := 0 |}
        | Throw what => Throw what
        | Undefined => Undefined
        | Terminated => Terminated
        end
    | Throw what => Throw what
    | Undefined => Undefined
    | Terminated => Terminated
    end
  else
    Normal {| upload := 0; download := 0; uploadSpeed := 0; downloadSpeed := 0 |}.

(** The path [TestDelay] asks for. *)
Definition delay_path (proxy url : string) (timeout : Z) : string :=
  ("/proxies/" ++ proxy ++ "/delay?timeout=" ++ to_string timeout
     ++ "&url=" ++ url)%string.

(** [MihomoCore::TestDelay] *)
Definition TestDelay (proxy url : string) (timeout : Z) (x : exchange) (c : MihomoCore)
  : completion Z :=
  let response := fst (HttpGet (delay_path proxy url timeout) x c) in
  if negb (is_empty response) then
    match delayRegex response with
    | Some digits =>
        match stoi digits with
        | Some delay => Normal delay
        | None => Throw "stoi argument out of range"
        end
    | None => Normal (-1)
    end
  else Normal (-1).

(** [MihomoCore::SwitchProxy] *)
Definition SwitchProxy (selector proxy : string) (x : exchange) (c : MihomoCore) : bool :=
  let body := ("{" ++ quoted "name" ++ ":" ++ quoted proxy ++ "}")%string in
  let response := fst (HttpPut ("/proxies/" ++ selector)%string body x c) in
  negb (is_empty response).

(** [MihomoCore::GetConnections] *)
Definition GetConnections (x : exchange) (c : MihomoCore) : string :=
  fst (HttpGet "/connections" x c).

(** An exchange in which every call succeeds and the body arrives in one
    read. *)
Definition answering (code : Z) (body : string) : exchange :=
  {| opened := 11; connected := 12; requested := 13;
     sent := true; received := true; status := Some code;
     rounds := [{| available := Some (Z.of_nat (String.length body));
                   delivered := Some body |}] |}.

End Client.

(* ===================================================================== *)
(** ** What the environment answers *)
(* ===================================================================== *)

(** [PROCESS_INFORMATION] as filled in by a successful [CreateProcessA]. *)
Record PROCESS_INFORMATION : Type := mkProcessInformation {
  hProcess : HANDLE;
  hThread : HANDLE;
  dwProcessId : Z
}.

(** One [Start]: the configuration file as [std::ifstream] delivers it
    ([None] when it cannot be opened), the outcome of [CreateProcessA]
    ([None] on failure) and of [GetExitCodeProcess] after the grace period
    ([None] when the query itself fails, otherwise the exit code). *)
Record start_env : Type := mkStartEnv {
  start_file : option string;
  created : option PROCESS_INFORMATION;
  exit_code : option Z
}.

(** One poll cycle: what WinHTTP answers to the request of
    [GetTrafficStats], and the tick count the system clock is at. *)
Record poll_env : Type := mkPollEnv {
  traffic : Client.exchange;
  tick : Z
}.

(** One [Stop]: the poll cycle the poller may be in the middle of when the
    stop flag is raised, and what [WaitForSingleObject] returns. *)
Record stop_env : Type := mkStopEnv {
  in_flight : poll_env;
  wait_result : Z
}.

(** One control-API [PUT]: [None] when any WinHTTP call fails (the
    exception is swallowed), otherwise the status code read from the
    response (zero when the header query fails). *)
Definition http_reply : Type := option Z.

Record reload_env : Type := mkReloadEnv {
  put_reply : http_reply;
  reload_file : option string
}.

(* ===================================================================== *)
(** ** Reading a request *)
(* ===================================================================== *)

(** The handles a request obtains, in the order it obtains them: each is
    asked for only when the one before it is not null. *)
Definition obtained (x : Client.exchange) : list HANDLE :=
  if Client.opened x =? nullptr then []
  else Client.opened x ::
       if Client.connected x =? nullptr then []
       else Client.connected x ::
            if Client.requested x =? nullptr then [] else [Client.requested x].

Definition is_close (e : Client.winhttp_call) : bool :=
  match e with Client.WinHttpCloseHandle _ => true | _ => false end.

(** The handle a call is made on. *)
Definition handle_of (e : Client.winhttp_call) : option HANDLE :=
  match e with
  | Client.WinHttpOpen => None
  | Client.WinHttpConnect h _ _ | Client.WinHttpOpenRequest h _ _
  | Client.WinHttpAddRequestHeaders h _ | Client.WinHttpSendRequest h _
  | Client.WinHttpReceiveResponse h | Client.WinHttpQueryHeaders h
  | Client.WinHttpQueryDataAvailable h | Client.WinHttpReadData h _
  | Client.WinHttpCloseHandle h => Some h
  end.

Definition on_live_handle (e : Client.winhttp_call) : bool :=
  match handle_of e with
  | Some h => negb (h =? nullptr)
  | None => true
  end.

(** Every call up to the response succeeds. *)
Definition completes (x : Client.exchange) : bool :=
  negb (Client.opened x =? nullptr) && negb (Client.connected x =? nullptr)
  && negb (Client.requested x =? nullptr) && Client.sent x && Client.received x.

(** The bytes of the rounds up to the first one whose query fails or
    reports no data. *)
Fixpoint body_text (rounds : list Client.chunk) : string :=
  match rounds with
  | [] => ""
  | r :: rest =>
      match Client.available r with
      | None => ""
      | Some size =>
          if size =? 0 then ""
          else
            (match Client.delivered r with Some bytes => bytes | None => "" end
             ++ body_text rest)%string
      end
  end.

(** What the exchange comes to for a [PUT]. *)
Definition summary (x : Client.exchange) : http_reply :=
  if completes x then
    Some (match Client.status x with Some code => code | None => 0 end)
  else None.

(** *** Replies of the control API *)

(** Every character of [s] satisfies [f]. *)
Fixpoint all_chars (f : ascii -> bool) (s : string) : bool :=
  match s with
  | EmptyString => true
  | String c r => f c && all_chars f r
  end.

(** [s] is empty or begins with a character outside [f]: a run of [f]
    characters ends here. *)
Definition stops (f : ascii -> bool) (s : string) : bool :=
  match s with
  | EmptyString => true
  | String c _ => negb (f c)
  end.

(** The reply of [GET /traffic] with the counters printed in decimal. *)
Definition traffic_json (up down : Z) : string :=
  ("{" ++ Client.quoted "up" ++ ":" ++ to_string up ++ ","
     ++ Client.quoted "down" ++ ":" ++ to_string down ++ "}")%string.

(** The reply of a delay test. *)
Definition delay_json (delay : Z) : string :=
  ("{" ++ Client.quoted "delay" ++ ":" ++ to_string delay ++ "}")%string.

(** The reply of [GET /version], with or without the [meta] member the
    engine puts first. *)
Definition version_json (meta : bool) (version : string) : string :=
  ("{" ++ (if meta then Client.quoted "meta" ++ ":true," else "")
     ++ Client.quoted "version" ++ ":" ++ Client.quoted version ++ "}")%string.

Definition no_traffic : TrafficStats :=
  {| upload := 0; download := 0; uploadSpeed := 0; downloadSpeed := 0 |}.

(* ===================================================================== *)
(** ** Member functions *)
(* ===================================================================== *)

(** [if (stateCallback_) stateCallback_(state_);] *)
Definition notify_state : M unit :=
  cb <- read stateCallback_ ;;
  v <- read state_ ;;
  when cb (emit (StateEvent v)).

(** [if (errorCallback_) errorCallback_(msg);] *)
Definition notify_error (msg : string) : M unit :=
  cb <- read errorCallback_ ;;
  when cb (emit (ErrorEvent msg)).

(** [state_ = v;] *)
Definition assign_state (v : string) : M unit :=
  write (set_state_ v) ;;
  emit (StateWrite v).

Definition SetStateCallback (cb : callback) : M unit := write (set_stateCallback_ cb).
Definition SetTrafficCallback (cb : callback) : M unit := write (set_trafficCallback_ cb).
Definition SetLogCallback (cb : callback) : M unit := write (set_logCallback_ cb).
Definition SetErrorCallback (cb : callback) : M unit := write (set_errorCallback_ cb).

(** [MihomoCore::Init]; [present] is whether [GetFileAttributesA] finds the
    core binary. *)
Definition Init (workDir : string) (present : bool) : M bool :=
  write (set_workDir_ workDir) ;;
  emit (CreateDirectoryA workDir) ;;
  write (set_corePath_ (workDir ++ "\mihomo.exe")%string) ;;
  if present then ret true
  else
    corePath <- read corePath_ ;;
    notify_error ("Core binary not found: " ++ corePath)%string ;;
    ret false.

(** [MihomoCore::ParseControllerSettings]; [file] is the content of the
    file at [configPath], [None] when it cannot be opened. *)
Definition ParseControllerSettings (file : option string) : M unit :=
  match file with
  | None => ret tt
  | Some content =>
      match controllerRegex content with
      | Some (host, port) =>
          write (set_controllerHost_ host) ;;
          if is_empty port then ret tt
          else
            match stoi port with
            | Some n => write (set_controllerPort_ n)
            | None => throw "stoi argument out of range"
            end
      | None => ret tt
      end ;;
      match secretRegex content with
      | Some secret => write (set_controllerSecret_ secret)
      | None => ret tt
      end
  end.

(** [MihomoCore::HttpPut]: the success marker for a 2xx status, the empty
    string otherwise. *)
Definition HttpPut (reply : http_reply) : string :=
  match reply with
  | Some statusCode =>
      if (200 <=? statusCode) && (statusCode <? 300) then "success" else ""
  | None => ""
  end.

(** [GetTickCount64()]: the tick count, as the [ULONGLONG] it is returned
    in. *)
Definition GetTickCount64 (w : poll_env) : Z := tick w mod two64.

(** [MihomoCore::GetTrafficStats] as a member call: the query of the
    control client on the object's endpoint.  An exception of
    [std::stoll] is not caught here. *)
Definition GetTrafficStats (x : Client.exchange) : M TrafficStats :=
  fun c => (Client.GetTrafficStats x c, c, []).

(** [double timeDelta = (now - lastTime_) / 1000.0;] *)
Definition timeDelta (now lastTime : Z) : double :=
  ddiv (double_of_Z (sub_u64 now lastTime)) d1000.

(** [static_cast<int64_t>((current - last) / timeDelta)] *)
Definition speed (current last : Z) (dt : double) : option Z :=
  static_cast_int64 (ddiv (double_of_Z (sub_i64 current last)) dt).

(** The body of the poller's loop, [Sleep] included. *)
Definition poll_cycle (w : poll_env) : M unit :=
  running <- read isRunning_ ;;
  cb <- read trafficCallback_ ;;
  when (running && cb)
    (emit (ControlApi "GET" "/traffic" "") ;;
     stats <- GetTrafficStats (traffic w) ;;
     let now := GetTickCount64 w in
     lastTime <- read lastTime_ ;;
     lastUpload <- read lastUpload_ ;;
     lastDownload <- read lastDownload_ ;;
     let dt := timeDelta now lastTime in
     when ((0 <? lastTime) && dpositive dt)
       (up_speed <- defined (speed (upload stats) lastUpload dt) ;;
        down_speed <- defined (speed (download stats) lastDownload dt) ;;
        emit (TrafficEvent
                {| upload := upload stats;
                   download := download stats;
                   uploadSpeed := up_speed;
                   downloadSpeed := down_speed |})) ;;
     write (set_lastUpload_ (upload stats)) ;;
     write (set_lastDownload_ (download stats)) ;;
     write (set_lastTime_ now)) ;;
  emit (Sleep 1000).

(** The thread function has no handler: an exception that leaves the
    body leaves the thread function, and [std::terminate] ends the
    process.  A body that does not complete leaves the thread
    [Aborted]. *)
Definition in_thread (body : M unit) : M unit :=
  fun c =>
    match body c with
    | (Normal a, c1, t1) => (Normal a, c1, t1)
    | (Throw _, c1, t1) => (Terminated, set_trafficThread_ Aborted c1, t1)
    | (Undefined, c1, t1) => (Undefined, set_trafficThread_ Aborted c1, t1)
    | (Terminated, c1, t1) => (Terminated, set_trafficThread_ Aborted c1, t1)
    end.

(** One scheduling step of the poller thread: the loop test, or one loop
    body.  An object that owns no running thread takes no step. *)
Definition poller_step (w : poll_env) : M unit :=
  t <- read trafficThread_ ;;
  match t with
  | AtLoopTest =>
      stop <- read stopMonitoring_ ;;
      write (set_trafficThread_ (if stop then Finished else InLoopBody))
  | InLoopBody =>
      in_thread (poll_cycle w) ;;
      write (set_trafficThread_ AtLoopTest)
  | NotAThread | Finished | Aborted => ret tt
  end.

(** [MihomoCore::StartTrafficMonitor]: [trafficThread_ = std::thread(...)].
    Move assignment onto a joinable [std::thread] would call
    [std::terminate]; [Start] is the only caller and reaches this point
    only with [isRunning_] false, where no thread is owned (see
    [reachable_inv]). *)
Definition StartTrafficMonitor : M unit :=
  write (set_trafficThread_ AtLoopTest) ;;
  emit ThreadStart.

(** [trafficThread_.join()]: the caller blocks while the poller runs on.
    [StopMonitoring] joins right after raising the stop flag, so the
    poller finishes the body it may be in, fails the next loop test and
    returns: at most two steps (see [join_runs_to_exit]).  When the body
    does not complete, the process is over and the join does not return. *)
Definition join_traffic (w : poll_env) : M unit :=
  poller_step w ;;
  poller_step w ;;
  write (set_trafficThread_ NotAThread) ;;
  emit ThreadJoin.

(** [MihomoCore::StopMonitoring] *)
Definition StopMonitoring (w : poll_env) : M unit :=
  write (set_stopMonitoring_ true) ;;
  t <- read trafficThread_ ;;
  when (joinable t) (join_traffic w) ;;
  l <- read logThread_ ;;
  when (joinable l) (write (set_logThread_ NotAThread) ;; emit ThreadJoin).

(** [MihomoCore::Start] *)
Definition Start (configPath : string) (w : start_env) : M bool :=
  running <- read isRunning_ ;;
  if running then ret true
  else
    write (set_configPath_ configPath) ;;
    ParseControllerSettings (start_file w) ;;
    corePath <- read corePath_ ;;
    workDir <- read workDir_ ;;
    let q := String dquote EmptyString in
    let cmdLine :=
      (q ++ corePath ++ q ++ " -d " ++ q ++ workDir ++ q
         ++ " -f " ++ q ++ configPath ++ q)%string in
    emit (CreateProcessA cmdLine workDir) ;;
    match created w with
    | None =>
        notify_error "Failed to start core process" ;;
        ret false
    | Some pi =>
        write (set_processHandle_ (hProcess pi)) ;;
        write (set_processThread_ (hThread pi)) ;;
        write (set_processId_ (dwProcessId pi)) ;;
        emit (Sleep 500) ;;
        let exited :=
          match exit_code w with
          | Some exitCode => negb (exitCode =? STILL_ACTIVE)
          | None => false
          end in
        if exited then
          notify_error "Core process exited immediately" ;;
          emit (CloseHandle (hProcess pi)) ;;
          emit (CloseHandle (hThread pi)) ;;
          write (set_processHandle_ nullptr) ;;
          write (set_processThread_ nullptr) ;;
          ret false
        else
          write (set_isRunning_ true) ;;
          assign_state "connected" ;;
          write (set_stopMonitoring_ false) ;;
          notify_state ;;
          StartTrafficMonitor ;;
          ret true
    end.

(** [MihomoCore::Stop] *)
Definition Stop (w : stop_env) : M bool :=
  running <- read isRunning_ ;;
  if negb running then ret true
  else
    assign_state "disconnecting" ;;
    notify_state ;;
    StopMonitoring (in_flight w) ;;
    h <- read processHandle_ ;;
    when (negb (h =? nullptr))
      (emit (TerminateProcess h 0) ;;
       emit (WaitForSingleObject h 3000 (wait_result w)) ;;
       emit (CloseHandle h) ;;
       write (set_processHandle_ nullptr)) ;;
    t <- read processThread_ ;;
    when (negb (t =? nullptr))
      (emit (CloseHandle t) ;;
       write (set_processThread_ nullptr)) ;;
    write (set_processId_ 0) ;;
    write (set_isRunning_ false) ;;
    assign_state "disconnected" ;;
    notify_state ;;
    ret true.

(** [MihomoCore::ReloadConfig] *)
Definition ReloadConfig (configPath : string) (w : reload_env) : M bool :=
  let q := String dquote EmptyString in
  let body := ("{" ++ q ++ "path" ++ q ++ ":" ++ q ++ configPath ++ q ++ "}")%string in
  emit (ControlApi "PUT" "/configs?force=true" body) ;;
  let response := HttpPut (put_reply w) in
  if negb (is_empty response) then
    write (set_configPath_ configPath) ;;
    ParseControllerSettings (reload_file w) ;;
    ret true
  else ret false.

(* ===================================================================== *)
(** ** Call sequences *)
(* ===================================================================== *)

(** What can happen to the object next: a public member function is called
    on the caller's thread (lifecycle calls are serialised by the caller),
    or the scheduler lets the poller thread take a step.  A lifecycle call
    is atomic with respect to poller steps except for the join inside
    [Stop], which runs the poller to its exit. *)
Inductive call : Type :=
| CallInit (workDir : string) (present : bool)
| CallStart (configPath : string) (w : start_env)
| CallStop (w : stop_env)
| CallReloadConfig (configPath : string) (w : reload_env)
| CallSetStateCallback (cb : callback)
| CallSetTrafficCallback (cb : callback)
| CallSetLogCallback (cb : callback)
| CallSetErrorCallback (cb : callback)
| PollerStep (w : poll_env).

Definition is_start (a : call) : bool :=
  match a with CallStart _ _ => true | _ => false end.

(** A run with its return value dropped. *)
Definition effect_of {A : Type} (m : M A) (c : MihomoCore) : MihomoCore * list effect :=
  (core_of (m c), trace_of (m c)).

Definition exec (a : call) : MihomoCore -> MihomoCore * list effect :=
  match a with
  | CallInit workDir present => effect_of (Init workDir present)
  | CallStart configPath w => effect_of (Start configPath w)
  | CallStop w => effect_of (Stop w)
  | CallReloadConfig configPath w => effect_of (ReloadConfig configPath w)
  | CallSetStateCallback cb => effect_of (SetStateCallback cb)
  | CallSetTrafficCallback cb => effect_of (SetTrafficCallback cb)
  | CallSetLogCallback cb => effect_of (SetLogCallback cb)
  | CallSetErrorCallback cb => effect_of (SetErrorCallback cb)
  | PollerStep w => effect_of (poller_step w)
  end.

(** The poller thread was aborted: the process is gone. *)
Definition gone (c : MihomoCore) : bool :=
  match trafficThread_ c with Aborted => true | _ => false end.

(** A sequence of calls and poller steps; it ends where the process is
    gone. *)
Fixpoint run (l : list call) (c : MihomoCore) : MihomoCore * list effect :=
  match l with
  | [] => (c, [])
  | a :: l' =>
      if gone c then (c, [])
      else
        let (c1, t1) := exec a c in
        let (c2, t2) := run l' c1 in
        (c2, (t1 ++ t2)%list)
  end.

(** The states the object can be in between calls, in a process that is
    alive. *)
Definition reachable (c : MihomoCore) : Prop :=
  gone c = false /\ exists l, c = fst (run l constructed).

(** *** Reading a trace *)

Definition state_writes (t : list effect) : list string :=
  flat_map (fun e => match e with StateWrite v => [v] | _ => [] end) t.

Definition state_events (t : list effect) : list string :=
  flat_map (fun e => match e with StateEvent v => [v] | _ => [] end) t.

Definition traffic_events (t : list effect) : list TrafficStats :=
  flat_map (fun e => match e with TrafficEvent st => [st] | _ => [] end) t.

Definition is_observer_event (e : effect) : bool :=
  match e with
  | StateEvent _ | TrafficEvent _ => true
  | _ => false
  end.

Definition observer_events (t : list effect) : list effect :=
  filter is_observer_event t.

(** The part of a trace that concerns the connection state: the
    assignments and the dispatches to the state observer, in order. *)
Definition is_state_effect (e : effect) : bool :=
  match e with
  | StateWrite _ | StateEvent _ => true
  | _ => false
  end.

Definition state_log (t : list effect) : list effect :=
  filter is_state_effect t.

(** [stateCallback_(v)] when a state observer is registered. *)
Definition dispatched (cb : callback) (v : string) : list effect :=
  if cb then [StateEvent v] else [].

(** The transitions of the connection state machine. *)
Definition transition (from to : string) : bool :=
  (String.eqb from "disconnected" && String.eqb to "connected")
  || (String.eqb from "connected" && String.eqb to "disconnecting")
  || (String.eqb from "disconnecting" && String.eqb to "disconnected").

(** Every value in [l] is reached from its predecessor (the first from
    [from]) by a transition. *)
Fixpoint follows_path (from : string) (l : list string) : bool :=
  match l with
  | [] => true
  | v :: l' => transition from v && follows_path v l'
  end.

(** What holds of the object between calls. *)
Definition lifecycle_inv (c : MihomoCore) : Prop :=
  logThread_ c = NotAThread /\
  if isRunning_ c then
    state_ c = "connected" /\ stopMonitoring_ c = false /\
    (trafficThread_ c = AtLoopTest \/ trafficThread_ c = InLoopBody)
  else
    state_ c = "disconnected" /\ trafficThread_ c = NotAThread.

(** The rest of the poll cycle the poller is in the middle of, if it is
    in one: what the caller of [join] waits for. *)
Definition finish_cycle (w : poll_env) : M unit :=
  t <- read trafficThread_ ;;
  match t with
  | InLoopBody => poll_cycle w
  | _ => ret tt
  end.

(** The operating-system calls by which [Stop] releases the process held
    in [c]; [r] is what the wait returns. *)
Definition release (r : Z) (c : MihomoCore) : list effect :=
  ((if processHandle_ c =? nullptr then []
    else [TerminateProcess (processHandle_ c) 0;
          WaitForSingleObject (processHandle_ c) 3000 r;
          CloseHandle (processHandle_ c)])
   ++ (if processThread_ c =? nullptr then []
       else [CloseHandle (processThread_ c)]))%list.

Definition is_terminate (e : effect) : bool :=
  match e with TerminateProcess _ _ => true | _ => false end.

(** The stored previous sample. *)
Definition baseline (c : MihomoCore) : Z * Z * Z :=
  (lastUpload_ c, lastDownload_ c, lastTime_ c).

(** The members [Stop] writes are given the values it leaves in them. *)
Definition torn_down (c : MihomoCore) : MihomoCore :=
  set_state_ "disconnected"
    (set_isRunning_ false
       (set_processId_ 0
          (set_processThread_ nullptr
             (set_processHandle_ nullptr c)))).

(** The object a [Stop] leaves behind when the join does not complete:
    the state announced, the stop flag raised, the thread aborted. *)
Definition stop_aborted (c : MihomoCore) : MihomoCore :=
  set_trafficThread_ Aborted
    (set_stopMonitoring_ true (set_state_ "disconnecting" c)).

(** The controller endpoint held by the object. *)
Definition endpoint (c : MihomoCore) : string * Z * string :=
  (controllerHost_ c, controllerPort_ c, controllerSecret_ c).


(** The port of the file, when it has one, fits [int]. *)
Definition port_fits (file : option string) : bool :=
  match file with
  | None => true
  | Some content =>
      match controllerRegex content with
      | Some (_, port) =>
          is_empty port || match stoi port with Some _ => true | None => false end
      | None => true
      end
  end.


(** *** Sample environments *)

Definition sample_config : string :=
  "mixed-port: 7890
external-controller: 127.0.0.1:9090
secret: 'abc'
".

(** A start that finds the file, spawns the engine and sees it alive. *)
Definition healthy_start : start_env :=
  {| start_file := Some sample_config;
     created := Some {| hProcess := 100; hThread := 104; dwProcessId := 4242 |};
     exit_code := Some STILL_ACTIVE |}.

(** A poll answered with the counters [up] and [down], at tick [now]. *)
Definition sample (up down now : Z) : poll_env :=
  {| traffic := Client.answering 200 (traffic_json up down); tick := now |}.

Definition quiet_stop : stop_env :=
  {| in_flight := sample 0 0 0; wait_result := 0 |}.

(** The object after [Init] and one successful [Start], no observer
    registered. *)
Definition started : MihomoCore :=
  fst (run [CallInit "C:\vortex" true; CallStart "C:\vortex\config.yaml" healthy_start]
         constructed).

(** The same with the four observers registered first, as the event
    channel's listen handler does. *)
Definition started_observed : MihomoCore :=
  fst (run [CallInit "C:\vortex" true;
            CallSetStateCallback true; CallSetTrafficCallback true;
            CallSetLogCallback true; CallSetErrorCallback true;
            CallStart "C:\vortex\config.yaml" healthy_start]
         constructed).

(** A reload the engine accepts (status 204) of a file whose port has
    eleven digits. *)
Definition long_port_reload : reload_env :=
  {| put_reply := Some 204;
     reload_file := Some "external-controller: 127.0.0.1:99999999999
secret: 'xyz'
" |}.

(** The poller scheduled for its loop test. *)
Definition wake : call := PollerStep (sample 0 0 0).

(** A running object with no traffic observer, the poller inside its
    loop body. *)
Definition unobserved : MihomoCore := fst (run [wake] started).

(** A running, observed object whose poller has taken one sample,
    (1000, 2000) at tick 60000, and is inside its next loop body. *)
Definition sampled : MihomoCore :=
  fst (run [wake; PollerStep (sample 1000 2000 60000); wake] started_observed).

(** The same object after its second sample, (1500, 2400) at tick 61000,
    stopped and started again, the poller inside the first loop body of
    the new session. *)
Definition restarted : MihomoCore :=
  fst (run [PollerStep (sample 1500 2400 61000);
            CallStop quiet_stop;
            CallStart "C:\vortex\config.yaml" healthy_start;
            wake]
         sampled).

(** A stop during which the poll in flight is answered with an upload
    counter of [2 ^ 63]. *)
Definition long_counter_stop : stop_env :=
  {| in_flight := sample 9223372036854775808 0 61000; wait_result := 0 |}.

(** The object at the join inside [Stop]: the state announced and the
    stop flag raised. *)
Definition stopping (c : MihomoCore) : MihomoCore :=
  set_stopMonitoring_ true (set_state_ "disconnecting" c).

(** The rate as the specification words it, in exact arithmetic: the
    counter difference divided by the elapsed seconds, truncated toward
    zero. *)
Definition exact_speed (current last elapsed_ms : Z) : Z :=
  Z.quot ((current - last) * 1000) elapsed_ms.

(** The object with another stored previous sample. *)
Definition with_baseline (b : Z * Z * Z) (c : MihomoCore) : MihomoCore :=
  let '(u, d, t) := b in
  set_lastTime_ t (set_lastDownload_ d (set_lastUpload_ u c)).

(* ===================================================================== *)
(** ** The liveness query *)
(* ===================================================================== *)

(** [MihomoCore::IsRunning]; [exit] is what [GetExitCodeProcess] answers
    ([None] when the query fails). *)
Definition IsRunning (exit : option Z) (c : MihomoCore) : bool :=
  if negb (isRunning_ c) || (processHandle_ c =? nullptr) then false
  else
    match exit with
    | Some exitCode => exitCode =? STILL_ACTIVE
    | None => false
    end.

(** [MihomoCore::GetState] *)
Definition GetState (c : MihomoCore) : string := state_ c.

(* ===================================================================== *)
(** ** Reading a run of the object *)
(* ===================================================================== *)

(** The object holds no engine process. *)
Definition holds_no_process (c : MihomoCore) : Prop :=
  processHandle_ c = nullptr /\ processThread_ c = nullptr.

(** The invocations of a registered callback. *)
Definition is_callback (e : effect) : bool :=
  match e with
  | StateEvent _ | TrafficEvent _ | ErrorEvent _ => true
  | _ => false
  end.

Definition callbacks (t : list effect) : list effect := filter is_callback t.

(** The call registers or clears a callback. *)
Definition registers (a : call) : bool :=
  match a with
  | CallSetStateCallback _ | CallSetTrafficCallback _
  | CallSetLogCallback _ | CallSetErrorCallback _ => true
  | _ => false
  end.

(** No callback is registered. *)
Definition no_observer (c : MihomoCore) : bool :=
  negb (stateCallback_ c) && negb (trafficCallback_ c)
  && negb (logCallback_ c) && negb (errorCallback_ c).

(** The handles a trace closes, in order. *)
Definition closed_handles (t : list effect) : list HANDLE :=
  flat_map (fun e => match e with CloseHandle h => [h] | _ => [] end) t.


(** The object with another controller endpoint. *)
Definition with_endpoint (e : string * Z * string) (c : MihomoCore) : MihomoCore :=
  let '(host, port, secret) := e in
  set_controllerSecret_ secret (set_controllerPort_ port (set_controllerHost_ host c)).

(** The line feed that ends a line of a configuration file. *)
Definition LF : string := String "010"%char EmptyString.

(** The controller line and the secret line of a configuration file. *)
Definition controller_line (host : string) (port : Z) : string :=
  ("external-controller: " ++ host ++ ":" ++ to_string port ++ LF)%string.

Definition secret_line (secret : string) : string :=
  ("secret: " ++ secret ++ LF)%string.




(* ===================================================================== *)
(** ** The event channel *)
(* ===================================================================== *)

Module Channel.

(** [PlatformChannel::event_sink_]: whether the pointer is set. *)
Record PlatformChannel : Type := mkPlatformChannel {
  event_sink_ : bool
}.

(** The listen function of the stream handler [Register] installs, on
    the channel and the core: it keeps the sink and registers the four
    callbacks. *)
Definition on_listen (s : PlatformChannel * MihomoCore) : PlatformChannel * MihomoCore :=
  ({| event_sink_ := true |},
   core_of ((SetStateCallback true ;;
             SetTrafficCallback true ;;
             SetLogCallback true ;;
             SetErrorCallback true) (snd s))).

(** The cancel function: it drops the sink and clears the callbacks. *)
Definition on_cancel (s : PlatformChannel * MihomoCore) : PlatformChannel * MihomoCore :=
  ({| event_sink_ := false |},
   core_of ((SetStateCallback false ;;
             SetTrafficCallback false ;;
             SetLogCallback false ;;
             SetErrorCallback false) (snd s))).

(** An event as [SendEvent] hands it to the sink: its type and, for a
    traffic update, the four numbers. *)
Inductive event : Type :=
| Success (type : string) (data : string + TrafficStats).

(** [PlatformChannel::SendEvent] *)
Definition SendEvent (type : string) (data : string + TrafficStats)
    (p : PlatformChannel) : list event :=
  if event_sink_ p then [Success type data] else [].

(** What the callbacks registered by [on_listen] do with an invocation. *)
Definition forward (p : PlatformChannel) (e : effect) : list event :=
  match e with
  | StateEvent state => SendEvent "vpn_state_changed" (inl state) p
  | TrafficEvent stats => SendEvent "traffic_update" (inr stats) p
  | ErrorEvent error => SendEvent "error" (inl error) p
  | _ => []
  end.

End Channel.

(* ===================================================================== *)
(** ** The log files *)
(* ===================================================================== *)

(** The files the object reads and writes: the content at a path, [None]
    where [std::ifstream] cannot open it. *)
Definition filesystem : Type := string -> option string.

Definition write_file (path content : string) (fs : filesystem) : filesystem :=
  fun p => if String.eqb p path then Some content else fs p.

(** [MihomoCore::GetLogs] *)
Definition GetLogs (fs : filesystem) (c : MihomoCore) : string :=
  let logPath := (workDir_ c ++ "\logs\mihomo.log")%string in
  match fs logPath with
  | Some content => content
  | None => "No logs available"
  end.

(** [MihomoCore::ExportLogs]; [time] is the clock's [time_t] and
    [writable] whether [std::ofstream] can open the export path. *)
Definition ExportLogs (time : Z) (writable : bool) (fs : filesystem) (c : MihomoCore)
  : string * filesystem :=
  let logs := GetLogs fs c in
  let exportPath := (workDir_ c ++ "\vortex_logs_" ++ to_string time ++ ".txt")%string in
  if writable then (exportPath, write_file exportPath logs fs)
  else ("", fs).

(** *** More sample environments *)

(** An engine that does not answer: the request is opened and the send
    fails. *)
Definition unreachable_engine : Client.exchange :=
  {| Client.opened := 11; Client.connected := 12; Client.requested := 13;
     Client.sent := false; Client.received := false;
     Client.status := None; Client.rounds := [] |}.

(** A start whose process is created and has exited with code 1 when the
    grace period is over. *)
Definition crashing_start : start_env :=
  {| start_file := Some sample_config;
     created := Some {| hProcess := 100; hThread := 104; dwProcessId := 4242 |};
     exit_code := Some 1 |}.

(** A whole session: initialise, start, two samples, stop. *)
Definition session : list call :=
  [CallInit "C:\vortex" true;
   CallStart "C:\vortex\config.yaml" healthy_start;
   wake;
   PollerStep (sample 1000 2000 60000);
   wake;
   PollerStep (sample 1500 2400 61000);
   CallStop quiet_stop].

(* ===================================================================== *)
(** ** Properties *)
(* ===================================================================== *)

(** *** Machine arithmetic *)

Lemma GetTickCount64_range (w : poll_env) : 0 <= GetTickCount64 w < two64.
Proof. apply Z.mod_pos_bound. reflexivity. Qed.

Lemma GetTickCount64_exact (w : poll_env) :
  0 <= tick w < two64 -> GetTickCount64 w = tick w.
Proof. apply Z.mod_small. Qed.

Lemma sub_i64_exact (a b : Z) :
  0 <= a <= INT64_MAX -> 0 <= b <= INT64_MAX -> sub_i64 a b = a - b.
Proof.
  unfold sub_i64, wrap_i64, INT64_MAX, INT64_MIN, two64. intros Ha Hb.
  rewrite Z.mod_small; lia.
Qed.

Lemma sub_u64_exact (now last : Z) :
  0 <= last <= now -> now < two64 -> sub_u64 now last = now - last.
Proof.
  unfold sub_u64, two64. intros H1 H2. apply Z.mod_small. lia.
Qed.

Lemma sub_u64_same (t : Z) : sub_u64 t t = 0.
Proof. unfold sub_u64. rewrite Z.sub_diag. reflexivity. Qed.

(** No time elapsed: the guard [timeDelta > 0] fails. *)
Lemma timeDelta_same (t : Z) : dpositive (timeDelta t t) = false.
Proof. unfold timeDelta. rewrite sub_u64_same. vm_compute. reflexivity. Qed.

(** One second elapsed: [timeDelta] is [1.0]. *)
Lemma timeDelta_one_second (t : Z) :
  0 <= t -> t + 1000 < two64 ->
  timeDelta (t + 1000) t = S754_finite false 4503599627370496 (-52).
Proof.
  intros H1 H2. unfold timeDelta.
  rewrite sub_u64_exact by lia.
  replace (t + 1000 - t) with 1000 by lia.
  vm_compute. reflexivity.
Qed.

(** *** The pattern matchers on sample files *)

Example controller_ex1 :
  controllerRegex "mixed-port: 7890
external-controller: 127.0.0.1:9090
secret: 'abc'" = Some ("127.0.0.1", "9090").
Proof. vm_compute. reflexivity. Qed.

Example controller_ex2 :
  controllerRegex "external-controller: localhost" = Some ("localhost", "").
Proof. vm_compute. reflexivity. Qed.

Example secret_ex1 :
  secretRegex "external-controller: 127.0.0.1:9090
secret: 'abc'
" = Some "abc".
Proof. vm_compute. reflexivity. Qed.

Example secret_ex2 : secretRegex "external-controller: 127.0.0.1:9090" = None.
Proof. vm_compute. reflexivity. Qed.

(* ===================================================================== *)
(** ** The control client *)
(* ===================================================================== *)

Lemma append_assoc (a b c : string) : ((a ++ b) ++ c = a ++ (b ++ c))%string.
Proof. induction a; cbn; congruence. Qed.

Lemma append_empty_r (a : string) : (a ++ "")%string = a.
Proof. induction a; cbn; congruence. Qed.

(** Calls on a handle that is not null are calls on a live handle. *)
Ltac live_calls :=
  let H := fresh "H" in
  let H' := fresh "H" in
  intros H; pose proof (proj2 (Z.eqb_neq _ _) H) as H';
  cbn; unfold on_live_handle; cbn; rewrite ?H'; cbn; auto.

(** The read loop returns normally, touches only [result], appending the
    bytes of its rounds, and calls only the query and the read, on its
    handle. *)
Lemma read_loop_run (h : HANDLE) (rounds : list Client.chunk) (l : Client.locals) :
  exists t,
    Client.read_loop h rounds l =
      (Some tt, Client.set_result (Client.result l ++ body_text rounds)%string l, t)
    /\ filter is_close t = []
    /\ (h <> nullptr -> forallb on_live_handle t = true).
Proof.
  revert l. induction rounds as [| r rest IH]; intros [s k q res].
  - eexists; cbn; rewrite append_empty_r; repeat split. live_calls.
  - cbn [Client.read_loop body_text].
    unfold Client.wbind, Client.call, Client.wret, Client.assign.
    destruct (Client.available r) as [size |]; [destruct (size =? 0) eqn:Z0 |].
    + eexists; cbn. rewrite append_empty_r. repeat split. live_calls.
    + destruct (Client.delivered r) as [bytes |].
      * destruct (IH (Client.set_result (res ++ bytes)%string (Client.mkLocals s k q res)))
          as (t & E & C & L).
        cbn in E |- *. rewrite E. eexists; cbn. rewrite append_assoc. repeat split.
        -- exact C.
        -- live_calls.
      * destruct (IH (Client.mkLocals s k q res)) as (t & E & C & L).
        cbn in E |- *. rewrite E. eexists; cbn. repeat split.
        -- exact C.
        -- live_calls.
    + eexists; cbn. rewrite append_empty_r. repeat split. live_calls.
Qed.

#[local] Arguments Client.wbind {A B} m k l /.
#[local] Arguments Client.wret {A} a l /.
#[local] Arguments Client.wthrow {A} l /.
#[local] Arguments Client.call e l /.
#[local] Arguments Client.assign f l /.
#[local] Arguments Client.read_loop : simpl never.
#[local] Arguments to_string : simpl never.

(** Unfold one request down to its calls. *)
Ltac run_request :=
  unfold Client.HttpGet, Client.HttpPut, Client.guarded, Client.try_get,
    Client.try_put, Client.open_request, obtained, summary, completes,
    Client.cleanup;
  cbn -[Z.eqb Z.leb Z.ltb String.append Client.read_loop].

(** Replace a run of the read loop by its shape. *)
Ltac read_rounds :=
  match goal with
  | |- context [Client.read_loop ?h ?r ?l] =>
      let t := fresh "t" in
      let E := fresh "E" in
      let C := fresh "C" in
      let L := fresh "L" in
      destruct (read_loop_run h r l) as (t & E & C & L); rewrite E; clear E
  end.

(** Split a trace into the calls and the closing of the handles. *)
Ltac split_calls :=
  first
    [ eexists [_]; split; reflexivity
    | eexists [_; _]; split; reflexivity
    | eexists [_; _; _]; split; reflexivity
    | eexists [_; _; _; _]; split; reflexivity
    | eexists [_; _; _; _; _]; split; reflexivity
    | eexists [_; _; _; _; _; _]; split; reflexivity
    | eexists [_; _; _; _; _; _; _]; split; reflexivity
    | eexists (_ :: _ :: _ :: _ :: _ :: _); split; [reflexivity | cbn; assumption]
    | eexists (_ :: _ :: _ :: _ :: _ :: _ :: _); split; [reflexivity | cbn; assumption] ].

(** Normalise a run: compute, and decide the null tests that are known. *)
Ltac settle :=
  repeat first
    [ progress cbn -[Z.eqb Z.leb Z.ltb String.append Client.read_loop]
    | progress change (nullptr =? nullptr) with true
    | progress unfold on_live_handle
    | match goal with H : (_ =? nullptr) = _ |- _ => rewrite H end ].

(** The three null tests of a request. *)
Ltac by_handles x :=
  destruct (Client.opened x =? nullptr) eqn:?;
    [| destruct (Client.connected x =? nullptr) eqn:?;
       [| destruct (Client.requested x =? nullptr) eqn:? ] ];
  settle.

(** The status test of a [PUT]. *)
Ltac by_status x :=
  destruct ((200 <=? match Client.status x with Some code => code | None => 0 end)
            && (match Client.status x with Some code => code | None => 0 end <? 300));
  settle.

(** X1.  [HttpGet] releases what it acquired on every path: whichever
    call fails, its trace ends with exactly one [WinHttpCloseHandle] for
    each handle it obtained, the request first and the session last, and
    no handle is closed before that. *)
Theorem HttpGet_closes_what_it_opens (path : string) (x : Client.exchange) (c : MihomoCore) :
  exists calls,
    snd (Client.HttpGet path x c) =
      (calls ++ map Client.WinHttpCloseHandle (rev (obtained x)))%list
    /\ filter is_close calls = [].
Proof.
  run_request. by_handles x; try split_calls.
  destruct (is_empty (controllerSecret_ c)), (Client.sent x), (Client.received x);
    settle; try read_rounds; settle; split_calls.
Qed.

(** X2.  [HttpPut] releases what it acquired on every path, in the same
    way: one close for each handle obtained, in reverse order of
    acquisition, at the end of the trace. *)
Theorem HttpPut_closes_what_it_opens (path body : string) (x : Client.exchange)
    (c : MihomoCore) :
  exists calls,
    snd (Client.HttpPut path body x c) =
      (calls ++ map Client.WinHttpCloseHandle (rev (obtained x)))%list
    /\ filter is_close calls = [].
Proof.
  run_request. by_handles x; try split_calls.
  destruct (Client.sent x), (Client.received x); settle; try split_calls.
  by_status x; split_calls.
Qed.

(** X3.  Neither request ever passes a null handle to WinHTTP: every call
    that takes a handle is made on one that was obtained and found not
    null, also the closing calls after a failure. *)
Theorem no_call_on_null_handle (path body : string) (x : Client.exchange) (c : MihomoCore) :
  forallb on_live_handle (snd (Client.HttpGet path x c)) = true
  /\ forallb on_live_handle (snd (Client.HttpPut path body x c)) = true.
Proof.
  split; run_request.
  - by_handles x; try reflexivity.
    destruct (is_empty (controllerSecret_ c)), (Client.sent x), (Client.received x);
      settle; try read_rounds; settle; try reflexivity.
    all: unfold on_live_handle in L;
      rewrite forallb_app, L by (apply Z.eqb_neq; assumption);
      settle; reflexivity.
  - by_handles x; try reflexivity.
    destruct (Client.sent x), (Client.received x); settle; try reflexivity.
    by_status x; reflexivity.
Qed.

(** What [HttpGet] returns. *)
Lemma HttpGet_fst (path : string) (x : Client.exchange) (c : MihomoCore) :
  fst (Client.HttpGet path x c) =
    if completes x then body_text (Client.rounds x) else "".
Proof.
  run_request. by_handles x; try reflexivity.
  destruct (is_empty (controllerSecret_ c)), (Client.sent x), (Client.received x);
    settle; try read_rounds; reflexivity.
Qed.

(** What [HttpPut] returns. *)
Lemma HttpPut_fst (path body : string) (x : Client.exchange) (c : MihomoCore) :
  fst (Client.HttpPut path body x c) = HttpPut (summary x).
Proof.
  unfold HttpPut. run_request. by_handles x; try reflexivity.
  destruct (Client.sent x), (Client.received x); settle; try reflexivity.
  by_status x; reflexivity.
Qed.

(** X4.  [HttpGet] returns the empty string when any call up to the
    response fails, and otherwise the bytes read, in order, up to the
    first round whose query fails or reports no data; a read that fails
    contributes nothing and does not end the loop.  The result does not
    depend on the path, the endpoint or the secret. *)
Theorem HttpGet_result (path : string) (x : Client.exchange) (c : MihomoCore) :
  fst (Client.HttpGet path x c) =
    if completes x then body_text (Client.rounds x) else "".
Proof. apply HttpGet_fst. Qed.

(** X5.  The call-by-call [HttpPut] returns what the one-line [HttpPut]
    used by [ReloadConfig] returns on the summary of the exchange: the
    success marker exactly when every call succeeds and the status code
    (zero when the header query fails) is 2xx. *)
Theorem HttpPut_refines (path body : string) (x : Client.exchange) (c : MihomoCore) :
  fst (Client.HttpPut path body x c) = HttpPut (summary x).
Proof. apply HttpPut_fst. Qed.

(* ===================================================================== *)
(** ** Patterns and numerals *)
(* ===================================================================== *)

Lemma regex_search_sound {A : Type} (here : string -> option A) (P : A -> Prop) :
  (forall s v, here s = Some v -> P v) ->
  forall s v, regex_search here s = Some v -> P v.
Proof.
  intros H s. induction s as [| c r IH]; intros v; cbn.
  - destruct (here "") eqn:E; [intros [= <-]; eauto | discriminate].
  - destruct (here (String c r)) eqn:E; [intros [= <-]; eauto | apply IH].
Qed.

(** The search passes over a run of characters at none of which the
    pattern can start. *)
Lemma regex_search_skip {A : Type} (here : string -> option A) (f : ascii -> bool) :
  (forall c r, f c = true -> here (String c r) = None) ->
  forall a b, all_chars f a = true ->
  regex_search here (a ++ b) = regex_search here b.
Proof.
  intros H a b. induction a as [| c r IH]; cbn [all_chars append]; [reflexivity |].
  intros E. apply andb_prop in E. destruct E as [E1 E2].
  cbn [regex_search]. rewrite (H _ _ E1). exact (IH E2).
Qed.

Lemma search_miss {A : Type} (here : string -> option A) (c : ascii) (r : string) :
  here (String c r) = None -> regex_search here (String c r) = regex_search here r.
Proof. intros H. cbn [regex_search]. rewrite H. reflexivity. Qed.

Lemma search_hit {A : Type} (here : string -> option A) (s : string) (v : A) :
  here s = Some v -> regex_search here s = Some v.
Proof. intros H. destruct s; cbn [regex_search]; rewrite H; reflexivity. Qed.

Lemma span_all (f : ascii -> bool) (s : string) :
  all_chars f (fst (span f s)) = true.
Proof.
  induction s as [| c r IH]; cbn; [reflexivity |].
  destruct (f c) eqn:E; [| reflexivity].
  destruct (span f r); cbn in *. rewrite E, IH. reflexivity.
Qed.

Lemma span_append (f : ascii -> bool) (a b : string) :
  all_chars f a = true -> stops f b = true -> span f (a ++ b) = (a, b).
Proof.
  intros A B. induction a as [| c r IH]; cbn [append all_chars] in *.
  - destruct b as [| c r]; cbn in *; [reflexivity |].
    apply negb_true_iff in B. rewrite B. reflexivity.
  - apply andb_prop in A. destruct A as [A1 A2]. cbn. rewrite A1, (IH A2). reflexivity.
Qed.

Lemma span_none (f : ascii -> bool) (s : string) :
  stops f s = true -> span f s = ("", s).
Proof. intros H. exact (span_append f "" s eq_refl H). Qed.

Lemma optional_none (f : ascii -> bool) (s : string) :
  stops f s = true -> optional f s = s.
Proof.
  destruct s as [| a r]; [reflexivity |]. cbn. intros H.
  apply negb_true_iff in H. rewrite H. reflexivity.
Qed.

Lemma stops_append (f g : ascii -> bool) (a b : string) :
  (forall ch, f ch = true -> g ch = false) ->
  all_chars f a = true -> is_empty a = false -> stops g (a ++ b) = true.
Proof.
  intros H A N. destruct a as [| ch r]; [discriminate |].
  cbn [all_chars] in A. apply andb_prop in A. destruct A as [A _].
  cbn. rewrite (H ch A). reflexivity.
Qed.

Lemma literal_append (p s : string) : literal p (p ++ s) = Some s.
Proof.
  induction p as [| c r IH]; cbn; [reflexivity |].
  rewrite Ascii.eqb_refl. exact IH.
Qed.

Lemma digit_value (c : ascii) :
  is_digit c = true -> 0 <= Z.of_nat (nat_of_ascii c) - 48 <= 9.
Proof.
  unfold is_digit. cbv zeta. intros H. apply andb_prop in H.
  destruct H as [H1 H2]. apply Z.leb_le in H1, H2. lia.
Qed.

Lemma digit_not_space (c : ascii) : is_digit c = true -> is_space c = false.
Proof.
  unfold is_digit, is_space. cbv zeta. intros H. apply andb_prop in H.
  destruct H as [H1 H2]. apply Z.leb_le in H1, H2.
  apply orb_false_iff. split; [apply Z.eqb_neq; lia |].
  apply andb_false_iff. right. apply Z.leb_gt. lia.
Qed.

Lemma digit_not_dquote (c : ascii) : is_digit c = true -> Ascii.eqb dquote c = false.
Proof.
  intros H. destruct (Ascii.eqb dquote c) eqn:E; [| reflexivity].
  apply Ascii.eqb_eq in E. subst c. discriminate H.
Qed.

Lemma host_not_space (ch : ascii) : host_char ch = true -> is_space ch = false.
Proof.
  unfold host_char. intros H. apply negb_true_iff in H.
  apply orb_false_iff in H. tauto.
Qed.

Lemma host_not_quote (ch : ascii) : host_char ch = true -> is_quote ch = false.
Proof.
  unfold host_char. intros H. apply negb_true_iff in H.
  apply orb_false_iff in H. destruct H as [H _]. apply orb_false_iff in H. tauto.
Qed.

Lemma secret_not_space (ch : ascii) : secret_char ch = true -> is_space ch = false.
Proof.
  unfold secret_char. intros H. apply negb_true_iff in H.
  apply orb_false_iff in H. tauto.
Qed.

Lemma secret_not_quote (ch : ascii) : secret_char ch = true -> is_quote ch = false.
Proof.
  unfold secret_char. intros H. apply negb_true_iff in H.
  apply orb_false_iff in H. tauto.
Qed.

Lemma decimal_nonneg (s : string) :
  all_chars is_digit s = true -> forall acc, 0 <= acc -> 0 <= decimal acc s.
Proof.
  induction s as [| c r IH]; cbn [all_chars decimal]; intros H acc A; [exact A |].
  apply andb_prop in H. destruct H as [H1 H2].
  apply (IH H2). pose proof (digit_value c H1). lia.
Qed.

Lemma print_digits (d : Decimal.uint) :
  all_chars is_digit (DecimalString.NilEmpty.string_of_uint d) = true.
Proof. induction d; cbn; assumption || reflexivity. Qed.

Lemma decimal_print_acc (d : Decimal.uint) (acc : positive) :
  decimal (Zpos acc) (DecimalString.NilEmpty.string_of_uint d) =
    Zpos (Pos.of_uint_acc d acc).
Proof.
  revert acc.
  induction d; intros acc;
    cbn [DecimalString.NilEmpty.string_of_uint decimal Pos.of_uint_acc];
    [reflexivity | ..];
    match goal with
    | |- decimal ?a _ = Zpos (Pos.of_uint_acc _ ?b) =>
        replace a with (Zpos b)
          by (match goal with
              | |- context [Z.of_nat ?n] =>
                  let v := eval vm_compute in (Z.of_nat n) in
                  change (Z.of_nat n) with v
              end; lia);
        apply IHd
    end.
Qed.

Lemma decimal_print (d : Decimal.uint) :
  decimal 0 (DecimalString.NilEmpty.string_of_uint d) = Z.of_N (Pos.of_uint d).
Proof.
  induction d; cbn [DecimalString.NilEmpty.string_of_uint decimal Pos.of_uint];
    [reflexivity | exact IHd | ..];
    match goal with
    | |- decimal ?a _ = Z.of_N (N.pos (Pos.of_uint_acc _ ?b)) =>
        change a with (Zpos b); apply decimal_print_acc
    end.
Qed.

(** [std::to_string] of a number that is not negative is a numeral:
    digits only, at least one, and its value is the number. *)
Lemma to_string_numeral (n : Z) :
  0 <= n ->
  all_chars is_digit (to_string n) = true
  /\ is_empty (to_string n) = false
  /\ decimal 0 (to_string n) = n.
Proof.
  intros H. destruct n as [| p | p]; [cbn; auto | | lia].
  unfold to_string. cbn [Z.to_int DecimalString.NilZero.string_of_int].
  assert (N : DecimalString.NilZero.string_of_uint (Pos.to_uint p)
              = DecimalString.NilEmpty.string_of_uint (Pos.to_uint p)).
  { destruct (Pos.to_uint p) eqn:E; try reflexivity.
    exfalso. pose proof (DecimalPos.Unsigned.of_to p) as O. rewrite E in O. discriminate. }
  rewrite N. split; [apply print_digits | split].
  - destruct (Pos.to_uint p) eqn:E; try reflexivity.
    exfalso. pose proof (DecimalPos.Unsigned.of_to p) as O. rewrite E in O. discriminate.
  - rewrite decimal_print, DecimalPos.Unsigned.of_to. reflexivity.
Qed.

Lemma stoll_to_string (n : Z) :
  0 <= n -> Client.stoll (to_string n) = if n <=? INT64_MAX then Some n else None.
Proof.
  intros H. destruct (to_string_numeral n H) as (_ & _ & V).
  unfold Client.stoll. cbv zeta. rewrite V. reflexivity.
Qed.

Lemma stoi_to_string (n : Z) :
  0 <= n -> stoi (to_string n) = if n <=? INT_MAX then Some n else None.
Proof.
  intros H. destruct (to_string_numeral n H) as (_ & _ & V).
  unfold stoi. cbv zeta. rewrite V. reflexivity.
Qed.

Lemma stoll_range (d : string) (v : Z) :
  all_chars is_digit d = true -> Client.stoll d = Some v -> 0 <= v <= INT64_MAX.
Proof.
  intros A. unfold Client.stoll. cbv zeta.
  destruct (decimal 0 d <=? INT64_MAX) eqn:E; [| discriminate].
  intros [= <-]. apply Z.leb_le in E. split; [| exact E].
  apply decimal_nonneg; [exact A | lia].
Qed.

Lemma stoi_range (d : string) (v : Z) :
  all_chars is_digit d = true -> stoi d = Some v -> 0 <= v <= INT_MAX.
Proof.
  intros A. unfold stoi. cbv zeta.
  destruct (decimal 0 d <=? INT_MAX) eqn:E; [| discriminate].
  intros [= <-]. apply Z.leb_le in E. split; [| exact E].
  apply decimal_nonneg; [exact A | lia].
Qed.

(** *** The patterns of the queries *)

Lemma version_here_nonempty (s v : string) :
  Client.version_here s = Some v -> is_empty v = false.
Proof.
  unfold Client.version_here.
  destruct (Client.member_here "version" s) as [r |]; [| discriminate].
  destruct r as [| c r]; [discriminate |].
  destruct (Ascii.eqb c dquote); [| discriminate].
  destruct (span Client.not_dquote r) as [text rest].
  destruct (is_empty text) eqn:E; [discriminate |].
  destruct rest; [discriminate |]. intros [= <-]. exact E.
Qed.

Lemma number_here_numeral (name s d : string) :
  Client.number_here name s = Some d ->
  all_chars is_digit d = true /\ is_empty d = false.
Proof.
  unfold Client.number_here.
  destruct (Client.member_here name s) as [r |]; [| discriminate].
  pose proof (span_all is_digit r) as A.
  destruct (span is_digit r) as [digits rest]. cbn [fst] in A.
  destruct (is_empty digits) eqn:E; [discriminate |].
  intros [= <-]. split; assumption.
Qed.

Lemma number_search_numeral (name s d : string) :
  regex_search (Client.number_here name) s = Some d ->
  all_chars is_digit d = true /\ is_empty d = false.
Proof.
  apply (regex_search_sound (Client.number_here name)
           (fun d => all_chars is_digit d = true /\ is_empty d = false)).
  intros s' v. apply number_here_numeral.
Qed.

Lemma parse_counter_range (name s : string) (v : Z) :
  Client.parse_counter (regex_search (Client.number_here name) s) 0 = Normal v ->
  0 <= v <= INT64_MAX.
Proof.
  unfold Client.parse_counter.
  destruct (regex_search (Client.number_here name) s) as [digits |] eqn:E.
  - apply number_search_numeral in E. destruct E as [E _].
    destruct (Client.stoll digits) as [n |] eqn:S; [| discriminate].
    intros [= <-]. exact (stoll_range _ _ E S).
  - intros [= <-]. unfold INT64_MAX. lia.
Qed.

Lemma member_at (name s : string) :
  stops is_space s = true ->
  Client.member_here name (Client.quoted name ++ ":" ++ s) = Some s.
Proof.
  intros S. unfold Client.member_here. rewrite literal_append.
  change (":" ++ s)%string with (String ":" s).
  rewrite (span_none is_space (String ":" s) eq_refl). cbn [snd].
  change (literal ":" (String ":" s)) with (Some s). cbv beta iota.
  rewrite (span_none is_space s S). reflexivity.
Qed.

(** The pattern of a numeric member matches where the member starts and
    captures its numeral. *)
Lemma number_at (name digits rest : string) :
  all_chars is_digit digits = true -> is_empty digits = false ->
  stops is_digit rest = true ->
  Client.number_here name (Client.quoted name ++ ":" ++ digits ++ rest) = Some digits.
Proof.
  intros A N S. unfold Client.number_here.
  rewrite (member_at name _ (stops_append is_digit is_space _ _ digit_not_space A N)).
  rewrite (span_append _ _ _ A S). rewrite N. reflexivity.
Qed.

Lemma number_not_at (name : string) (c : ascii) (r : string) :
  is_digit c = true -> Client.number_here name (String c r) = None.
Proof.
  intros H. unfold Client.number_here, Client.member_here, Client.quoted.
  cbn [literal]. rewrite (digit_not_dquote c H). reflexivity.
Qed.

Lemma version_at (version rest : string) :
  all_chars Client.not_dquote version = true -> is_empty version = false ->
  Client.version_here
    (Client.quoted "version" ++ ":" ++ Client.quoted version ++ rest) = Some version.
Proof.
  intros A N. unfold Client.version_here.
  rewrite (member_at "version" (Client.quoted version ++ rest) eq_refl).
  unfold Client.quoted. cbn [append]. rewrite Ascii.eqb_refl. rewrite append_assoc.
  change (String dquote "" ++ rest)%string with (String dquote rest).
  rewrite (span_append Client.not_dquote version (String dquote rest) A eq_refl).
  rewrite N. reflexivity.
Qed.

Lemma up_of_traffic_json (u d : Z) :
  0 <= u -> Client.upRegex (traffic_json u d) = Some (to_string u).
Proof.
  intros U. destruct (to_string_numeral u U) as (A & N & _).
  unfold Client.upRegex, traffic_json.
  cbn [append Client.quoted].
  rewrite search_miss by reflexivity.
  apply search_hit.
  refine (number_at "up" (to_string u) (String "," _) A N eq_refl).
Qed.

Lemma down_of_traffic_json (u d : Z) :
  0 <= u -> 0 <= d -> Client.downRegex (traffic_json u d) = Some (to_string d).
Proof.
  intros U D. destruct (to_string_numeral u U) as (A & _ & _).
  destruct (to_string_numeral d D) as (B & N & _).
  unfold Client.downRegex, traffic_json.
  cbn [append Client.quoted].
  do 6 rewrite search_miss by reflexivity.
  rewrite (regex_search_skip _ is_digit (number_not_at "down") _ _ A).
  rewrite search_miss by reflexivity.
  apply search_hit.
  exact (number_at "down" (to_string d) "}" B N eq_refl).
Qed.

Lemma delay_of_delay_json (n : Z) :
  0 <= n -> Client.delayRegex (delay_json n) = Some (to_string n).
Proof.
  intros H. destruct (to_string_numeral n H) as (A & N & _).
  unfold Client.delayRegex, delay_json.
  cbn [append Client.quoted].
  rewrite search_miss by reflexivity.
  apply search_hit.
  exact (number_at "delay" (to_string n) "}" A N eq_refl).
Qed.

Lemma version_of_version_json (meta : bool) (version : string) :
  all_chars Client.not_dquote version = true -> is_empty version = false ->
  Client.versionRegex (version_json meta version) = Some version.
Proof.
  intros A N. unfold Client.versionRegex, version_json.
  destruct meta; cbn [append Client.quoted].
  - do 13 rewrite search_miss by reflexivity.
    apply search_hit. exact (version_at version "}" A N).
  - rewrite search_miss by reflexivity.
    apply search_hit. exact (version_at version "}" A N).
Qed.

Lemma controller_of_line (host : string) (port : Z) (rest : string) :
  all_chars host_char host = true -> is_empty host = false -> 0 <= port ->
  controllerRegex (controller_line host port ++ rest) = Some (host, to_string port).
Proof.
  intros A N P. destruct (to_string_numeral port P) as (D & _ & _).
  unfold controllerRegex. apply search_hit.
  unfold controller_line, controller_here. rewrite !append_assoc.
  change ("external-controller: " ++ host ++ ":" ++ to_string port ++ LF ++ rest)%string
    with ("external-controller:"
            ++ (" " ++ (host ++ String ":" (to_string port ++ String "010" rest))))%string.
  rewrite literal_append.
  rewrite (span_append is_space " " _ eq_refl
             (stops_append host_char is_space host _ host_not_space A N)).
  cbn [snd].
  rewrite (optional_none is_quote _
             (stops_append host_char is_quote host _ host_not_quote A N)).
  rewrite (span_append host_char host (String ":" _) A eq_refl).
  rewrite N.
  change (optional is_colon (String ":" (to_string port ++ String "010" rest)))
    with (to_string port ++ String "010" rest)%string.
  rewrite (span_append is_digit (to_string port) (String "010" rest) D eq_refl).
  reflexivity.
Qed.

Lemma secret_of_line (secret rest : string) :
  all_chars secret_char secret = true -> is_empty secret = false ->
  secretRegex (secret_line secret ++ rest) = Some secret.
Proof.
  intros A N. unfold secretRegex. apply search_hit.
  unfold secret_line, secret_here. rewrite !append_assoc.
  change ("secret: " ++ secret ++ LF ++ rest)%string
    with ("secret:" ++ (" " ++ (secret ++ String "010" rest)))%string.
  rewrite literal_append.
  rewrite (span_append is_space " " _ eq_refl
             (stops_append secret_char is_space secret _ secret_not_space A N)).
  cbn [snd].
  rewrite (optional_none is_quote _
             (stops_append secret_char is_quote secret _ secret_not_quote A N)).
  rewrite (span_append secret_char secret (String "010" rest) A eq_refl).
  rewrite N. reflexivity.
Qed.

(* ===================================================================== *)
(** ** The queries of the control API *)
(* ===================================================================== *)

(** X6.  [GetVersion] never returns the empty string: whatever the engine
    answers, the result is a captured version of at least one character
    or the word unknown. *)
Theorem GetVersion_never_empty (x : Client.exchange) (c : MihomoCore) :
  is_empty (Client.GetVersion x c) = false.
Proof.
  unfold Client.GetVersion. cbv zeta.
  destruct (negb (is_empty (fst (Client.HttpGet "/version" x c)))); [| reflexivity].
  unfold Client.versionRegex.
  destruct (regex_search Client.version_here (fst (Client.HttpGet "/version" x c)))
    as [v |] eqn:E; [| reflexivity].
  revert E. apply (regex_search_sound Client.version_here (fun v => is_empty v = false)).
  exact version_here_nonempty.
Qed.

(** X7.  [GetVersion] reads back the version of a reply in the engine's
    format, with or without the [meta] member in front: any version text
    of at least one character and without a double quote is returned
    unchanged. *)
Theorem GetVersion_round_trip (meta : bool) (version : string)
    (x : Client.exchange) (c : MihomoCore) :
  all_chars Client.not_dquote version = true -> is_empty version = false ->
  fst (Client.HttpGet "/version" x c) = version_json meta version ->
  Client.GetVersion x c = version.
Proof.
  intros A N R. unfold Client.GetVersion. cbv zeta. rewrite R.
  change (negb (is_empty (version_json meta version))) with true. cbv iota.
  rewrite (version_of_version_json meta version A N). reflexivity.
Qed.

Lemma GetVersion_round_trip_witness :
  Client.GetVersion (Client.answering 200 (version_json true "v1.18.5")) constructed
  = "v1.18.5".
Proof. apply (GetVersion_round_trip true "v1.18.5"); reflexivity. Defined.

(** The counters [GetTrafficStats] returns fit [int64_t] and are not
    negative. *)
Lemma GetTrafficStats_in_range (x : Client.exchange) (c : MihomoCore) (stats : TrafficStats) :
  Client.GetTrafficStats x c = Normal stats ->
  0 <= upload stats <= INT64_MAX
  /\ 0 <= download stats <= INT64_MAX
  /\ uploadSpeed stats = 0 /\ downloadSpeed stats = 0.
Proof.
  unfold Client.GetTrafficStats, Client.upRegex, Client.downRegex. cbv zeta.
  destruct (negb (is_empty (fst (Client.HttpGet "/traffic" x c))));
    [| intros [= <-]; cbn; unfold INT64_MAX; lia].
  destruct (Client.parse_counter (regex_search (Client.number_here "up") _) 0)
    as [up | | |] eqn:U; try discriminate.
  destruct (Client.parse_counter (regex_search (Client.number_here "down") _) 0)
    as [down | | |] eqn:D; try discriminate.
  apply parse_counter_range in U, D. intros [= <-]. cbn. auto.
Qed.

(** X8.  Whenever [GetTrafficStats] returns, both counters lie in
    [0, INT64_MAX] and both rates are zero: the range the poller's
    subtraction relies on. *)
Theorem GetTrafficStats_range (x : Client.exchange) (c : MihomoCore) (stats : TrafficStats) :
  Client.GetTrafficStats x c = Normal stats ->
  0 <= upload stats <= INT64_MAX
  /\ 0 <= download stats <= INT64_MAX
  /\ uploadSpeed stats = 0 /\ downloadSpeed stats = 0.
Proof. apply GetTrafficStats_in_range. Qed.

Lemma GetTrafficStats_range_witness :
  Client.GetTrafficStats (Client.answering 200 (traffic_json 1500 2400)) constructed
  = Normal {| upload := 1500; download := 2400; uploadSpeed := 0; downloadSpeed := 0 |}
  /\ 0 <= 1500 <= INT64_MAX /\ 0 <= 2400 <= INT64_MAX.
Proof.
  split; [reflexivity |].
  destruct (GetTrafficStats_range
              (Client.answering 200 (traffic_json 1500 2400)) constructed
              {| upload := 1500; download := 2400; uploadSpeed := 0; downloadSpeed := 0 |}
              eq_refl) as (U & D & _).
  exact (conj U D).
Defined.

(** X9.  [GetTrafficStats] reads back the counters of a reply that prints
    them in decimal: both counters are returned exactly when both fit
    [int64_t], and the call throws when one does not. *)
Theorem GetTrafficStats_round_trip (up down : Z) (x : Client.exchange) (c : MihomoCore) :
  0 <= up -> 0 <= down ->
  fst (Client.HttpGet "/traffic" x c) = traffic_json up down ->
  Client.GetTrafficStats x c =
    if (up <=? INT64_MAX) && (down <=? INT64_MAX) then
      Normal {| upload := up; download := down; uploadSpeed := 0; downloadSpeed := 0 |}
    else Throw "stoll argument out of range".
Proof.
  intros U D R. unfold Client.GetTrafficStats. cbv zeta. rewrite R.
  change (negb (is_empty (traffic_json up down))) with true. cbv iota.
  rewrite (up_of_traffic_json up down U), (down_of_traffic_json up down U D).
  unfold Client.parse_counter.
  rewrite (stoll_to_string up U), (stoll_to_string down D).
  destruct (up <=? INT64_MAX), (down <=? INT64_MAX); reflexivity.
Qed.

Lemma GetTrafficStats_round_trip_witness :
  Client.GetTrafficStats
    (Client.answering 200 (traffic_json 9223372036854775807 9223372036854775808))
    constructed
  = Throw "stoll argument out of range".
Proof.
  apply (GetTrafficStats_round_trip 9223372036854775807 9223372036854775808);
    [lia | lia | reflexivity].
Defined.

(** X10.  Whenever [TestDelay] returns, the result is -1 or a delay in
    [0, INT_MAX]. *)
Theorem TestDelay_range (proxy url : string) (timeout : Z) (x : Client.exchange)
    (c : MihomoCore) (delay : Z) :
  Client.TestDelay proxy url timeout x c = Normal delay ->
  -1 <= delay <= INT_MAX.
Proof.
  unfold Client.TestDelay, Client.delayRegex. cbv zeta.
  assert (Z : -1 <= -1 <= INT_MAX) by (unfold INT_MAX; lia).
  destruct (negb (is_empty _)); [| intros [= <-]; exact Z].
  destruct (regex_search (Client.number_here "delay") _) as [digits |] eqn:D;
    [| intros [= <-]; exact Z].
  apply number_search_numeral in D. destruct D as [D _].
  destruct (stoi digits) as [v |] eqn:S; [| discriminate].
  intros [= <-]. apply (stoi_range _ _ D) in S. lia.
Qed.

Lemma TestDelay_range_witness :
  Client.TestDelay "DIRECT" "http://www.gstatic.com/generate_204" 5000
    (Client.answering 200 (delay_json 42)) constructed = Normal 42
  /\ -1 <= 42 <= INT_MAX.
Proof.
  split; [reflexivity |].
  apply (TestDelay_range "DIRECT" "http://www.gstatic.com/generate_204" 5000
           (Client.answering 200 (delay_json 42)) constructed 42).
  reflexivity.
Defined.

(** X11.  [TestDelay] reads back the delay of a reply that prints it in
    decimal: the delay is returned exactly when it fits [int], and the
    call throws when it does not. *)
Theorem TestDelay_round_trip (proxy url : string) (timeout delay : Z)
    (x : Client.exchange) (c : MihomoCore) :
  0 <= delay ->
  fst (Client.HttpGet (Client.delay_path proxy url timeout) x c) = delay_json delay ->
  Client.TestDelay proxy url timeout x c =
    if delay <=? INT_MAX then Normal delay else Throw "stoi argument out of range".
Proof.
  intros D R. unfold Client.TestDelay. cbv zeta. rewrite R.
  change (negb (is_empty (delay_json delay))) with true. cbv iota.
  rewrite (delay_of_delay_json delay D), (stoi_to_string delay D).
  destruct (delay <=? INT_MAX); reflexivity.
Qed.

Lemma TestDelay_round_trip_witness :
  Client.TestDelay "DIRECT" "http://www.gstatic.com/generate_204" 5000
    (Client.answering 200 (delay_json 2147483648)) constructed
  = Throw "stoi argument out of range".
Proof.
  apply (TestDelay_round_trip "DIRECT" "http://www.gstatic.com/generate_204" 5000
           2147483648); [lia | reflexivity].
Defined.

(** X12.  When the request fails at any call up to the response, every
    query falls back to its default and none throws: the version is the
    word unknown, the counters are zero, the delay is -1, the proxy switch
    reports failure and the connection list is empty. *)
Theorem failed_request_defaults (x : Client.exchange) (c : MihomoCore)
    (selector proxy url : string) (timeout : Z) :
  completes x = false ->
  Client.GetVersion x c = "unknown"
  /\ Client.GetTrafficStats x c = Normal no_traffic
  /\ Client.TestDelay proxy url timeout x c = Normal (-1)
  /\ Client.SwitchProxy selector proxy x c = false
  /\ Client.GetConnections x c = "".
Proof.
  intros F.
  unfold Client.GetVersion, Client.GetTrafficStats, Client.TestDelay,
    Client.SwitchProxy, Client.GetConnections. cbv zeta.
  rewrite !HttpGet_fst, HttpPut_fst. unfold summary. rewrite F.
  repeat split; reflexivity.
Qed.

Lemma failed_request_defaults_witness :
  Client.GetVersion unreachable_engine started = "unknown"
  /\ Client.GetTrafficStats unreachable_engine started = Normal no_traffic
  /\ Client.TestDelay "DIRECT" "http://www.gstatic.com/generate_204" 5000
       unreachable_engine started = Normal (-1)
  /\ Client.SwitchProxy "GLOBAL" "DIRECT" unreachable_engine started = false
  /\ Client.GetConnections unreachable_engine started = "".
Proof. apply failed_request_defaults. reflexivity. Defined.

(** X13.  [SwitchProxy] returns [true] exactly when every call of the
    request succeeds and the status code read is 2xx, whatever the
    selector and the proxy are. *)
Theorem SwitchProxy_accepted (selector proxy : string) (x : Client.exchange)
    (c : MihomoCore) :
  Client.SwitchProxy selector proxy x c =
    completes x
    && match Client.status x with
       | Some code => (200 <=? code) && (code <? 300)
       | None => false
       end.
Proof.
  unfold Client.SwitchProxy. cbv zeta. rewrite HttpPut_fst.
  unfold summary, HttpPut. destruct (completes x); [| reflexivity].
  destruct (Client.status x) as [code |]; cbn -[Z.leb Z.ltb];
    [destruct ((200 <=? code) && (code <? 300)) |]; reflexivity.
Qed.

(** *** One poll cycle *)

(** What [GetTrafficStats] returns does not depend on the object: the
    endpoint only says where the request goes. *)
Lemma GetTrafficStats_object (x : Client.exchange) (c c' : MihomoCore) :
  Client.GetTrafficStats x c = Client.GetTrafficStats x c'.
Proof. unfold Client.GetTrafficStats. rewrite !HttpGet_fst. reflexivity. Qed.

(** What a cycle does, by cases on the two guards, on what the query
    returns and on the two conversions. *)
Lemma poll_cycle_run (w : poll_env) (c : MihomoCore) :
  poll_cycle w c =
    if isRunning_ c && trafficCallback_ c then
      match Client.GetTrafficStats (traffic w) constructed with
      | Normal stats =>
          let dt := timeDelta (GetTickCount64 w) (lastTime_ c) in
          let c' :=
            set_lastTime_ (GetTickCount64 w)
              (set_lastDownload_ (download stats)
                 (set_lastUpload_ (upload stats) c)) in
          if (0 <? lastTime_ c) && dpositive dt then
            match speed (upload stats) (lastUpload_ c) dt with
            | Some up_speed =>
                match speed (download stats) (lastDownload_ c) dt with
                | Some down_speed =>
                    (Normal tt, c',
                     [ControlApi "GET" "/traffic" "";
                      TrafficEvent
                        {| upload := upload stats;
                           download := download stats;
                           uploadSpeed := up_speed;
                           downloadSpeed := down_speed |};
                      Sleep 1000])
                | None => (Undefined, c, [ControlApi "GET" "/traffic" ""])
                end
            | None => (Undefined, c, [ControlApi "GET" "/traffic" ""])
            end
          else (Normal tt, c', [ControlApi "GET" "/traffic" ""; Sleep 1000])
      | Throw what => (Throw what, c, [ControlApi "GET" "/traffic" ""])
      | Undefined => (Undefined, c, [ControlApi "GET" "/traffic" ""])
      | Terminated => (Terminated, c, [ControlApi "GET" "/traffic" ""])
      end
    else (Normal tt, c, [Sleep 1000]).
Proof.
  unfold poll_cycle, GetTrafficStats, bind, read, when.
  destruct (isRunning_ c && trafficCallback_ c); [| reflexivity].
  cbn -[timeDelta speed dpositive Z.ltb Client.GetTrafficStats GetTickCount64].
  rewrite (GetTrafficStats_object (traffic w) c constructed).
  destruct (Client.GetTrafficStats (traffic w) constructed) as [stats | what | |];
    try reflexivity.
  destruct ((0 <? lastTime_ c) && dpositive (timeDelta (GetTickCount64 w) (lastTime_ c)));
    [| reflexivity].
  cbn -[timeDelta speed dpositive Z.ltb GetTickCount64].
  destruct (speed (upload stats) (lastUpload_ c) (timeDelta (GetTickCount64 w) (lastTime_ c)));
    [| reflexivity].
  cbn -[timeDelta speed dpositive Z.ltb GetTickCount64].
  destruct (speed (download stats) (lastDownload_ c) (timeDelta (GetTickCount64 w) (lastTime_ c)));
    reflexivity.
Qed.

(** Member assignments on an explicit object and the steps of the monad
    compute; the arithmetic of the poller and the pattern matchers stay
    folded. *)
#[local] Arguments set_workDir_ v !c /.
#[local] Arguments set_corePath_ v !c /.
#[local] Arguments set_configPath_ v !c /.
#[local] Arguments set_state_ v !c /.
#[local] Arguments set_controllerHost_ v !c /.
#[local] Arguments set_controllerPort_ v !c /.
#[local] Arguments set_controllerSecret_ v !c /.
#[local] Arguments set_processHandle_ v !c /.
#[local] Arguments set_processThread_ v !c /.
#[local] Arguments set_processId_ v !c /.
#[local] Arguments set_isRunning_ v !c /.
#[local] Arguments set_stopMonitoring_ v !c /.
#[local] Arguments set_logThread_ v !c /.
#[local] Arguments set_trafficThread_ v !c /.
#[local] Arguments set_lastUpload_ v !c /.
#[local] Arguments set_lastDownload_ v !c /.
#[local] Arguments set_lastTime_ v !c /.
#[local] Arguments set_stateCallback_ v !c /.
#[local] Arguments set_trafficCallback_ v !c /.
#[local] Arguments set_logCallback_ v !c /.
#[local] Arguments set_errorCallback_ v !c /.
#[local] Arguments bind {A B} m k c /.
#[local] Arguments ret {A} a c /.
#[local] Arguments read {A} f c /.
#[local] Arguments write f c /.
#[local] Arguments emit e c /.
#[local] Arguments throw {A} what c /.
#[local] Arguments undefined {A} c /.
#[local] Arguments defined {A} !o /.
#[local] Arguments in_thread body c /.
#[local] Arguments GetTrafficStats x c /.
#[local] Arguments when b m /.
#[local] Arguments notify_state c /.
#[local] Arguments notify_error msg c /.
#[local] Arguments assign_state v c /.
#[local] Arguments result_of {A} !r /.
#[local] Arguments core_of {A} !r /.
#[local] Arguments trace_of {A} !r /.
#[local] Arguments effect_of {A} m c /.
#[local] Arguments timeDelta : simpl never.
#[local] Arguments speed : simpl never.
#[local] Arguments dpositive : simpl never.
#[local] Arguments controllerRegex : simpl never.
#[local] Arguments secretRegex : simpl never.
#[local] Arguments stoi : simpl never.
#[local] Arguments poll_cycle : simpl never.
#[local] Arguments GetTickCount64 : simpl never.
#[local] Arguments Client.GetTrafficStats : simpl never.
#[local] Arguments ParseControllerSettings : simpl never.

Ltac compute_core :=
  cbn -[Z.ltb Z.eqb Z.leb String.eqb String.append] in *.

(** *** The resolver *)

(** The resolver writes the three endpoint members and nothing else, has
    no effect outside the object, and returns or throws the exception of
    [std::stoi]. *)
Lemma parse_shape (file : option string) (c : MihomoCore) :
  exists r host port secret,
    ParseControllerSettings file c =
      (r,
       set_controllerSecret_ secret
         (set_controllerPort_ port (set_controllerHost_ host c)),
       [])
    /\ (r = Normal tt \/ r = Throw "stoi argument out of range").
Proof.
  destruct c. unfold ParseControllerSettings.
  destruct file as [content |]; [| compute_core; repeat eexists; auto].
  destruct (controllerRegex content) as [[host port] |];
    [destruct (is_empty port); [| destruct (stoi port)] |];
    destruct (secretRegex content); compute_core;
    repeat eexists; auto.
Qed.

(** Both outcomes of a test, every outcome of a call. *)
Ltac branch :=
  match goal with
  | |- context [if negb ?b then _ else _] => destruct b eqn:?
  | |- context [if ?b then _ else _] => destruct b eqn:?
  | |- context [match ?o with Some _ => _ | None => _ end] => destruct o eqn:?
  | |- context [match ?r with
                | Normal _ => _ | Throw _ => _ | Undefined => _ | Terminated => _
                end] =>
      destruct r eqn:?
  end.

(** Replace a run of the resolver by its shape. *)
Ltac resolve_parse :=
  match goal with
  | |- context [ParseControllerSettings ?f ?c] =>
      let r := fresh "r" in
      let E := fresh "E" in
      let R := fresh "R" in
      destruct (parse_shape f c) as (r & ? & ? & ? & E & [R | R]);
      rewrite E; clear E; subst r
  end.

(** Evaluate a call on an explicit object: the resolver by its shape, a
    poll cycle by its cases, a test by both outcomes. *)
Ltac evaluate :=
  first [resolve_parse | rewrite poll_cycle_run | branch].

(** A handle that tests equal to [nullptr] is [nullptr]. *)
Ltac null_handles :=
  repeat match goal with
         | H : (?h =? nullptr) = true |- _ => apply Z.eqb_eq in H; subst h
         end.

Lemma is_empty_true (s : string) : is_empty s = true <-> s = "".
Proof. destruct s; cbn; split; congruence. Qed.

Lemma is_empty_false (s : string) : is_empty s = false <-> s <> "".
Proof. destruct s; cbn; split; congruence. Qed.


(** The resolver returns normally exactly when the port fits. *)
Lemma parse_returns (file : option string) (c : MihomoCore) :
  result_of (ParseControllerSettings file c) = Normal tt <-> port_fits file = true.
Proof.
  destruct c. unfold ParseControllerSettings, port_fits.
  destruct file as [content |]; [| compute_core; tauto].
  destruct (controllerRegex content) as [[host port] |];
    [destruct (is_empty port); [| destruct (stoi port)] |];
    destruct (secretRegex content); compute_core; cbn;
    split; congruence.
Qed.





(** The resolver does not look at the configuration path. *)
Lemma parse_ignores_configPath (file : option string) (cfg : string) (c : MihomoCore) :
  ParseControllerSettings file (set_configPath_ cfg c) =
    (result_of (ParseControllerSettings file c),
     set_configPath_ cfg (core_of (ParseControllerSettings file c)),
     []).
Proof.
  destruct c. unfold ParseControllerSettings.
  destruct file as [content |]; [| reflexivity].
  destruct (controllerRegex content) as [[host port] |];
    [destruct (is_empty port); [| destruct (stoi port)] |];
    destruct (secretRegex content); compute_core; reflexivity.
Qed.

(** *** Lifecycle calls *)

Lemma Start_running (cfg : string) (w : start_env) (c : MihomoCore) :
  isRunning_ c = true -> Start cfg w c = (Normal true, c, []).
Proof. intros H. unfold Start. compute_core. rewrite H. reflexivity. Qed.

Lemma Stop_stopped (w : stop_env) (c : MihomoCore) :
  isRunning_ c = false -> Stop w c = (Normal true, c, []).
Proof. intros H. unfold Stop. compute_core. rewrite H. reflexivity. Qed.

(** With the stop flag raised, two steps bring a poller that is in its
    loop to its exit, when the cycle it may be in completes. *)
Lemma join_runs_to_exit (w : poll_env) (c : MihomoCore) :
  stopMonitoring_ c = true ->
  trafficThread_ c = AtLoopTest \/ trafficThread_ c = InLoopBody ->
  result_of (finish_cycle w c) = Normal tt ->
  trafficThread_ (core_of ((poller_step w ;; poller_step w) c)) = Finished.
Proof.
  destruct c as [? ? ? ? ? ? ? ? ? ? ? stop ? tt' ? ? ? ? ? ? ?].
  compute_core. intros -> [-> | ->]; unfold poller_step, finish_cycle; compute_core;
    repeat (evaluate; compute_core); intros; try discriminate; reflexivity.
Qed.

(** *** The connection state along call sequences *)

Lemma state_writes_app (t1 t2 : list effect) :
  state_writes (t1 ++ t2) = (state_writes t1 ++ state_writes t2)%list.
Proof. apply flat_map_app. Qed.

Lemma last_cons (v : string) (l : list string) (d : string) :
  last (v :: l) d = last l v.
Proof.
  revert v d. induction l as [| a l IH]; intros v d; [reflexivity |].
  change (last (v :: a :: l) d) with (last (a :: l) d).
  rewrite (IH a d), (IH a v). reflexivity.
Qed.

Lemma follows_path_app (l1 l2 : list string) (from : string) :
  follows_path from (l1 ++ l2) =
    follows_path from l1 && follows_path (last l1 from) l2.
Proof.
  revert from. induction l1 as [| v l1 IH]; intros from; [reflexivity |].
  cbn [app follows_path]. rewrite IH, last_cons, andb_assoc. reflexivity.
Qed.

Lemma last_app_default (l1 l2 : list string) (from : string) :
  last (l1 ++ l2) from = last l2 (last l1 from).
Proof.
  revert from. induction l1 as [| v l1 IH]; intros from; [reflexivity |].
  change ((v :: l1) ++ l2)%list with (v :: (l1 ++ l2))%list.
  rewrite !last_cons. apply IH.
Qed.

(** One call or poller step: the invariant is kept as long as the
    process is alive, the writes to [state_] follow the machine from the
    value held before, and the value held afterwards is the last one
    written. *)
Lemma exec_step (a : call) (c : MihomoCore) :
  lifecycle_inv c ->
  (gone (fst (exec a c)) = false -> lifecycle_inv (fst (exec a c)))
  /\ follows_path (state_ c) (state_writes (snd (exec a c))) = true
  /\ last (state_writes (snd (exec a c))) (state_ c) = state_ (fst (exec a c)).
Proof.
  intros [Hlog Hinv].
  destruct c as [? ? ? ? ? ? ? ? ? ? running ? lt tt' ? ? ? ? ? ? ?].
  unfold lifecycle_inv, gone. compute_core. subst lt.
  destruct running;
    [destruct Hinv as (Hs & Hstop & [Ht | Ht]) | destruct Hinv as (Hs & Ht)];
    subst;
    destruct a;
    unfold exec, Init, Start, Stop, StopMonitoring, join_traffic, poller_step,
      StartTrafficMonitor, ReloadConfig, SetStateCallback, SetTrafficCallback,
      SetLogCallback, SetErrorCallback;
    compute_core; repeat (evaluate; compute_core);
    intuition congruence.
Qed.

Lemma constructed_inv : lifecycle_inv constructed.
Proof. unfold lifecycle_inv. cbn. auto. Qed.

Lemma inv_alive (c : MihomoCore) : lifecycle_inv c -> gone c = false.
Proof.
  intros [_ H]. unfold gone. destruct (isRunning_ c).
  - destruct H as (_ & _ & [-> | ->]); reflexivity.
  - destruct H as (_ & ->). reflexivity.
Qed.

(** A run from a gone object is empty. *)
Lemma run_gone (l : list call) (c : MihomoCore) : gone c = true -> run l c = (c, []).
Proof. intros H. destruct l; cbn [run]; [| rewrite H]; reflexivity. Qed.

(** A call sequence from a state that satisfies the invariant. *)
Lemma run_path (l : list call) (c : MihomoCore) :
  lifecycle_inv c ->
  (gone (fst (run l c)) = false -> lifecycle_inv (fst (run l c)))
  /\ follows_path (state_ c) (state_writes (snd (run l c))) = true
  /\ last (state_writes (snd (run l c))) (state_ c) = state_ (fst (run l c)).
Proof.
  revert c. induction l as [| a l IH]; intros c Hc.
  - cbn. auto.
  - cbn [run]. rewrite (inv_alive c Hc).
    destruct (exec_step a c Hc) as (Hinv & Hpath & Hlast).
    destruct (exec a c) as [c1 t1]. cbn [fst snd] in *.
    destruct (gone c1) eqn:G.
    + rewrite (run_gone l c1 G). cbn [fst snd].
      rewrite app_nil_r. split; [congruence | auto].
    + destruct (IH c1 (Hinv eq_refl)) as (Hinv' & Hpath' & Hlast').
      destruct (run l c1) as [c2 t2]. cbn [fst snd] in *.
      rewrite state_writes_app, follows_path_app, last_app_default.
      rewrite Hpath, Hlast, Hpath', Hlast'. auto.
Qed.

Lemma reachable_inv (c : MihomoCore) : reachable c -> lifecycle_inv c.
Proof.
  intros [G [l ->]]. apply (run_path l constructed constructed_inv), G.
Qed.

(** Between calls the running flag and the connection state agree. *)
Lemma inv_disconnected (c : MihomoCore) :
  lifecycle_inv c -> state_ c = "disconnected" -> isRunning_ c = false.
Proof.
  intros [_ H] Hs. destruct (isRunning_ c); [| reflexivity].
  destruct H as (H & _). congruence.
Qed.

Lemma inv_connected (c : MihomoCore) :
  lifecycle_inv c -> state_ c = "connected" -> isRunning_ c = true.
Proof.
  intros [_ H] Hs. destruct (isRunning_ c); [reflexivity |].
  destruct H as (H & _). congruence.
Qed.

(** A successful [Start] of a stopped object. *)
Lemma Start_success (cfg : string) (w : start_env) (c : MihomoCore) :
  isRunning_ c = false ->
  result_of (Start cfg w c) = Normal true ->
  state_ (core_of (Start cfg w c)) = "connected"
  /\ isRunning_ (core_of (Start cfg w c)) = true
  /\ trafficThread_ (core_of (Start cfg w c)) = AtLoopTest
  /\ state_log (trace_of (Start cfg w c)) =
       StateWrite "connected" :: dispatched (stateCallback_ c) "connected".
Proof.
  destruct c as [? ? ? ? ? ? ? ? ? ? running ? ? ? ? ? ? scb ? ? ?].
  compute_core. intros ->. unfold Start, StartTrafficMonitor, state_log, dispatched.
  compute_core. repeat (evaluate; compute_core);
    intros; try discriminate; auto.
Qed.

(** [Stop] of a running object, in full.  The state is announced and the
    stop flag raised; the poller finishes the cycle it is in.  When that
    cycle completes the thread is joined, the process is released and the
    state is finalised; when it does not, the thread is aborted, the
    process is over and [Stop] does not return. *)
Lemma Stop_running (w : stop_env) (c : MihomoCore) :
  lifecycle_inv c -> isRunning_ c = true ->
  Stop w c =
    match result_of (finish_cycle (in_flight w) c) with
    | Normal _ =>
        (Normal true,
         set_trafficThread_ NotAThread
           (set_stopMonitoring_ true
              (torn_down (core_of (finish_cycle (in_flight w) c)))),
         (StateWrite "disconnecting" :: dispatched (stateCallback_ c) "disconnecting")
           ++ trace_of (finish_cycle (in_flight w) c)
           ++ ThreadJoin :: release (wait_result w) c
           ++ StateWrite "disconnected" :: dispatched (stateCallback_ c) "disconnected")%list
    | Throw _ | Terminated =>
        (Terminated, stop_aborted c,
         (StateWrite "disconnecting" :: dispatched (stateCallback_ c) "disconnecting")
           ++ trace_of (finish_cycle (in_flight w) c))%list
    | Undefined =>
        (Undefined, stop_aborted c,
         (StateWrite "disconnecting" :: dispatched (stateCallback_ c) "disconnecting")
           ++ trace_of (finish_cycle (in_flight w) c))%list
    end.
Proof.
  intros [Hlog Hinv] Hrun.
  destruct c as [? ? ? ? ? ? ? h t ? running ? lt tt' ? ? ? scb ? ? ?].
  compute_core. subst. destruct Hinv as (_ & _ & [Ht | Ht]); subst tt';
    unfold Stop, StopMonitoring, join_traffic, poller_step, finish_cycle,
      release, dispatched, torn_down, stop_aborted;
    compute_core; repeat (evaluate; compute_core);
    null_handles; try discriminate; reflexivity.
Qed.

(** [Stop] returns [true] when the cycle in flight completes, and does
    not return otherwise. *)
Lemma Stop_result (w : stop_env) (c : MihomoCore) :
  lifecycle_inv c ->
  result_of (Stop w c) =
    match result_of (finish_cycle (in_flight w) c) with
    | Normal _ => Normal true
    | Throw _ | Terminated => Terminated
    | Undefined => Undefined
    end.
Proof.
  intros Hinv. destruct (isRunning_ c) eqn:Hrun.
  - rewrite (Stop_running w c Hinv Hrun).
    destruct (result_of (finish_cycle (in_flight w) c)); reflexivity.
  - rewrite (Stop_stopped w c Hrun). destruct Hinv as [_ H]. rewrite Hrun in H.
    unfold finish_cycle. compute_core. destruct H as [_ ->]. reflexivity.
Qed.

(** A [Stop] that returns leaves the running flag down and the process
    handle null. *)
Lemma Stop_leaves_stopped (w : stop_env) (c : MihomoCore) :
  result_of (Stop w c) = Normal true ->
  isRunning_ (core_of (Stop w c)) = false
  /\ (isRunning_ c = true -> processHandle_ (core_of (Stop w c)) = nullptr).
Proof.
  destruct c as [? ? ? ? ? ? ? h t ? running ? lt tt' ? ? ? scb ? ? ?].
  unfold Stop, StopMonitoring, join_traffic, poller_step.
  destruct running; [| compute_core; split; [reflexivity | discriminate]].
  destruct tt'; destruct lt; compute_core;
    repeat (evaluate; compute_core); null_handles;
    intros; try discriminate; auto.
Qed.

(** The handle held by a running object is closed by a [Stop] that
    returns. *)
Lemma Stop_closes_handle (w : stop_env) (c : MihomoCore) :
  isRunning_ c = true -> processHandle_ c <> nullptr ->
  result_of (Stop w c) = Normal true ->
  In (CloseHandle (processHandle_ c)) (trace_of (Stop w c)).
Proof.
  destruct c as [? ? ? ? ? ? ? h t ? running ? lt tt' ? ? ? scb ? ? ?].
  compute_core. intros -> Hh.
  unfold Stop, StopMonitoring, join_traffic, poller_step.
  destruct tt'; destruct lt; compute_core;
    repeat (evaluate; compute_core); null_handles;
    intros; try discriminate; try congruence; cbn; tauto.
Qed.

(** What the wait returns has no bearing on the object [Stop] leaves. *)
Lemma Stop_ignores_wait (w : stop_env) (r : Z) (c : MihomoCore) :
  core_of (Stop {| in_flight := in_flight w; wait_result := r |} c) = core_of (Stop w c)
  /\ result_of (Stop {| in_flight := in_flight w; wait_result := r |} c) = result_of (Stop w c).
Proof.
  destruct c as [? ? ? ? ? ? ? h t ? running ? lt tt' ? ? ? scb ? ? ?].
  unfold Stop, StopMonitoring, join_traffic, poller_step.
  destruct running; [| compute_core; auto].
  destruct tt'; destruct lt; compute_core;
    repeat (evaluate; compute_core); auto.
Qed.

(** After a successful [Start] the object is running, whatever it was. *)
Lemma Start_true_running (cfg : string) (w : start_env) (c : MihomoCore) :
  result_of (Start cfg w c) = Normal true ->
  isRunning_ (core_of (Start cfg w c)) = true.
Proof.
  destruct (isRunning_ c) eqn:Hrun.
  - rewrite (Start_running cfg w c Hrun). compute_core. auto.
  - intros H. apply (Start_success cfg w c Hrun H).
Qed.

(** *** After [Stop] *)

(** A stopped object that owns no thread stays so under every call but
    [Start], and no state or traffic event is delivered. *)
Lemma stopped_step (a : call) (c : MihomoCore) :
  is_start a = false ->
  isRunning_ c = false -> trafficThread_ c = NotAThread ->
  isRunning_ (fst (exec a c)) = false
  /\ trafficThread_ (fst (exec a c)) = NotAThread
  /\ observer_events (snd (exec a c)) = [].
Proof.
  destruct c as [? ? ? ? ? ? ? ? ? ? running ? ? tt' ? ? ? ? ? ? ?].
  compute_core. intros Ha -> ->.
  destruct a; try discriminate;
    unfold exec, Init, Stop, poller_step, ReloadConfig, SetStateCallback,
      SetTrafficCallback, SetLogCallback, SetErrorCallback, observer_events;
    compute_core; repeat (evaluate; compute_core); auto.
Qed.

Lemma observer_events_app (t1 t2 : list effect) :
  observer_events (t1 ++ t2) = (observer_events t1 ++ observer_events t2)%list.
Proof. apply filter_app. Qed.

Lemma stopped_run (l : list call) (c : MihomoCore) :
  forallb (fun a => negb (is_start a)) l = true ->
  isRunning_ c = false -> trafficThread_ c = NotAThread ->
  observer_events (snd (run l c)) = [].
Proof.
  revert c. induction l as [| a l IH]; intros c Hl Hrun Ht; [reflexivity |].
  cbn [forallb] in Hl. apply andb_prop in Hl. destruct Hl as [Ha Hl].
  apply negb_true_iff in Ha.
  destruct (stopped_step a c Ha Hrun Ht) as (Hrun' & Ht' & Hev).
  cbn [run]. unfold gone. rewrite Ht.
  destruct (exec a c) as [c1 t1]. cbn [fst snd] in *.
  specialize (IH c1 Hl Hrun' Ht').
  destruct (run l c1) as [c2 t2]. cbn [fst snd] in *.
  rewrite observer_events_app, Hev, IH. reflexivity.
Qed.

(** A [Stop] that returns leaves no thread behind. *)
Lemma Stop_joins (w : stop_env) (c : MihomoCore) :
  lifecycle_inv c -> result_of (Stop w c) = Normal true ->
  trafficThread_ (core_of (Stop w c)) = NotAThread.
Proof.
  intros Hinv. destruct (isRunning_ c) eqn:Hrun.
  - rewrite (Stop_running w c Hinv Hrun).
    destruct (finish_cycle (in_flight w) c) as [[r c'] t']. compute_core.
    destruct r; intros; try discriminate. destruct c'. reflexivity.
  - rewrite (Stop_stopped w c Hrun). compute_core.
    destruct Hinv as [_ H]. rewrite Hrun in H. intros _. apply H.
Qed.

(** The cycle a join waits for delivers no state event, terminates no
    process and writes no connection state. *)
Lemma finish_cycle_quiet (w : poll_env) (c : MihomoCore) :
  state_writes (trace_of (finish_cycle w c)) = []
  /\ state_events (trace_of (finish_cycle w c)) = []
  /\ filter is_terminate (trace_of (finish_cycle w c)) = [].
Proof.
  destruct c as [? ? ? ? ? ? ? ? ? ? running ? ? tt' ? ? ? ? ? ? ?].
  unfold finish_cycle. destruct tt'; compute_core; auto.
  rewrite poll_cycle_run. compute_core.
  repeat (evaluate; compute_core); auto.
Qed.

(** A cycle that does not complete leaves the object as it was. *)
Lemma finish_cycle_aborted (w : poll_env) (c : MihomoCore) :
  result_of (finish_cycle w c) <> Normal tt -> core_of (finish_cycle w c) = c.
Proof.
  unfold finish_cycle. compute_core.
  destruct (trafficThread_ c); compute_core; try congruence.
  rewrite poll_cycle_run.
  repeat (branch; compute_core); congruence.
Qed.

(** The release of the process delivers nothing to an observer. *)
Lemma release_quiet (r : Z) (c : MihomoCore) :
  traffic_events (release r c) = []
  /\ state_writes (release r c) = []
  /\ state_events (release r c) = [].
Proof.
  unfold release.
  destruct (processHandle_ c =? nullptr); destruct (processThread_ c =? nullptr);
    cbn; auto.
Qed.

Lemma run_app (l1 l2 : list call) (c : MihomoCore) :
  fst (run (l1 ++ l2) c) = fst (run l2 (fst (run l1 c))).
Proof.
  revert c. induction l1 as [| a l1 IH]; intros c; [reflexivity |].
  cbn [app run]. destruct (gone c) eqn:G.
  - cbn [fst]. rewrite (run_gone l2 c G). reflexivity.
  - destruct (exec a c) as [c1 t1]. specialize (IH c1).
    destruct (run (l1 ++ l2) c1) as [c2 t2]. destruct (run l1 c1) as [c3 t3].
    cbn [fst] in *. exact IH.
Qed.

(** Reachable objects stay reachable under calls that leave the process
    alive. *)
Lemma reachable_run (l : list call) (c : MihomoCore) :
  reachable c -> gone (fst (run l c)) = false -> reachable (fst (run l c)).
Proof.
  intros [_ [l0 ->]] G. split; [exact G |].
  exists (l0 ++ l)%list. symmetry. apply run_app.
Qed.

Lemma started_reachable : reachable started.
Proof. split; [reflexivity | eexists; reflexivity]. Qed.

Lemma started_observed_reachable : reachable started_observed.
Proof. split; [reflexivity | eexists; reflexivity]. Qed.

Lemma sampled_reachable : reachable sampled.
Proof. apply reachable_run; [apply started_observed_reachable | reflexivity]. Qed.

Lemma unobserved_reachable : reachable unobserved.
Proof. apply reachable_run; [apply started_reachable | reflexivity]. Qed.

(* ===================================================================== *)
(** ** The supervisor's state machine *)
(* ===================================================================== *)

(** C7.  [Start] on an object whose running flag is set returns [true] at
    once: the object is left exactly as it was and nothing happens outside
    it (no process is created, no state is written or dispatched). *)
Theorem Start_idempotent (cfg : string) (w : start_env) (c : MihomoCore) :
  isRunning_ c = true ->
  Start cfg w c = (Normal true, c, []).
Proof. apply Start_running. Qed.

Lemma Start_idempotent_witness :
  Start "C:\vortex\other.yaml" healthy_start started = (Normal true, started, []).
Proof. apply Start_idempotent. reflexivity. Defined.

(** [Stop] on an object that is not running returns [true] and changes
    nothing.  On a running object it returns [true] exactly when the poll
    cycle the join waits for completes; it then leaves the running flag
    down, so that a second [Stop] is such a no-op, and the process handle
    closed and null; and the object left behind does not depend on what
    the wait returned. *)
Theorem Stop_outcome (w w' : stop_env) (r : Z) (c : MihomoCore) :
  reachable c ->
  (isRunning_ c = false -> Stop w c = (Normal true, c, []))
  /\ (result_of (Stop w c) = Normal true <->
      result_of (finish_cycle (in_flight w) c) = Normal tt)
  /\ (result_of (Stop w c) = Normal true ->
      Stop w' (core_of (Stop w c)) = (Normal true, core_of (Stop w c), [])
      /\ (isRunning_ c = true ->
          processHandle_ (core_of (Stop w c)) = nullptr
          /\ (processHandle_ c <> nullptr ->
              In (CloseHandle (processHandle_ c)) (trace_of (Stop w c)))))
  /\ core_of (Stop {| in_flight := in_flight w; wait_result := r |} c)
     = core_of (Stop w c).
Proof.
  intros Hc. pose proof (reachable_inv c Hc) as Hinv.
  split; [apply Stop_stopped |].
  split; [| split; [| apply Stop_ignores_wait]].
  - rewrite (Stop_result w c Hinv).
    destruct (result_of (finish_cycle (in_flight w) c)) as [[] | | |];
      split; congruence.
  - intros Hret. split; [apply Stop_stopped; apply Stop_leaves_stopped, Hret |].
    intros Hrun. split.
    + apply Stop_leaves_stopped; assumption.
    + intros Hh. apply Stop_closes_handle; assumption.
Qed.

Lemma Stop_outcome_witness :
  Stop quiet_stop constructed = (Normal true, constructed, [])
  /\ result_of (Stop quiet_stop started) = Normal true
  /\ processHandle_ (core_of (Stop quiet_stop started)) = nullptr
  /\ In (CloseHandle 100) (trace_of (Stop quiet_stop started)).
Proof.
  destruct (Stop_outcome quiet_stop quiet_stop 258 constructed) as (H0 & _).
  { split; [reflexivity | exists []; reflexivity]. }
  destruct (Stop_outcome quiet_stop quiet_stop 258 started started_reachable)
    as (_ & H1 & H2 & _).
  assert (R : result_of (Stop quiet_stop started) = Normal true)
    by (apply H1; vm_compute; reflexivity).
  destruct (H2 R) as (_ & H3). destruct (H3 eq_refl) as [H4 H5].
  split; [apply H0; reflexivity |].
  split; [exact R |]. split; [exact H4 |].
  apply H5. vm_compute. discriminate.
Defined.

(** C8 fails where the poll in flight throws.  The object is running and
    its poller is inside a loop body when [Stop] is called; the reply to
    that body's request carries an upload counter of [2 ^ 63].  [Stop]
    announces the state, raises the stop flag and joins; [std::stoll]
    throws inside the thread function, which has no handler, and the
    process is terminated during the join: [Stop] returns nothing, the
    running flag stays up and the process handle is neither closed nor
    cleared. *)
Theorem Stop_aborts_on_long_counter :
  reachable sampled
  /\ isRunning_ sampled = true
  /\ fst (Client.HttpGet "/traffic" (traffic (in_flight long_counter_stop)) sampled)
     = traffic_json 9223372036854775808 0
  /\ Client.GetTrafficStats (traffic (in_flight long_counter_stop)) sampled
     = Throw "stoll argument out of range"
  /\ result_of (Stop long_counter_stop sampled) = Terminated
  /\ core_of (Stop long_counter_stop sampled) = stop_aborted sampled
  /\ gone (core_of (Stop long_counter_stop sampled)) = true
  /\ isRunning_ (core_of (Stop long_counter_stop sampled)) = true
  /\ processHandle_ (core_of (Stop long_counter_stop sampled)) = 100
  /\ trace_of (Stop long_counter_stop sampled) =
       [StateWrite "disconnecting"; StateEvent "disconnecting";
        ControlApi "GET" "/traffic" ""].
Proof.
  split; [apply sampled_reachable |].
  repeat split; vm_compute; reflexivity.
Qed.

(** C2.  Along every sequence of calls and poller steps from the
    constructed object, the values assigned to [state_] follow
    disconnected, connected, disconnecting, disconnected; a successful
    [Start] from disconnected writes connected; a [Stop] from connected
    writes disconnecting and then, when it returns, disconnected (a [Stop]
    that does not return has written disconnecting only); and each write
    is followed by its dispatch to the state observer, when one is
    registered. *)
Theorem connection_state_path :
  (forall l : list call,
      follows_path "disconnected" (state_writes (snd (run l constructed))) = true)
  /\ (forall (cfg : string) (w : start_env) (c : MihomoCore),
         reachable c -> state_ c = "disconnected" ->
         result_of (Start cfg w c) = Normal true ->
         state_ (core_of (Start cfg w c)) = "connected"
         /\ state_log (trace_of (Start cfg w c)) =
              StateWrite "connected" :: dispatched (stateCallback_ c) "connected")
  /\ (forall (w : stop_env) (c : MihomoCore),
         reachable c -> state_ c = "connected" ->
         state_ (core_of (Stop w c)) =
           match result_of (Stop w c) with
           | Normal _ => "disconnected"
           | _ => "disconnecting"
           end
         /\ state_log (trace_of (Stop w c)) =
              ((StateWrite "disconnecting"
                  :: dispatched (stateCallback_ c) "disconnecting")
               ++ match result_of (Stop w c) with
                  | Normal _ =>
                      StateWrite "disconnected"
                        :: dispatched (stateCallback_ c) "disconnected"
                  | _ => []
                  end)%list).
Proof.
  split; [| split].
  - intros l. apply (run_path l constructed constructed_inv).
  - intros cfg w c Hc Hs Hok.
    pose proof (inv_disconnected c (reachable_inv c Hc) Hs) as Hrun.
    destruct (Start_success cfg w c Hrun Hok) as (H1 & _ & _ & H2). auto.
  - intros w c Hc Hs. pose proof (reachable_inv c Hc) as Hinv.
    pose proof (inv_connected c Hinv Hs) as Hrun.
    rewrite (Stop_running w c Hinv Hrun).
    destruct (finish_cycle_quiet (in_flight w) c) as (Hw & He & _).
    assert (Hq : state_log (trace_of (finish_cycle (in_flight w) c)) = []).
    { revert Hw He. generalize (trace_of (finish_cycle (in_flight w) c)).
      induction l as [| e l IH]; [reflexivity |].
      destruct e; cbn; intros; try discriminate; auto. }
    assert (Hr : state_log (release (wait_result w) c) = []).
    { unfold release.
      destruct (processHandle_ c =? nullptr); destruct (processThread_ c =? nullptr);
        reflexivity. }
    unfold state_log in *.
    destruct (finish_cycle (in_flight w) c) as [[r c'] t']. compute_core.
    destruct r; compute_core; (split; [destruct c'; reflexivity |]);
      rewrite ?filter_app; cbn [filter is_state_effect]; rewrite ?filter_app, ?Hq, ?Hr;
      unfold dispatched; destruct (stateCallback_ c); reflexivity.
Qed.

Lemma connection_state_path_witness :
  state_log (trace_of (Start "C:\vortex\config.yaml" healthy_start
                         (core_of (Stop quiet_stop started_observed)))) =
    [StateWrite "connected"; StateEvent "connected"]
  /\ state_log (trace_of (Stop quiet_stop started_observed)) =
       [StateWrite "disconnecting"; StateEvent "disconnecting";
        StateWrite "disconnected"; StateEvent "disconnected"].
Proof.
  destruct connection_state_path as (_ & HStart & HStop). split.
  - refine (proj2 (HStart _ healthy_start
                     (core_of (Stop quiet_stop started_observed)) _ _ _)).
    + split; [vm_compute; reflexivity |].
      exists [CallInit "C:\vortex" true;
              CallSetStateCallback true; CallSetTrafficCallback true;
              CallSetLogCallback true; CallSetErrorCallback true;
              CallStart "C:\vortex\config.yaml" healthy_start;
              CallStop quiet_stop].
      vm_compute. reflexivity.
    + vm_compute. reflexivity.
    + vm_compute. reflexivity.
  - refine (proj2 (HStop quiet_stop started_observed _ _)).
    + apply started_observed_reachable.
    + vm_compute. reflexivity.
Defined.

(** C6.  Once [Stop] has returned, no call other than [Start] and no
    scheduling of the poller delivers a traffic or state event: the object
    owns no thread.  Inside [Stop] of a running object the poller is
    joined to completion: the cycle it was in when the stop flag was
    raised runs to its end inside [Stop], its effects (the traffic event
    included) coming before the join; at the join the thread function has
    returned; and the join comes before the process is terminated and the
    state is finalised. *)
Theorem no_events_after_Stop (w : stop_env) (c : MihomoCore) (l : list call) :
  reachable c ->
  result_of (Stop w c) = Normal true ->
  forallb (fun a => negb (is_start a)) l = true ->
  observer_events (snd (run l (core_of (Stop w c)))) = []
  /\ trafficThread_ (core_of (Stop w c)) = NotAThread
  /\ (isRunning_ c = true ->
      result_of (finish_cycle (in_flight w) c) = Normal tt
      /\ trafficThread_
           (core_of ((poller_step (in_flight w) ;; poller_step (in_flight w))
                       (stopping c))) = Finished
      /\ exists post,
           trace_of (Stop w c) =
             ((StateWrite "disconnecting"
                 :: dispatched (stateCallback_ c) "disconnecting")
              ++ trace_of (finish_cycle (in_flight w) c)
              ++ ThreadJoin :: post)%list
           /\ traffic_events post = []
           /\ state_writes post = ["disconnected"]
           /\ (processHandle_ c <> nullptr ->
               In (TerminateProcess (processHandle_ c) 0) post)
           /\ filter is_terminate (trace_of (finish_cycle (in_flight w) c)) = []).
Proof.
  intros Hc Hret Hl. pose proof (reachable_inv c Hc) as Hinv.
  split; [| split].
  - apply stopped_run;
      [exact Hl | apply Stop_leaves_stopped, Hret | apply Stop_joins; assumption].
  - apply Stop_joins; assumption.
  - intros Hrun.
    assert (Hfin : result_of (finish_cycle (in_flight w) c) = Normal tt).
    { rewrite (Stop_result w c Hinv) in Hret.
      destruct (result_of (finish_cycle (in_flight w) c)) as [[] | | |];
        [reflexivity | discriminate | discriminate | discriminate]. }
    split; [exact Hfin |]. split.
    + apply join_runs_to_exit.
      * destruct c. reflexivity.
      * destruct Hinv as [_ H]. rewrite Hrun in H.
        destruct c. compute_core. tauto.
      * revert Hfin.
        destruct c as [? ? ? ? ? ? ? ? ? ? ? ? ? tt' ? ? ? ? ? ? ?].
        unfold finish_cycle, stopping. compute_core.
        destruct tt'; compute_core; auto.
        rewrite !poll_cycle_run. compute_core.
        repeat (branch; compute_core); auto.
    + rewrite (Stop_running w c Hinv Hrun), Hfin.
      exists (release (wait_result w) c
              ++ StateWrite "disconnected"
                 :: dispatched (stateCallback_ c) "disconnected")%list.
      destruct (finish_cycle_quiet (in_flight w) c) as (Hw & _ & Ht).
      destruct (release_quiet (wait_result w) c) as (Rt & Rw & _).
      compute_core. split; [reflexivity |].
      split; [| split; [| split]].
      * unfold traffic_events in *. rewrite flat_map_app, Rt.
        unfold dispatched. destruct (stateCallback_ c); reflexivity.
      * rewrite state_writes_app, Rw. unfold dispatched.
        destruct (stateCallback_ c); reflexivity.
      * intros Hh. apply in_or_app. left. unfold release.
        apply Z.eqb_neq in Hh. rewrite Hh. apply in_or_app. left. cbn. auto.
      * exact Ht.
Qed.

Lemma no_events_after_Stop_witness :
  observer_events
    (snd (run [PollerStep (sample 10 20 5000);
               CallStop quiet_stop;
               CallReloadConfig "C:\vortex\new.yaml"
                 {| put_reply := Some 204; reload_file := Some sample_config |};
               PollerStep (sample 30 40 6000)]
            (core_of (Stop {| in_flight := sample 1500 2400 61000; wait_result := 0 |}
                        sampled)))) = []
  /\ exists post,
       trace_of (Stop {| in_flight := sample 1500 2400 61000; wait_result := 0 |} sampled) =
         ([StateWrite "disconnecting"; StateEvent "disconnecting";
           ControlApi "GET" "/traffic" "";
           TrafficEvent {| upload := 1500; download := 2400;
                           uploadSpeed := 500; downloadSpeed := 400 |};
           Sleep 1000] ++ ThreadJoin :: post)%list
       /\ traffic_events post = []
       /\ In (TerminateProcess 100 0) post.
Proof.
  destruct (no_events_after_Stop
              {| in_flight := sample 1500 2400 61000; wait_result := 0 |} sampled
              [PollerStep (sample 10 20 5000);
               CallStop quiet_stop;
               CallReloadConfig "C:\vortex\new.yaml"
                 {| put_reply := Some 204; reload_file := Some sample_config |};
               PollerStep (sample 30 40 6000)])
    as (H1 & _ & H3).
  - apply sampled_reachable.
  - vm_compute. reflexivity.
  - reflexivity.
  - split; [exact H1 |].
    destruct (H3 eq_refl) as (_ & _ & post & E & Ht & _ & Hh & _).
    exists post. split; [| split; [exact Ht |]].
    + rewrite E. vm_compute. reflexivity.
    + apply Hh. vm_compute. discriminate.
Defined.

(* ===================================================================== *)
(** ** The controller endpoint *)
(* ===================================================================== *)









(** The resolver searches the raw text: a controller key inside a comment
    and a secret key at the end of a longer key are read as the fields. *)
Example resolver_searches_raw_text :
  ParseControllerSettings
    (Some "# external-controller: 10.0.0.1:1234
client-secret: bar
") constructed
  = (Normal tt, with_endpoint ("10.0.0.1", 1234, "bar") constructed, []).
Proof. vm_compute. reflexivity. Qed.

(** [ReloadConfig] puts the new path to the control API.  With an empty
    result it returns [false] and leaves the object as it was.  With the
    success marker it stores the new path and runs the resolver on the new
    file; it then returns [true], if the resolver returns normally (the
    port of the file, if any, fits [int]).  It returns [true] only with
    the marker and [false] only without. *)
Theorem ReloadConfig_outcome (cfg : string) (w : reload_env) (c : MihomoCore) :
  (HttpPut (put_reply w) = "" ->
   result_of (ReloadConfig cfg w c) = Normal false
   /\ core_of (ReloadConfig cfg w c) = c)
  /\ (HttpPut (put_reply w) <> "" ->
      port_fits (reload_file w) = true ->
      result_of (ReloadConfig cfg w c) = Normal true
      /\ core_of (ReloadConfig cfg w c) =
           set_configPath_ cfg (core_of (ParseControllerSettings (reload_file w) c)))
  /\ (result_of (ReloadConfig cfg w c) = Normal true -> HttpPut (put_reply w) <> "")
  /\ (result_of (ReloadConfig cfg w c) = Normal false -> HttpPut (put_reply w) = "")
  /\ trace_of (ReloadConfig cfg w c) =
       [ControlApi "PUT" "/configs?force=true"
          ("{" ++ String dquote "path" ++ String dquote ":"
             ++ String dquote cfg ++ String dquote "}")%string].
Proof.
  unfold ReloadConfig. compute_core.
  destruct (is_empty (HttpPut (put_reply w))) eqn:He; compute_core.
  - apply is_empty_true in He. repeat split; intros; congruence.
  - apply is_empty_false in He. rewrite parse_ignores_configPath.
    pose proof (parse_returns (reload_file w) c) as Hret.
    destruct (parse_shape (reload_file w) c) as (r & h & p & s & E & [R | R]);
      rewrite E in *; subst r; compute_core;
      repeat split; intros;
      try match goal with
          | H : port_fits _ = true |- _ => apply Hret in H; discriminate
          end;
      try congruence; destruct c; reflexivity.
Qed.

Lemma ReloadConfig_outcome_witness :
  (result_of
     (ReloadConfig "C:\vortex\new.yaml"
        {| put_reply := Some 500; reload_file := Some sample_config |} started)
   = Normal false
   /\ core_of
        (ReloadConfig "C:\vortex\new.yaml"
           {| put_reply := Some 500; reload_file := Some sample_config |} started)
      = started)
  /\ result_of
       (ReloadConfig "C:\vortex\new.yaml"
          {| put_reply := Some 204;
             reload_file := Some "external-controller: 10.0.0.2:9191" |} started)
     = Normal true
  /\ HttpPut (Some 204) <> ""
  /\ HttpPut None = "".
Proof.
  split; [| split; [| split]].
  - apply (proj1 (ReloadConfig_outcome _ _ started)). reflexivity.
  - apply (proj1 (proj2 (ReloadConfig_outcome "C:\vortex\new.yaml"
                           {| put_reply := Some 204;
                              reload_file := Some "external-controller: 10.0.0.2:9191" |}
                           started))).
    + vm_compute. discriminate.
    + vm_compute. reflexivity.
  - apply (proj1 (proj2 (proj2 (ReloadConfig_outcome "C:\vortex\new.yaml"
                           {| put_reply := Some 204;
                              reload_file := Some "external-controller: 10.0.0.2:9191" |}
                           started)))).
    vm_compute. reflexivity.
  - apply (proj1 (proj2 (proj2 (proj2 (ReloadConfig_outcome "C:\vortex\new.yaml"
                           {| put_reply := None; reload_file := None |}
                           started))))).
    vm_compute. reflexivity.
Defined.

(** C9 fails where the resolver throws.  The [PUT] yields the success
    marker, and [ReloadConfig] does not return [true]: [std::stoi] throws on
    the port, after the path and the host were stored and before the port
    and the secret are. *)
Theorem ReloadConfig_throws_on_long_port :
  HttpPut (put_reply long_port_reload) = "success"
  /\ result_of (ReloadConfig "C:\vortex\new.yaml" long_port_reload constructed)
     = Throw "stoi argument out of range"
  /\ configPath_ (core_of (ReloadConfig "C:\vortex\new.yaml" long_port_reload constructed))
     = "C:\vortex\new.yaml"
  /\ endpoint (core_of (ReloadConfig "C:\vortex\new.yaml" long_port_reload constructed))
     = ("127.0.0.1", 9090, "").
Proof. repeat split; vm_compute; reflexivity. Qed.

(* ===================================================================== *)
(** ** The telemetry poller *)
(* ===================================================================== *)

(** A poll cycle writes the stored previous sample and nothing else. *)
Lemma poll_cycle_frame (w : poll_env) (c : MihomoCore) :
  core_of (poll_cycle w c) = with_baseline (baseline (core_of (poll_cycle w c))) c.
Proof.
  destruct c. rewrite poll_cycle_run. unfold with_baseline, baseline.
  compute_core. repeat (branch; compute_core); reflexivity.
Qed.

Lemma finish_cycle_frame (w : poll_env) (c : MihomoCore) :
  core_of (finish_cycle w c) = with_baseline (baseline (core_of (finish_cycle w c))) c.
Proof.
  destruct c as [? ? ? ? ? ? ? ? ? ? ? ? ? tt' ? ? ? ? ? ? ?].
  unfold finish_cycle, with_baseline, baseline.
  destruct tt'; compute_core; repeat (evaluate; compute_core); reflexivity.
Qed.

(** A cycle that finds no stored timestamp delivers nothing. *)
Lemma poll_cycle_first_sample (w : poll_env) (c : MihomoCore) :
  lastTime_ c = 0 -> traffic_events (trace_of (poll_cycle w c)) = [].
Proof.
  intros H. rewrite poll_cycle_run, H.
  change (0 <? 0) with false. compute_core.
  repeat (branch; compute_core); reflexivity.
Qed.

(** While the poller is inside its loop the object is running. *)
Lemma polling_is_running (c : MihomoCore) :
  lifecycle_inv c -> trafficThread_ c = InLoopBody -> isRunning_ c = true.
Proof.
  intros [_ H] Ht. destruct (isRunning_ c); [reflexivity |].
  destruct H as [_ H]. congruence.
Qed.

(** A step of the poller inside its loop body is a poll cycle: when the
    cycle completes the thread is back at the loop test, and when it does
    not the thread function is left by the exception. *)
Lemma poller_step_body (w : poll_env) (c : MihomoCore) :
  trafficThread_ c = InLoopBody ->
  exec (PollerStep w) c =
    (set_trafficThread_
       (match result_of (poll_cycle w c) with Normal _ => AtLoopTest | _ => Aborted end)
       (core_of (poll_cycle w c)),
     trace_of (poll_cycle w c)).
Proof.
  destruct c as [? ? ? ? ? ? ? ? ? ? ? ? ? tt' ? ? ? ? ? ? ?].
  compute_core. intros ->. unfold exec, poller_step.
  compute_core; repeat (evaluate; compute_core); reflexivity.
Qed.

(** C5, as the code has it.  With no traffic observer a loop body sends
    no request and leaves the stored sample.  With one it first sends the
    traffic request; if the body completes, the query has returned a
    snapshot and the stored sample is that snapshot and the tick; and a
    body that finds no stored timestamp completes so without delivering an
    event. *)
Theorem poll_cycle_advances_baseline (w : poll_env) (c : MihomoCore) :
  reachable c -> trafficThread_ c = InLoopBody ->
  (trafficCallback_ c = false ->
   exec (PollerStep w) c = (set_trafficThread_ AtLoopTest c, [Sleep 1000]))
  /\ (trafficCallback_ c = true ->
      hd_error (snd (exec (PollerStep w) c)) = Some (ControlApi "GET" "/traffic" "")
      /\ (gone (fst (exec (PollerStep w) c)) = false ->
          exists stats,
            Client.GetTrafficStats (traffic w) c = Normal stats
            /\ baseline (fst (exec (PollerStep w) c))
               = (upload stats, download stats, GetTickCount64 w))
      /\ (forall stats,
             Client.GetTrafficStats (traffic w) c = Normal stats ->
             lastTime_ c = 0 ->
             exec (PollerStep w) c =
               (set_trafficThread_ AtLoopTest
                  (with_baseline (upload stats, download stats, GetTickCount64 w) c),
                [ControlApi "GET" "/traffic" ""; Sleep 1000]))).
Proof.
  intros Hc Ht.
  pose proof (polling_is_running c (reachable_inv c Hc) Ht) as Hrun.
  rewrite (poller_step_body w c Ht), poll_cycle_run, Hrun.
  rewrite (GetTrafficStats_object (traffic w) c constructed).
  destruct c as [? ? ? ? ? ? ? ? ? ? ? ? ? tt' ? ? ? ? ? tcb ?].
  unfold baseline, with_baseline, gone. compute_core.
  split; [intros ->; reflexivity |].
  intros ->. compute_core.
  destruct (Client.GetTrafficStats (traffic w) constructed) as [stats | what | |];
    compute_core.
  - repeat (branch; compute_core); (split; [reflexivity |]);
      (split; [intros; try discriminate; exists stats; split; reflexivity |]);
      intros stats' [= <-] E; subst; try discriminate; reflexivity.
  - split; [reflexivity |]. split; [discriminate | discriminate].
  - split; [reflexivity |]. split; [discriminate | discriminate].
  - split; [reflexivity |]. split; [discriminate | discriminate].
Qed.

Lemma poll_cycle_advances_baseline_witness :
  exec (PollerStep (sample 5000 6000 70000)) unobserved
  = (set_trafficThread_ AtLoopTest unobserved, [Sleep 1000])
  /\ hd_error (snd (exec (PollerStep (sample 1500 2400 61000)) sampled))
     = Some (ControlApi "GET" "/traffic" "")
  /\ exists stats,
       Client.GetTrafficStats (traffic (sample 1500 2400 61000)) sampled = Normal stats
       /\ baseline (fst (exec (PollerStep (sample 1500 2400 61000)) sampled))
          = (upload stats, download stats, 61000).
Proof.
  split.
  - apply (proj1 (poll_cycle_advances_baseline (sample 5000 6000 70000) unobserved
                    unobserved_reachable eq_refl)).
    reflexivity.
  - destruct (proj2 (poll_cycle_advances_baseline (sample 1500 2400 61000) sampled
                       sampled_reachable eq_refl) eq_refl) as (H1 & H2 & _).
    split; [exact H1 |]. apply H2. vm_compute. reflexivity.
Defined.

(** C5 as stated fails: the poller loop is running, no traffic observer
    is registered, and the loop body fetches no snapshot and leaves the
    stored sample untouched. *)
Lemma idle_cycle_keeps_baseline :
  reachable unobserved
  /\ trafficThread_ unobserved = InLoopBody
  /\ snd (exec (PollerStep (sample 5000 6000 70000)) unobserved) = [Sleep 1000]
  /\ baseline (fst (exec (PollerStep (sample 5000 6000 70000)) unobserved))
     = (0, 0, 0)
  /\ baseline (fst (exec (PollerStep (sample 5000 6000 70000)) unobserved))
     <> (5000, 6000, 70000).
Proof.
  split; [apply unobserved_reachable |].
  repeat split; vm_compute; try reflexivity; discriminate.
Qed.

(** [Start] does not touch the stored previous sample. *)
Lemma Start_keeps_baseline (cfg : string) (w : start_env) (c : MihomoCore) :
  baseline (core_of (Start cfg w c)) = baseline c.
Proof.
  destruct c as [? ? ? ? ? ? ? h t ? running ? lt tt' ? ? ? scb ? ? ?].
  unfold Start, StartTrafficMonitor, baseline.
  compute_core; repeat (evaluate; compute_core); reflexivity.
Qed.

(** C10, as the code has it.  [Stop] of a running object leaves as stored
    previous sample what the poller's last cycle recorded (the cycle in
    flight, if there is one, is completed by the join), a following [Start]
    leaves it too, so a positive timestamp stays positive; apart from that
    sample a [Stop] that returns changes the handles, the process id, the
    running flag and the state, and also leaves the stop flag raised and
    the thread member empty. *)
Theorem Stop_keeps_baseline
  (w : stop_env) (cfg : string) (w' : start_env) (c : MihomoCore) :
  reachable c -> isRunning_ c = true ->
  baseline (core_of (Stop w c)) = baseline (core_of (finish_cycle (in_flight w) c))
  /\ (trafficThread_ c = AtLoopTest -> baseline (core_of (Stop w c)) = baseline c)
  /\ baseline (core_of (Start cfg w' (core_of (Stop w c))))
     = baseline (core_of (Stop w c))
  /\ (0 < lastTime_ (core_of (finish_cycle (in_flight w) c)) ->
      0 < lastTime_ (core_of (Stop w c))
      /\ 0 < lastTime_ (core_of (Start cfg w' (core_of (Stop w c)))))
  /\ (result_of (Stop w c) = Normal true ->
      core_of (Stop w c) =
        set_trafficThread_ NotAThread
          (set_stopMonitoring_ true
             (torn_down (with_baseline (baseline (core_of (Stop w c))) c)))).
Proof.
  intros Hc Hrun. pose proof (reachable_inv c Hc) as Hinv.
  assert (Hb : baseline (core_of (Stop w c))
               = baseline (core_of (finish_cycle (in_flight w) c))).
  { rewrite (Stop_running w c Hinv Hrun).
    destruct (result_of (finish_cycle (in_flight w) c)) as [[] | what | |] eqn:R.
    - compute_core.
      destruct (finish_cycle (in_flight w) c) as [[r c'] t']. destruct c'.
      reflexivity.
    - rewrite (finish_cycle_aborted (in_flight w) c) by (rewrite R; discriminate).
      destruct c. reflexivity.
    - rewrite (finish_cycle_aborted (in_flight w) c) by (rewrite R; discriminate).
      destruct c. reflexivity.
    - rewrite (finish_cycle_aborted (in_flight w) c) by (rewrite R; discriminate).
      destruct c. reflexivity. }
  pose proof (Start_keeps_baseline cfg w' (core_of (Stop w c))) as Hs.
  split; [exact Hb |]. split; [| split; [exact Hs | split]].
  - intros Ht. rewrite Hb. unfold finish_cycle. compute_core. rewrite Ht.
    reflexivity.
  - intros Hpos. unfold baseline in Hb, Hs.
    assert (E1 : lastTime_ (core_of (Stop w c))
                 = lastTime_ (core_of (finish_cycle (in_flight w) c)))
      by congruence.
    assert (E2 : lastTime_ (core_of (Start cfg w' (core_of (Stop w c))))
                 = lastTime_ (core_of (Stop w c)))
      by congruence.
    rewrite E2, E1. auto.
  - intros Hret. rewrite Hb, <- (finish_cycle_frame (in_flight w) c).
    rewrite (Stop_result w c Hinv) in Hret.
    rewrite (Stop_running w c Hinv Hrun).
    destruct (result_of (finish_cycle (in_flight w) c)) as [[] | | |];
      [reflexivity | discriminate | discriminate | discriminate].
Qed.

Lemma Stop_keeps_baseline_witness :
  baseline (core_of (Stop {| in_flight := sample 1500 2400 61000; wait_result := 0 |}
                       sampled))
  = (1500, 2400, 61000)
  /\ 0 < lastTime_
           (core_of (Start "C:\vortex\config.yaml" healthy_start
                       (core_of (Stop {| in_flight := sample 1500 2400 61000;
                                         wait_result := 0 |} sampled)))).
Proof.
  destruct (Stop_keeps_baseline
              {| in_flight := sample 1500 2400 61000; wait_result := 0 |}
              "C:\vortex\config.yaml" healthy_start sampled)
    as (H1 & _ & _ & H4 & _).
  - apply sampled_reachable.
  - reflexivity.
  - split.
    + rewrite H1. vm_compute. reflexivity.
    + apply H4. vm_compute. reflexivity.
Defined.

(** C10 as stated fails: whatever the stored sample, the object [Stop]
    leaves is not the running one with only the handles, the id, the
    running flag and the state torn down: the stop flag is raised (and the
    thread member is empty). *)
Lemma Stop_raises_stop_flag :
  stopMonitoring_ started = false
  /\ stopMonitoring_ (core_of (Stop quiet_stop started)) = true
  /\ ~ exists b, core_of (Stop quiet_stop started) = torn_down (with_baseline b started).
Proof.
  split; [reflexivity |]. split; [vm_compute; reflexivity |].
  intros [b H]. apply (f_equal stopMonitoring_) in H.
  destruct b as [[u d] t]. vm_compute in H. discriminate.
Qed.

(** C3 fails on a restart.  The session before the restart stored the
    sample (1500, 2400) at tick 61000; after [Stop] and a successful
    [Start] the very first loop body, fetching (10, 20) at tick 65000,
    delivers a traffic event, with rates computed against the old sample. *)
Theorem restart_first_cycle_emits :
  reachable restarted
  /\ trafficThread_ restarted = InLoopBody
  /\ baseline restarted = (1500, 2400, 61000)
  /\ snd (exec (PollerStep (sample 10 20 65000)) restarted)
     = [ControlApi "GET" "/traffic" "";
        TrafficEvent {| upload := 10; download := 20;
                        uploadSpeed := -372; downloadSpeed := -595 |};
        Sleep 1000].
Proof.
  split; [| split; [| split]].
  - apply reachable_run; [apply sampled_reachable | vm_compute; reflexivity].
  - vm_compute. reflexivity.
  - vm_compute. reflexivity.
  - vm_compute. reflexivity.
Qed.

(* ===================================================================== *)
(** ** Binary64: conversion and division in the normal range *)
(* ===================================================================== *)

Lemma digits2_size (p : positive) : digits2_pos p = Pos.size p.
Proof. induction p; cbn; congruence. Qed.

Lemma digits_bounds (p : positive) :
  2 ^ (Zpos (digits2_pos p) - 1) <= Zpos p < 2 ^ Zpos (digits2_pos p).
Proof.
  rewrite digits2_size.
  pose proof (Pos.size_gt p) as Hgt. pose proof (Pos.size_le p) as Hle.
  apply Pos2Z.pos_lt_pos in Hgt. apply Pos2Z.pos_le_pos in Hle.
  rewrite Pos2Z.inj_pow in Hgt, Hle.
  replace (Zpos (Pos.size p)) with (Z.succ (Zpos (Pos.size p) - 1)) in Hle at 1 by lia.
  rewrite Z.pow_succ_r in Hle by lia.
  change (Zpos p~0) with (2 * Zpos p) in Hle. lia.
Qed.

Lemma digits_unique (p : positive) (d : Z) :
  2 ^ (d - 1) <= Zpos p < 2 ^ d -> Zpos (digits2_pos p) = d.
Proof.
  intros [H1 H2]. destruct (digits_bounds p) as [B1 B2].
  assert (0 < d).
  { destruct (Z_lt_le_dec 0 d); [assumption |].
    assert (2 ^ d <= 2 ^ 0) by (apply Z.pow_le_mono_r; lia).
    change (2 ^ 0) with 1 in *. lia. }
  assert (d - 1 < Zpos (digits2_pos p)).
  { apply (Z.pow_lt_mono_r_iff 2); lia. }
  assert (Zpos (digits2_pos p) - 1 < d).
  { apply (Z.pow_lt_mono_r_iff 2); lia. }
  lia.
Qed.

Lemma shr_1_m (mrs : shr_record) :
  0 <= shr_m mrs -> shr_m (shr_1 mrs) = shr_m mrs / 2.
Proof.
  destruct mrs as [m r s]. cbn [shr_m]. intros Hm.
  destruct m as [| p | p]; [reflexivity | | lia].
  destruct p as [p | p |]; cbn [shr_1 shr_m].
  - rewrite Pos2Z.inj_xI.
    apply (Z.div_unique (2 * Z.pos p + 1) 2 (Z.pos p) 1); lia.
  - rewrite Pos2Z.inj_xO.
    apply (Z.div_unique (2 * Z.pos p) 2 (Z.pos p) 0); lia.
  - reflexivity.
Qed.

Lemma pow2_xO (k : positive) : 2 ^ Zpos k~0 = 2 ^ Zpos k * 2 ^ Zpos k.
Proof. rewrite <- Z.pow_add_r by lia. f_equal. lia. Qed.

Lemma pow2_xI (k : positive) : 2 ^ Zpos k~1 = 2 * (2 ^ Zpos k * 2 ^ Zpos k).
Proof.
  rewrite <- Z.pow_add_r, <- Z.pow_succ_r by lia. f_equal. lia.
Qed.

Lemma iter_shr_m (k : positive) (mrs : shr_record) :
  0 <= shr_m mrs ->
  shr_m (iter_pos shr_1 k mrs) = shr_m mrs / 2 ^ Zpos k.
Proof.
  revert mrs. induction k as [k IH | k IH |]; intros mrs Hm; cbn [iter_pos].
  - assert (H1 : 0 <= shr_m (shr_1 mrs)).
    { rewrite shr_1_m by assumption. apply Z.div_pos; lia. }
    assert (H2 : 0 <= shr_m (iter_pos shr_1 k (shr_1 mrs))).
    { rewrite IH by assumption. apply Z.div_pos; lia. }
    rewrite IH, IH, shr_1_m by assumption.
    rewrite !Z.div_div by lia. rewrite pow2_xI. reflexivity.
  - assert (H2 : 0 <= shr_m (iter_pos shr_1 k mrs)).
    { rewrite IH by assumption. apply Z.div_pos; lia. }
    rewrite IH, IH by assumption.
    rewrite Z.div_div by lia. rewrite pow2_xO. reflexivity.
  - apply shr_1_m, Hm.
Qed.

(** [shr] by [n] places divides the mantissa by [2 ^ n]. *)
Lemma shr_m_div (mrs : shr_record) (e n : Z) :
  0 <= shr_m mrs -> 0 <= n ->
  shr_m (fst (shr mrs e n)) = shr_m mrs / 2 ^ n
  /\ snd (shr mrs e n) = e + n.
Proof.
  intros Hm Hn. destruct n as [| p | p]; cbn [shr fst snd]; [| | lia].
  - rewrite Z.div_1_r. lia.
  - split; [apply iter_shr_m, Hm | reflexivity].
Qed.

Lemma shr_record_of_loc_m (m : Z) (l : location) :
  shr_m (shr_record_of_loc m l) = m.
Proof. destruct l as [| []]; reflexivity. Qed.

Lemma round_nearest_even_range (m : Z) (l : location) :
  m <= round_nearest_even m l <= m + 1.
Proof.
  destruct l as [| []]; cbn [round_nearest_even]; try lia.
  destruct (Z.even m); lia.
Qed.

Lemma fexp_normal (x : Z) : -1021 <= x -> fexp 53 1024 x = x - 53.
Proof. unfold fexp, emin. lia. Qed.

Lemma pow2_split (a b : Z) : 0 <= a -> 0 <= b -> 2 ^ (a + b) = 2 ^ a * 2 ^ b.
Proof. intros. apply Z.pow_add_r; assumption. Qed.

(** In the normal range a mantissa of at least 53 digits is cut to
    exactly 53. *)
Lemma shr_fexp_normal (m : positive) (e : Z) (l : location) :
  53 <= Zpos (digits2_pos m) -> -1021 <= Zpos (digits2_pos m) + e ->
  snd (shr_fexp 53 1024 (Zpos m) e l) = e + (Zpos (digits2_pos m) - 53)
  /\ 2 ^ 52 <= shr_m (fst (shr_fexp 53 1024 (Zpos m) e l)) < 2 ^ 53.
Proof.
  intros Hd He. unfold shr_fexp. cbn [Zdigits2].
  rewrite fexp_normal by assumption.
  set (dg := Zpos (digits2_pos m)) in *.
  replace (dg + e - 53 - e) with (dg - 53) by lia.
  destruct (shr_m_div (shr_record_of_loc (Zpos m) l) e (dg - 53)) as [Hm He'].
  { rewrite shr_record_of_loc_m. lia. }
  { lia. }
  rewrite Hm, He', shr_record_of_loc_m. split; [reflexivity |].
  destruct (digits_bounds m) as [B1 B2]. fold dg in B1, B2.
  assert (P : 0 < 2 ^ (dg - 53)) by (apply Z.pow_pos_nonneg; lia).
  split.
  - apply Z.div_le_lower_bound; [exact P |].
    rewrite <- pow2_split by lia. replace (dg - 53 + 52) with (dg - 1) by lia.
    exact B1.
  - apply Z.div_lt_upper_bound; [exact P |].
    rewrite <- pow2_split by lia. replace (dg - 53 + 53) with dg by lia.
    exact B2.
Qed.

(** Rounding a mantissa of at least 53 digits, in the normal range and
    below overflow, gives a normal number of the same sign. *)
Lemma binary_round_aux_normal (s : bool) (m : positive) (e : Z) (l : location) :
  53 <= Zpos (digits2_pos m) ->
  -1021 <= Zpos (digits2_pos m) + e -> Zpos (digits2_pos m) + e <= 1023 ->
  exists m' e',
    binary_round_aux 53 1024 s (Zpos m) e l = S754_finite s m' e'
    /\ Zpos (digits2_pos m') = 53
    /\ e + Zpos (digits2_pos m) - 53 <= e' <= e + Zpos (digits2_pos m) - 52.
Proof.
  intros Hd Hlo Hhi. unfold binary_round_aux.
  destruct (shr_fexp_normal m e l Hd Hlo) as [He1 Hm1].
  destruct (shr_fexp 53 1024 (Zpos m) e l) as [mrs1 e1]. cbn [fst snd] in *.
  pose proof (round_nearest_even_range (shr_m mrs1) (loc_of_shr_record mrs1)) as Hr.
  set (m2 := round_nearest_even (shr_m mrs1) (loc_of_shr_record mrs1)) in *.
  destruct m2 as [| p2 | p2] eqn:Em2; try lia.
  assert (Hd2 : Zpos (digits2_pos p2) = 53 \/ Zpos (digits2_pos p2) = 54).
  { destruct (Z_lt_le_dec (Zpos p2) (2 ^ 53)).
    - left. apply digits_unique. change (53 - 1) with 52. lia.
    - right. apply digits_unique. change (54 - 1) with 53.
      change (2 ^ 54) with (2 * 2 ^ 53). lia. }
  destruct (shr_fexp_normal p2 e1 loc_Exact) as [He2 Hm2]; [lia | lia |].
  destruct (shr_fexp 53 1024 (Zpos p2) e1 loc_Exact) as [mrs2 e2].
  cbn [fst snd] in *.
  destruct (shr_m mrs2) as [| m3 | m3] eqn:Em3; try lia.
  change (1024 - 53) with 971.
  replace (e2 <=? 971) with true by (symmetry; apply Z.leb_le; lia).
  exists m3, e2. split; [reflexivity |]. split; [| lia].
  apply digits_unique. change (53 - 1) with 52. exact Hm2.
Qed.

Lemma digits_iter_xO (p d : positive) :
  Zpos (digits2_pos (Pos.iter xO p d)) = Zpos (digits2_pos p) + Zpos d.
Proof.
  induction d as [| d IH] using Pos.peano_ind.
  - cbn. lia.
  - rewrite Pos.iter_succ. cbn [digits2_pos]. lia.
Qed.

(** An integer of magnitude below [2 ^ 64] converts to a normal double
    of exponent between -52 and 12. *)
Lemma binary_round_normal (s : bool) (p : positive) :
  Zpos p < 2 ^ 64 ->
  exists m e,
    binary_round 53 1024 s p 0 = S754_finite s m e
    /\ Zpos (digits2_pos m) = 53 /\ -52 <= e <= 12.
Proof.
  intros Hp. unfold binary_round.
  destruct (digits_bounds p) as [B1 B2].
  set (dg := Zpos (digits2_pos p)) in *.
  assert (Hdg : 1 <= dg <= 64).
  { split; [unfold dg; lia |].
    assert (dg - 1 < 64) by (apply (Z.pow_lt_mono_r_iff 2); lia). lia. }
  rewrite fexp_normal by lia. unfold shl_align.
  destruct (dg + 0 - 53 - 0) as [| d | d] eqn:Ed.
  - destruct (binary_round_aux_normal s p 0 loc_Exact) as (m & e & E & Hm & He);
      fold dg; try lia.
    exists m, e. fold dg in He. split; [exact E | split; [exact Hm | lia]].
  - destruct (binary_round_aux_normal s p 0 loc_Exact) as (m & e & E & Hm & He);
      fold dg; try lia.
    exists m, e. fold dg in He. split; [exact E | split; [exact Hm | lia]].
  - pose proof (digits_iter_xO p d) as Hd. fold dg in Hd.
    destruct (binary_round_aux_normal s (Pos.iter xO p d) (dg + 0 - 53) loc_Exact)
      as (m & e & E & Hm & He); try lia.
    exists m, e. split; [exact E | split; [exact Hm | lia]].
Qed.

(** The quotient of two normal doubles, in the normal range, is a normal
    double. *)
Lemma SFdiv_normal (s1 s2 : bool) (m1 m2 : positive) (e1 e2 : Z) :
  Zpos (digits2_pos m1) = 53 -> Zpos (digits2_pos m2) = 53 ->
  -1021 <= e1 - e2 <= 1022 ->
  exists m e,
    SFdiv 53 1024 (S754_finite s1 m1 e1) (S754_finite s2 m2 e2)
    = S754_finite (xorb s1 s2) m e
    /\ Zpos (digits2_pos m) = 53 /\ e1 - e2 - 53 <= e <= e1 - e2 - 51.
Proof.
  intros H1 H2 He. cbn [SFdiv]. unfold SFdiv_core_binary. cbn [Zdigits2].
  rewrite H1, H2.
  rewrite fexp_normal by lia.
  rewrite Z.min_l by lia.
  replace (e1 - e2 - (53 + e1 - (53 + e2) - 53)) with 53 by lia.
  rewrite Z.shiftl_mul_pow2 by lia.
  destruct (digits_bounds m1) as [A1 A2]. destruct (digits_bounds m2) as [B1 B2].
  rewrite H1 in A1, A2. rewrite H2 in B1, B2.
  change (53 - 1) with 52 in *.
  destruct (Z.div_eucl (Zpos m1 * 2 ^ 53) (Zpos m2)) as [q r] eqn:Eq.
  assert (Hq : q = (Zpos m1 * 2 ^ 53) / Zpos m2)
    by (unfold Z.div; rewrite Eq; reflexivity).
  assert (Q1 : 2 ^ 52 <= q).
  { rewrite Hq. apply Z.div_le_lower_bound; lia. }
  assert (Q2 : q < 2 ^ 54).
  { rewrite Hq. apply Z.div_lt_upper_bound; lia. }
  destruct q as [| pq | pq]; try lia.
  assert (Hd : Zpos (digits2_pos pq) = 53 \/ Zpos (digits2_pos pq) = 54).
  { destruct (Z_lt_le_dec (Zpos pq) (2 ^ 53)).
    - left. apply digits_unique. change (53 - 1) with 52. lia.
    - right. apply digits_unique. change (54 - 1) with 53. lia. }
  destruct (binary_round_aux_normal (xorb s1 s2) pq (53 + e1 - (53 + e2) - 53)
              (new_location (Zpos m2) r))
    as (m & e & E & Dm & Be); try lia.
  exists m, e. split; [exact E |]. split; [exact Dm | lia].
Qed.

(** A 53-digit mantissa with nothing to round is kept as it is. *)
Lemma binary_round_aux_exact (s : bool) (m : positive) (e : Z) :
  Zpos (digits2_pos m) = 53 -> -1074 <= e <= 971 ->
  binary_round_aux 53 1024 s (Zpos m) e loc_Exact = S754_finite s m e.
Proof.
  intros Hd He. unfold binary_round_aux, shr_fexp. cbn [Zdigits2].
  rewrite Hd, fexp_normal by lia.
  replace (53 + e - 53 - e) with 0 by lia.
  cbn [shr shr_record_of_loc loc_of_shr_record shr_m round_nearest_even Zdigits2].
  rewrite Hd, fexp_normal by lia.
  replace (53 + e - 53 - e) with 0 by lia.
  cbn [shr shr_record_of_loc shr_m].
  change (1024 - 53) with 971.
  replace (e <=? 971) with true by (symmetry; apply Z.leb_le; lia).
  reflexivity.
Qed.

Lemma iter_xO_value (p d : positive) :
  Zpos (Pos.iter xO p d) = Zpos p * 2 ^ Zpos d.
Proof.
  induction d as [| d IH] using Pos.peano_ind.
  - cbn [Pos.iter]. rewrite Pos2Z.inj_xO. change (2 ^ 1) with 2. lia.
  - rewrite Pos.iter_succ, Pos2Z.inj_xO, IH, Pos2Z.inj_succ, Z.pow_succ_r by lia.
    ring.
Qed.

(** An integer of magnitude below [2 ^ 53] converts without rounding. *)
Lemma binary_round_small (s : bool) (p : positive) :
  Zpos p < 2 ^ 53 ->
  exists m e,
    binary_round 53 1024 s p 0 = S754_finite s m e
    /\ Zpos (digits2_pos m) = 53 /\ -52 <= e <= 0
    /\ Zpos m = Zpos p * 2 ^ (- e).
Proof.
  intros Hp. unfold binary_round.
  destruct (digits_bounds p) as [B1 B2].
  set (dg := Zpos (digits2_pos p)) in *.
  assert (Hdg : 1 <= dg <= 53).
  { split; [unfold dg; lia |].
    assert (dg - 1 < 53) by (apply (Z.pow_lt_mono_r_iff 2); lia). lia. }
  rewrite fexp_normal by lia. unfold shl_align.
  destruct (dg + 0 - 53 - 0) as [| d | d] eqn:Ed; try lia.
  - exists p, 0. rewrite binary_round_aux_exact by (fold dg; lia).
    split; [reflexivity |]. split; [fold dg; lia |]. split; [lia |].
    cbn. lia.
  - pose proof (digits_iter_xO p d) as Hd. fold dg in Hd.
    exists (Pos.iter xO p d), (dg + 0 - 53).
    rewrite binary_round_aux_exact by lia.
    split; [reflexivity |]. split; [lia |]. split; [lia |].
    rewrite iter_xO_value. f_equal. f_equal. lia.
Qed.

(** Division by [1.0] returns a normal double unchanged. *)
Lemma SFdiv_one (s : bool) (m : positive) (e : Z) :
  Zpos (digits2_pos m) = 53 -> -1073 <= e <= 971 ->
  SFdiv 53 1024 (S754_finite s m e) (S754_finite false 4503599627370496 (-52))
  = S754_finite s m e.
Proof.
  intros Hd He. cbn [SFdiv]. unfold SFdiv_core_binary. cbn [Zdigits2].
  rewrite Hd. change (Zpos (digits2_pos 4503599627370496)) with 53.
  rewrite fexp_normal by lia.
  rewrite Z.min_l by lia.
  replace (e - -52 - (53 + e - (53 + -52) - 53)) with 53 by lia.
  rewrite Z.shiftl_mul_pow2 by lia.
  replace (Z.div_eucl (Zpos m * 2 ^ 53) 4503599627370496) with (Zpos m~0, 0).
  2:{ pose proof (Z.div_eucl_eq (Zpos m * 2 ^ 53) 4503599627370496) as H.
      pose proof (Z.mod_pos_bound (Zpos m * 2 ^ 53) 4503599627370496) as Hb.
      unfold Z.modulo in Hb.
      destruct (Z.div_eucl (Zpos m * 2 ^ 53) 4503599627370496) as [q r].
      specialize (H ltac:(lia)). specialize (Hb ltac:(lia)).
      change (2 ^ 53) with (2 * 4503599627370496) in H.
      assert (q = 2 * Zpos m) by nia. assert (r = 0) by nia.
      subst. reflexivity. }
  change (new_location 4503599627370496 0) with loc_Exact.
  replace (xorb s false) with s by (destruct s; reflexivity).
  unfold binary_round_aux, shr_fexp. cbn [Zdigits2 digits2_pos].
  rewrite Pos2Z.inj_succ, Hd. change (Z.succ 53) with 54.
  rewrite fexp_normal by lia.
  replace (54 + (53 + e - (53 + -52) - 53) - 53 - (53 + e - (53 + -52) - 53)) with 1
    by lia.
  cbn [shr shr_record_of_loc iter_pos shr_1 loc_of_shr_record orb shr_m
         round_nearest_even Zdigits2].
  rewrite Hd, fexp_normal by lia.
  replace (53 + (53 + e - (53 + -52) - 53 + 1) - 53 - (53 + e - (53 + -52) - 53 + 1))
    with 0 by lia.
  cbn [shr shr_record_of_loc shr_m].
  change (1024 - 53) with 971.
  replace (53 + e - (53 + -52) - 53 + 1) with e by lia.
  replace (e <=? 971) with true by (symmetry; apply Z.leb_le; lia).
  reflexivity.
Qed.

(** *** The elapsed time *)

(** Between two different ticks of [GetTickCount64], the later one read
    second, the elapsed time is a positive normal double. *)
Lemma timeDelta_normal (now last : Z) :
  0 <= last < now -> now < two64 ->
  exists m e,
    timeDelta now last = S754_finite false m e
    /\ Zpos (digits2_pos m) = 53 /\ -62 <= e <= 4.
Proof.
  intros H1 H2. unfold timeDelta. rewrite sub_u64_exact by lia.
  unfold double_of_Z, ddiv, d1000, prec, emax.
  destruct (now - last) as [| p | p] eqn:Ed; try lia.
  cbn [binary_normalize].
  destruct (binary_round_normal false p) as (m1 & e1 & E1 & D1 & B1).
  { unfold two64 in H2. lia. }
  rewrite E1.
  destruct (SFdiv_normal false false m1 8796093022208000 e1 (-43) D1 eq_refl)
    as (m & e & E & Dm & Be).
  { lia. }
  change (double_of_Z 1000) with (S754_finite false 8796093022208000 (-43)).
  change (binary_round 53 1024 false 1000 0)
    with (S754_finite false 8796093022208000 (-43)).
  rewrite E. exists m, e. split; [reflexivity |]. split; [exact Dm | lia].
Qed.

(** So the guard [timeDelta > 0] holds. *)
Lemma timeDelta_positive (now last : Z) :
  0 <= last < now -> now < two64 -> dpositive (timeDelta now last) = true.
Proof.
  intros H1 H2. destruct (timeDelta_normal now last H1 H2) as (m & e & E & _).
  rewrite E. reflexivity.
Qed.

(** *** The conversion of a rate *)

(** [static_cast<int64_t>] yields a value only when the double, truncated
    toward zero, fits [int64_t], and then yields that value. *)
Lemma static_cast_int64_value (x : double) (r : Z) :
  static_cast_int64 x = Some r ->
  r = trunc_double x /\ INT64_MIN <= r <= INT64_MAX.
Proof.
  unfold static_cast_int64, in_i64.
  destruct x as [s | s | | s m e]; try discriminate.
  - intros [= <-]. split; [reflexivity |]. unfold INT64_MIN, INT64_MAX. lia.
  - destruct ((INT64_MIN <=? trunc_double (S754_finite s m e))
              && (trunc_double (S754_finite s m e) <=? INT64_MAX)) eqn:B;
      [| discriminate].
    intros [= <-]. apply andb_prop in B. destruct B as [B1 B2].
    apply Z.leb_le in B1, B2. auto.
Qed.

(** The quotient of a counter difference by the elapsed time is zero or a
    normal double: its conversion is defined exactly when the truncated
    quotient fits [int64_t]. *)
Lemma rate_conversion (diff now last : Z) :
  - 2 ^ 64 < diff < 2 ^ 64 -> 0 <= last < now -> now < two64 ->
  static_cast_int64 (ddiv (double_of_Z diff) (timeDelta now last)) =
    if in_i64 (trunc_double (ddiv (double_of_Z diff) (timeDelta now last)))
    then Some (trunc_double (ddiv (double_of_Z diff) (timeDelta now last)))
    else None.
Proof.
  intros Hd H1 H2.
  destruct (timeDelta_normal now last H1 H2) as (m & e & E & Dm & Be).
  rewrite E. unfold double_of_Z, ddiv, prec, emax.
  destruct diff as [| p | p]; cbn [binary_normalize].
  - reflexivity.
  - destruct (binary_round_normal false p) as (m1 & e1 & E1 & D1 & B1); [lia |].
    rewrite E1.
    destruct (SFdiv_normal false false m1 m e1 e D1 Dm) as (mq & eq & Eq & _);
      [lia |].
    rewrite Eq. reflexivity.
  - destruct (binary_round_normal true p) as (m1 & e1 & E1 & D1 & B1); [lia |].
    rewrite E1.
    destruct (SFdiv_normal true false m1 m e1 e D1 Dm) as (mq & eq & Eq & _);
      [lia |].
    rewrite Eq. reflexivity.
Qed.

(** Over one second the rate is the counter difference, whenever that is
    below [2 ^ 53] in magnitude. *)
Lemma speed_one_second (current last : Z) :
  0 <= current <= INT64_MAX -> 0 <= last <= INT64_MAX ->
  - 2 ^ 53 < current - last < 2 ^ 53 ->
  speed current last (S754_finite false 4503599627370496 (-52))
  = Some (current - last).
Proof.
  intros Hc Hl Hd. unfold speed. rewrite sub_i64_exact by assumption.
  unfold double_of_Z, ddiv, prec, emax.
  destruct (current - last) as [| p | p] eqn:Ed.
  - reflexivity.
  - cbn [binary_normalize].
    destruct (binary_round_small false p) as (m & e & E & Dm & Be & Vm); [lia |].
    rewrite E, SFdiv_one by lia.
    unfold static_cast_int64, trunc_double.
    rewrite Z.shiftl_div_pow2, Vm, Z.div_mul by (try apply Z.pow_nonzero; lia).
    unfold in_i64, INT64_MIN, INT64_MAX.
    replace ((- 2 ^ 63 <=? Zpos p) && (Zpos p <=? 2 ^ 63 - 1)) with true;
      [reflexivity |].
    symmetry. apply andb_true_intro. split; apply Z.leb_le; lia.
  - cbn [binary_normalize].
    destruct (binary_round_small true p) as (m & e & E & Dm & Be & Vm); [lia |].
    rewrite E, SFdiv_one by lia.
    unfold static_cast_int64, trunc_double.
    rewrite Z.shiftl_div_pow2, Vm, Z.div_mul by (try apply Z.pow_nonzero; lia).
    unfold in_i64, INT64_MIN, INT64_MAX.
    replace ((- 2 ^ 63 <=? - Zpos p) && (- Zpos p <=? 2 ^ 63 - 1)) with true;
      [reflexivity |].
    symmetry. apply andb_true_intro. split; apply Z.leb_le; lia.
Qed.

(** A cycle one second after the stored sample delivers the counter
    differences as rates. *)
Lemma poll_cycle_one_second (w : poll_env) (c : MihomoCore) (stats : TrafficStats) :
  isRunning_ c = true -> trafficCallback_ c = true ->
  0 < lastTime_ c -> GetTickCount64 w = lastTime_ c + 1000 ->
  Client.GetTrafficStats (traffic w) c = Normal stats ->
  0 <= lastUpload_ c <= INT64_MAX -> 0 <= lastDownload_ c <= INT64_MAX ->
  - 2 ^ 53 < upload stats - lastUpload_ c < 2 ^ 53 ->
  - 2 ^ 53 < download stats - lastDownload_ c < 2 ^ 53 ->
  traffic_events (trace_of (poll_cycle w c)) =
    [{| upload := upload stats;
        download := download stats;
        uploadSpeed := upload stats - lastUpload_ c;
        downloadSpeed := download stats - lastDownload_ c |}].
Proof.
  intros Hrun Hcb Hlast Hnow Hq Hlu Hld Hdu Hdd.
  pose proof (GetTickCount64_range w) as Hmax.
  destruct (GetTrafficStats_in_range (traffic w) c stats Hq) as (Hu & Hd & _).
  rewrite (GetTrafficStats_object (traffic w) c constructed) in Hq.
  rewrite poll_cycle_run, Hrun, Hcb, Hq, Hnow. cbv zeta.
  rewrite timeDelta_one_second by lia.
  replace (0 <? lastTime_ c) with true by (symmetry; apply Z.ltb_lt; exact Hlast).
  rewrite !speed_one_second by assumption.
  reflexivity.
Qed.

(** *** The rates *)

(** C1, as the code has it.  A loop body that finds a stored timestamp,
    reads a later tick and is answered with a snapshot computes, for each
    direction, the binary64 quotient of the counter difference by the
    elapsed seconds (the elapsed milliseconds divided by [1000.0], also in
    binary64) and truncates it toward zero.  When both truncated quotients
    fit [int64_t] it delivers exactly one traffic event, with the fetched
    totals and these rates, and stores the snapshot; when one does not,
    the conversion is undefined and nothing is delivered.  Counters
    (1000, 2000) followed one second later by (1500, 2400) give the rates
    500 and 400. *)
Theorem poll_cycle_rates :
  (forall (w : poll_env) (c : MihomoCore) (stats : TrafficStats),
      isRunning_ c = true -> trafficCallback_ c = true ->
      0 < lastTime_ c -> lastTime_ c < GetTickCount64 w ->
      0 <= lastUpload_ c <= INT64_MAX -> 0 <= lastDownload_ c <= INT64_MAX ->
      Client.GetTrafficStats (traffic w) c = Normal stats ->
      let dt := ddiv (double_of_Z (GetTickCount64 w - lastTime_ c)) d1000 in
      let up := trunc_double (ddiv (double_of_Z (upload stats - lastUpload_ c)) dt) in
      let down :=
        trunc_double (ddiv (double_of_Z (download stats - lastDownload_ c)) dt) in
      poll_cycle w c =
        if in_i64 up && in_i64 down then
          (Normal tt,
           with_baseline (upload stats, download stats, GetTickCount64 w) c,
           [ControlApi "GET" "/traffic" "";
            TrafficEvent {| upload := upload stats;
                            download := download stats;
                            uploadSpeed := up;
                            downloadSpeed := down |};
            Sleep 1000])
        else (Undefined, c, [ControlApi "GET" "/traffic" ""]))
  /\ (forall (c : MihomoCore) (t : Z),
         isRunning_ c = true -> trafficCallback_ c = true ->
         0 < t -> t + 1000 < two64 ->
         baseline c = (1000, 2000, t) ->
         traffic_events (trace_of (poll_cycle (sample 1500 2400 (t + 1000)) c)) =
           [{| upload := 1500; download := 2400;
               uploadSpeed := 500; downloadSpeed := 400 |}]).
Proof.
  split.
  - intros w c stats Hrun Hcb Hlast Hnow Hlu Hld Hq.
    pose proof (GetTickCount64_range w) as Hmax.
    destruct (GetTrafficStats_in_range (traffic w) c stats Hq) as (Hu & Hd & _).
    rewrite (GetTrafficStats_object (traffic w) c constructed) in Hq.
    cbv zeta.
    rewrite poll_cycle_run, Hrun, Hcb, Hq. cbv zeta. cbn [andb].
    rewrite (timeDelta_positive (GetTickCount64 w) (lastTime_ c)) by lia.
    replace (0 <? lastTime_ c) with true by (symmetry; apply Z.ltb_lt; exact Hlast).
    unfold speed.
    rewrite !sub_i64_exact by assumption.
    rewrite !rate_conversion by (unfold INT64_MAX in *; lia).
    unfold timeDelta. rewrite sub_u64_exact by lia.
    set (up := trunc_double (ddiv (double_of_Z (upload stats - lastUpload_ c)) _)).
    set (down := trunc_double (ddiv (double_of_Z (download stats - lastDownload_ c)) _)).
    destruct (in_i64 up); [destruct (in_i64 down) |]; reflexivity.
  - intros c t Hrun Hcb Ht Hmax Hb.
    unfold baseline in Hb. injection Hb as Hlu Hld Hlt.
    rewrite (poll_cycle_one_second (sample 1500 2400 (t + 1000)) c
               {| upload := 1500; download := 2400;
                  uploadSpeed := 0; downloadSpeed := 0 |});
      rewrite ?Hlu, ?Hld, ?Hlt; try assumption; try reflexivity; try lia.
    + apply Z.mod_small. cbn [sample tick]. lia.
    + rewrite (GetTrafficStats_object _ c constructed). vm_compute. reflexivity.
    + unfold INT64_MAX. lia.
    + unfold INT64_MAX. lia.
    + cbn. lia.
    + cbn. lia.
Qed.

Lemma poll_cycle_rates_witness :
  traffic_events (trace_of (poll_cycle (sample 1500 2400 61000) sampled))
  = [{| upload := 1500; download := 2400; uploadSpeed := 500; downloadSpeed := 400 |}]
  /\ poll_cycle (sample 18355 2000 61068) sampled
     = (Normal tt, with_baseline (18355, 2000, 61068) sampled,
        [ControlApi "GET" "/traffic" "";
         TrafficEvent {| upload := 18355; download := 2000;
                         uploadSpeed := 16249; downloadSpeed := 0 |};
         Sleep 1000])
  /\ poll_cycle (sample 9223372036854775807 2000 60500) sampled
     = (Undefined, sampled, [ControlApi "GET" "/traffic" ""]).
Proof.
  destruct poll_cycle_rates as [Hgen Hex]. split; [| split].
  - apply (Hex sampled 60000); try reflexivity.
  - rewrite (Hgen (sample 18355 2000 61068) sampled
               {| upload := 18355; download := 2000;
                  uploadSpeed := 0; downloadSpeed := 0 |});
      try (vm_compute; reflexivity); vm_compute; split; discriminate.
  - rewrite (Hgen (sample 9223372036854775807 2000 60500) sampled
               {| upload := 9223372036854775807; download := 2000;
                  uploadSpeed := 0; downloadSpeed := 0 |});
      try (vm_compute; reflexivity); vm_compute; split; discriminate.
Defined.

(** C1 as stated fails: the object holds the sample (1000, 2000) taken at
    tick 60000; 1068 ms later the counters are (18355, 2000).  The upload
    difference divided by the elapsed seconds is 16250 exactly, and the
    event delivered carries 16249. *)
Lemma rate_below_exact_quotient :
  baseline sampled = (1000, 2000, 60000)
  /\ traffic_events (snd (exec (PollerStep (sample 18355 2000 61068)) sampled))
     = [{| upload := 18355; download := 2000;
           uploadSpeed := 16249; downloadSpeed := 0 |}]
  /\ exact_speed 18355 1000 (61068 - 60000) = 16250
  /\ (18355 - 1000) * 1000 = 16250 * (61068 - 60000)
  /\ speed 18355 1000 (timeDelta 61068 60000)
     <> Some (exact_speed 18355 1000 (61068 - 60000)).
Proof. repeat split; vm_compute; try reflexivity; discriminate. Qed.

(* ===================================================================== *)
(** ** The liveness query and the process handles *)
(* ===================================================================== *)

(** X14.  On an object that call sequences can reach, [IsRunning] answers
    [true] only when the engine process reports that it is still active,
    and then the state is connected, a process handle is held and the
    poller thread is owned. *)
Theorem IsRunning_sound (exit : option Z) (c : MihomoCore) :
  reachable c -> IsRunning exit c = true ->
  exit = Some STILL_ACTIVE
  /\ state_ c = "connected"
  /\ processHandle_ c <> nullptr
  /\ joinable (trafficThread_ c) = true.
Proof.
  intros R. apply reachable_inv in R. destruct R as [_ R]. unfold IsRunning.
  destruct (isRunning_ c); [| discriminate]. destruct R as (S & _ & T).
  destruct (processHandle_ c =? nullptr) eqn:H; [discriminate |].
  apply Z.eqb_neq in H. cbn [negb orb].
  destruct exit as [code |]; [| discriminate]. intros E. apply Z.eqb_eq in E. subst code.
  repeat split; try assumption. destruct T as [-> | ->]; reflexivity.
Qed.

Lemma IsRunning_sound_witness :
  IsRunning (Some STILL_ACTIVE) started = true
  /\ state_ started = "connected"
  /\ processHandle_ started <> nullptr.
Proof.
  split; [reflexivity |].
  destruct (IsRunning_sound (Some STILL_ACTIVE) started started_reachable eq_refl)
    as (_ & S & H & _).
  exact (conj S H).
Defined.

(** X15.  After [Stop] has returned, [IsRunning] answers [false] whatever
    the operating system reports about the process. *)
Theorem IsRunning_false_after_Stop (w : stop_env) (exit : option Z) (c : MihomoCore) :
  result_of (Stop w c) = Normal true ->
  IsRunning exit (core_of (Stop w c)) = false.
Proof.
  intros R. unfold IsRunning. rewrite (proj1 (Stop_leaves_stopped w c R)).
  reflexivity.
Qed.

Lemma IsRunning_false_after_Stop_witness :
  IsRunning (Some STILL_ACTIVE)
    (core_of (Stop {| in_flight := sample 1500 2400 61000; wait_result := 258 |}
                sampled)) = false.
Proof. apply IsRunning_false_after_Stop. vm_compute. reflexivity. Defined.

(** X16.  An engine that has died is not restarted by [Start]: on an
    object whose running flag is set, [IsRunning] answers [false] once
    the process has an exit code, and [Start] still returns [true] and
    does nothing; only [Stop] lowers the flag. *)
Theorem dead_engine_not_restarted (cfg : string) (w : start_env) (code : Z)
    (c : MihomoCore) :
  isRunning_ c = true -> code <> STILL_ACTIVE ->
  IsRunning (Some code) c = false
  /\ Start cfg w c = (Normal true, c, []).
Proof.
  intros R D. split; [| exact (Start_running cfg w c R)].
  unfold IsRunning. rewrite R. cbn [negb orb].
  destruct (processHandle_ c =? nullptr); [reflexivity |].
  apply Z.eqb_neq. exact D.
Qed.

Lemma dead_engine_not_restarted_witness :
  IsRunning (Some 1) started = false
  /\ Start "C:\vortex\config.yaml" healthy_start started = (Normal true, started, []).
Proof.
  apply dead_engine_not_restarted; [reflexivity | vm_compute; discriminate].
Defined.

Lemma holds_no_process_step (a : call) (c : MihomoCore) :
  (isRunning_ c = false -> holds_no_process c) ->
  isRunning_ (fst (exec a c)) = false -> holds_no_process (fst (exec a c)).
Proof.
  destruct c as [? ? ? ? ? ? ? h t ? running ? lt tt' ? ? ? scb ? ? ?].
  unfold holds_no_process. compute_core. intros H.
  destruct a;
    unfold exec, Init, Start, Stop, StopMonitoring, join_traffic, poller_step,
      StartTrafficMonitor, ReloadConfig, SetStateCallback, SetTrafficCallback,
      SetLogCallback, SetErrorCallback.
  - compute_core; repeat (evaluate; compute_core); exact H.
  - destruct running; compute_core; repeat (evaluate; compute_core);
      intros E; try discriminate E; auto.
  - destruct running; [| compute_core; exact H].
    destruct tt'; destruct lt; compute_core;
      repeat (evaluate; compute_core); null_handles; auto.
  - compute_core; repeat (evaluate; compute_core); exact H.
  - exact H.
  - exact H.
  - exact H.
  - exact H.
  - destruct tt'; compute_core; repeat (evaluate; compute_core); exact H.
Qed.

Lemma holds_no_process_run (l : list call) (c : MihomoCore) :
  (isRunning_ c = false -> holds_no_process c) ->
  isRunning_ (fst (run l c)) = false -> holds_no_process (fst (run l c)).
Proof.
  revert c. induction l as [| a l IH]; intros c H; [exact H |].
  cbn [run]. destruct (gone c); [exact H |].
  pose proof (holds_no_process_step a c H) as S.
  destruct (exec a c) as [c1 t1]. cbn [fst snd] in *.
  specialize (IH c1 S). destruct (run l c1) as [c2 t2]. exact IH.
Qed.

(** X17.  An object that call sequences can reach and whose running flag
    is down holds no process: both process handles are null, the state is
    disconnected and no poller thread is owned.  No handle outlives a
    failed [Start] or a [Stop]. *)
Theorem stopped_holds_no_process (c : MihomoCore) :
  reachable c -> isRunning_ c = false ->
  holds_no_process c
  /\ state_ c = "disconnected"
  /\ trafficThread_ c = NotAThread.
Proof.
  intros R S. pose proof (reachable_inv c R) as [_ I]. rewrite S in I.
  split; [| exact I]. destruct R as [_ [l ->]].
  apply holds_no_process_run; [| exact S]. intros _. split; reflexivity.
Qed.

Lemma stopped_holds_no_process_witness :
  holds_no_process (fst (run session constructed))
  /\ state_ (fst (run session constructed)) = "disconnected"
  /\ trafficThread_ (fst (run session constructed)) = NotAThread.
Proof.
  apply stopped_holds_no_process; [| vm_compute; reflexivity].
  split; [vm_compute; reflexivity | exists session; reflexivity].
Defined.

(** X18.  A [Start] that returns [false] leaves the object stopped: the
    state, the running flag and the poller thread are as before, no state
    is written or dispatched, and the handles it closes are exactly the
    two of the process it created (none when creation failed), so an
    object that held no process holds none afterwards.  The configuration
    path has nevertheless been overwritten. *)
Theorem failed_Start_cleans_up (cfg : string) (w : start_env) (c : MihomoCore) :
  result_of (Start cfg w c) = Normal false ->
  isRunning_ (core_of (Start cfg w c)) = false
  /\ state_ (core_of (Start cfg w c)) = state_ c
  /\ trafficThread_ (core_of (Start cfg w c)) = trafficThread_ c
  /\ configPath_ (core_of (Start cfg w c)) = cfg
  /\ state_log (trace_of (Start cfg w c)) = []
  /\ closed_handles (trace_of (Start cfg w c)) =
       match created w with
       | Some pi => [hProcess pi; hThread pi]
       | None => []
       end
  /\ (holds_no_process c -> holds_no_process (core_of (Start cfg w c))).
Proof.
  destruct c as [? ? ? ? ? ? ? h t ? running ? lt tt' ? ? ? scb ? ? ecb].
  unfold Start, StartTrafficMonitor, holds_no_process.
  destruct running; compute_core; [discriminate |].
  repeat (evaluate; compute_core); intros E; try discriminate E;
    repeat split; auto; try tauto; destruct ecb; reflexivity.
Qed.

Lemma failed_Start_cleans_up_witness :
  result_of (Start "C:\vortex\config.yaml" crashing_start constructed) = Normal false
  /\ isRunning_ (core_of (Start "C:\vortex\config.yaml" crashing_start constructed)) = false
  /\ closed_handles (trace_of (Start "C:\vortex\config.yaml" crashing_start constructed))
     = [100; 104].
Proof.
  split; [reflexivity |].
  destruct (failed_Start_cleans_up "C:\vortex\config.yaml" crashing_start constructed
              eq_refl) as (R & _ & _ & _ & _ & H & _).
  exact (conj R H).
Defined.

(* ===================================================================== *)
(** ** Callbacks and the event channel *)
(* ===================================================================== *)

Lemma callbacks_app (t1 t2 : list effect) :
  callbacks (t1 ++ t2) = (callbacks t1 ++ callbacks t2)%list.
Proof. apply filter_app. Qed.

Lemma quiet_step (a : call) (c : MihomoCore) :
  registers a = false -> no_observer c = true ->
  no_observer (fst (exec a c)) = true /\ callbacks (snd (exec a c)) = [].
Proof.
  destruct c as [? ? ? ? ? ? ? h t ? running ? lt tt' ? ? ? scb tcb lcb ecb].
  unfold no_observer. compute_core. intros Ha H.
  destruct scb, tcb, lcb, ecb; cbn in H; try discriminate H. clear H.
  destruct a; cbn [registers] in Ha; try discriminate Ha;
    unfold exec, Init, Start, Stop, StopMonitoring, join_traffic, poller_step,
      StartTrafficMonitor, ReloadConfig, callbacks.
  - compute_core; repeat (evaluate; compute_core); auto.
  - destruct running; compute_core; repeat (evaluate; compute_core); auto.
  - destruct running; [| compute_core; auto].
    destruct tt'; destruct lt; compute_core;
      repeat (evaluate; compute_core); auto.
  - compute_core; repeat (evaluate; compute_core); auto.
  - destruct running, tt'; compute_core; repeat (evaluate; compute_core); auto.
Qed.

Lemma quiet_run (l : list call) (c : MihomoCore) :
  forallb (fun a => negb (registers a)) l = true -> no_observer c = true ->
  no_observer (fst (run l c)) = true /\ callbacks (snd (run l c)) = [].
Proof.
  revert c. induction l as [| a l IH]; intros c Hl Hc; [split; [exact Hc | reflexivity] |].
  cbn [forallb] in Hl. apply andb_prop in Hl. destruct Hl as [Ha Hl].
  apply negb_true_iff in Ha.
  destruct (quiet_step a c Ha Hc) as [Hc' Hev].
  cbn [run]. destruct (gone c); [split; [exact Hc | reflexivity] |].
  destruct (exec a c) as [c1 t1]. cbn [fst snd] in *.
  destruct (IH c1 Hl Hc') as [Hc2 Hev2].
  destruct (run l c1) as [c2 t2]. cbn [fst snd] in *.
  rewrite callbacks_app, Hev, Hev2. auto.
Qed.

(** X19.  An object on which no callback was ever registered invokes
    none: over any sequence of lifecycle calls and poller steps from
    construction, no state, traffic or error callback is called. *)
Theorem no_observer_no_callback (l : list call) :
  forallb (fun a => negb (registers a)) l = true ->
  callbacks (snd (run l constructed)) = [].
Proof. intros H. exact (proj2 (quiet_run l constructed H eq_refl)). Qed.

Lemma no_observer_no_callback_witness :
  callbacks (snd (run session constructed)) = [].
Proof. apply no_observer_no_callback. reflexivity. Defined.

(** X20.  After the event channel's cancel function nothing reaches the
    sink: the core invokes no callback over any further lifecycle calls
    and poller steps, also with the engine running, and a callback that
    were invoked would find the sink gone. *)
Theorem cancel_silences (s : Channel.PlatformChannel * MihomoCore) (l : list call) :
  forallb (fun a => negb (registers a)) l = true ->
  callbacks (snd (run l (snd (Channel.on_cancel s)))) = []
  /\ (forall e, Channel.forward (fst (Channel.on_cancel s)) e = []).
Proof.
  intros H. split.
  - apply quiet_run; [exact H |].
    destruct s as [p c]. destruct c. reflexivity.
  - intros e. destruct e; reflexivity.
Qed.

Lemma cancel_silences_witness :
  callbacks
    (snd (run [PollerStep (sample 1500 2400 61000); CallStop quiet_stop]
            (snd (Channel.on_cancel (Channel.mkPlatformChannel true, sampled))))) = []
  /\ callbacks
       (snd (run [PollerStep (sample 1500 2400 61000); CallStop quiet_stop] sampled))
     <> [].
Proof.
  split.
  - apply (cancel_silences (Channel.mkPlatformChannel true, sampled)). reflexivity.
  - vm_compute. discriminate.
Defined.

(* ===================================================================== *)
(** ** The poller *)
(* ===================================================================== *)



(** X22.  The guard [timeDelta > 0] of the poller, computed in doubles,
    passes exactly when the tick count has advanced since the stored
    sample: rounding never turns a positive difference into zero. *)
Theorem guard_iff_tick_advanced (now last : Z) :
  0 <= last <= now -> now < two64 ->
  dpositive (timeDelta now last) = (last <? now).
Proof.
  intros H1 H2. destruct (last <? now) eqn:E.
  - apply Z.ltb_lt in E. apply timeDelta_positive; lia.
  - apply Z.ltb_ge in E. replace now with last by lia. apply timeDelta_same.
Qed.

Lemma guard_iff_tick_advanced_witness :
  dpositive (timeDelta 61068 60000) = true
  /\ dpositive (timeDelta 60000 60000) = false.
Proof.
  split.
  - apply (guard_iff_tick_advanced 61068 60000); vm_compute; intuition discriminate.
  - apply (guard_iff_tick_advanced 60000 60000); vm_compute; intuition discriminate.
Defined.

(** X23.  A counter that did not move gives the rate zero, whatever
    positive time has elapsed. *)
Theorem idle_link_zero_rate (v : Z) (dt : double) :
  dpositive dt = true -> speed v v dt = Some 0.
Proof.
  intros H. unfold speed, sub_i64, wrap_i64. rewrite Z.sub_diag.
  change (double_of_Z ((0 - INT64_MIN) mod two64 + INT64_MIN)) with (S754_zero false).
  destruct dt as [s | s | | s m e]; try discriminate H; destruct s; try discriminate H;
    reflexivity.
Qed.

Lemma idle_link_zero_rate_witness :
  speed 1000 1000 (timeDelta 61068 60000) = Some 0.
Proof. apply idle_link_zero_rate. vm_compute. reflexivity. Defined.

(** X24.  A loop body that runs exactly one second after the stored
    sample and is answered with a snapshot delivers one traffic event
    whose rates are the counter differences themselves, with no rounding,
    for differences below [2 ^ 53] in magnitude, and stores the new
    sample. *)
Theorem one_second_step_exact (w : poll_env) (c : MihomoCore) (stats : TrafficStats) :
  trafficThread_ c = InLoopBody ->
  isRunning_ c = true -> trafficCallback_ c = true ->
  0 < lastTime_ c -> GetTickCount64 w = lastTime_ c + 1000 ->
  Client.GetTrafficStats (traffic w) c = Normal stats ->
  0 <= lastUpload_ c <= INT64_MAX -> 0 <= lastDownload_ c <= INT64_MAX ->
  - 2 ^ 53 < upload stats - lastUpload_ c < 2 ^ 53 ->
  - 2 ^ 53 < download stats - lastDownload_ c < 2 ^ 53 ->
  traffic_events (snd (exec (PollerStep w) c)) =
    [{| upload := upload stats;
        download := download stats;
        uploadSpeed := upload stats - lastUpload_ c;
        downloadSpeed := download stats - lastDownload_ c |}]
  /\ baseline (fst (exec (PollerStep w) c))
     = (upload stats, download stats, GetTickCount64 w)
  /\ trafficThread_ (fst (exec (PollerStep w) c)) = AtLoopTest.
Proof.
  intros Ht Hrun Hcb Hlast Hnow Hq Hlu Hld Hdu Hdd.
  pose proof (GetTickCount64_range w) as Hmax.
  rewrite (poller_step_body w c Ht). cbn [fst snd]. split.
  - apply poll_cycle_one_second; assumption.
  - destruct (GetTrafficStats_in_range (traffic w) c stats Hq) as (Hu & Hd & _).
    rewrite (GetTrafficStats_object (traffic w) c constructed) in Hq.
    rewrite poll_cycle_run, Hrun, Hcb, Hq, Hnow. cbv zeta.
    rewrite timeDelta_one_second by lia.
    replace (0 <? lastTime_ c) with true by (symmetry; apply Z.ltb_lt; exact Hlast).
    rewrite !speed_one_second by assumption.
    destruct c. split; reflexivity.
Qed.

Lemma one_second_step_exact_witness :
  traffic_events (snd (exec (PollerStep (sample 1500 2400 61000)) sampled))
  = [{| upload := 1500; download := 2400; uploadSpeed := 500; downloadSpeed := 400 |}]
  /\ baseline (fst (exec (PollerStep (sample 1500 2400 61000)) sampled))
     = (1500, 2400, 61000)
  /\ trafficThread_ (fst (exec (PollerStep (sample 1500 2400 61000)) sampled))
     = AtLoopTest.
Proof.
  apply (one_second_step_exact (sample 1500 2400 61000) sampled
           {| upload := 1500; download := 2400; uploadSpeed := 0; downloadSpeed := 0 |});
    try reflexivity; vm_compute; intuition discriminate.
Defined.

(** X25.  A poll whose request fails is taken for counters of zero: one
    second after a stored sample the observer is handed an event with
    both totals zero and the negated stored counters as rates. *)
Theorem failed_poll_reports_negative_rates (x : Client.exchange) (c : MihomoCore) :
  completes x = false ->
  isRunning_ c = true -> trafficCallback_ c = true ->
  0 < lastTime_ c -> lastTime_ c + 1000 < two64 ->
  0 <= lastUpload_ c < 2 ^ 53 -> 0 <= lastDownload_ c < 2 ^ 53 ->
  Client.GetTrafficStats x c = Normal no_traffic
  /\ traffic_events
       (trace_of (poll_cycle {| traffic := x; tick := lastTime_ c + 1000 |} c)) =
     [{| upload := 0; download := 0;
         uploadSpeed := - lastUpload_ c;
         downloadSpeed := - lastDownload_ c |}].
Proof.
  intros F R T L1 L2 U D.
  assert (Q : Client.GetTrafficStats x c = Normal no_traffic).
  { unfold Client.GetTrafficStats. cbv zeta. rewrite HttpGet_fst, F. reflexivity. }
  split; [exact Q |].
  rewrite (poll_cycle_one_second {| traffic := x; tick := lastTime_ c + 1000 |} c
             no_traffic);
    unfold no_traffic, INT64_MAX; cbn [traffic tick upload download];
    try assumption; try reflexivity; try lia.
  apply Z.mod_small. cbn [tick]. lia.
Qed.

Lemma failed_poll_reports_negative_rates_witness :
  Client.GetTrafficStats unreachable_engine sampled = Normal no_traffic
  /\ traffic_events
       (trace_of (poll_cycle {| traffic := unreachable_engine; tick := 61000 |} sampled)) =
     [{| upload := 0; download := 0;
         uploadSpeed := -1000; downloadSpeed := -2000 |}].
Proof.
  apply (failed_poll_reports_negative_rates unreachable_engine sampled);
    try reflexivity; vm_compute; intuition discriminate.
Defined.

(* ===================================================================== *)
(** ** The resolver on whole files *)
(* ===================================================================== *)

(** X26.  [ParseControllerSettings] has no effect outside the object and
    writes no member other than the host, the port and the secret of the
    controller endpoint, on every path, the throwing one included. *)
Theorem resolver_frame (file : option string) (c : MihomoCore) :
  trace_of (ParseControllerSettings file c) = []
  /\ core_of (ParseControllerSettings file c) =
       with_endpoint (endpoint (core_of (ParseControllerSettings file c))) c.
Proof.
  destruct (parse_shape file c) as (r & host & port & secret & E & _). rewrite E.
  destruct c. split; reflexivity.
Qed.

(** X27.  When the port of the controller line does not fit [int], the
    resolver throws after it has stored the host of that line and before
    it looks for the secret: the object is left with the host of the file
    and with its old port and secret. *)
Theorem resolver_throws_after_host (host : string) (port : Z) (rest : string)
    (c : MihomoCore) :
  all_chars host_char host = true -> is_empty host = false -> INT_MAX < port ->
  ParseControllerSettings (Some (controller_line host port ++ rest)) c =
    (Throw "stoi argument out of range", set_controllerHost_ host c, []).
Proof.
  intros A N P.
  assert (P0 : 0 <= port) by (unfold INT_MAX in P; lia).
  destruct (to_string_numeral port P0) as (_ & E & _).
  unfold ParseControllerSettings.
  rewrite (controller_of_line host port rest A N P0), E, (stoi_to_string port P0).
  replace (port <=? INT_MAX) with false by (symmetry; apply Z.leb_gt; exact P).
  destruct c. reflexivity.
Qed.

Lemma resolver_throws_after_host_witness :
  ParseControllerSettings
    (Some (controller_line "10.0.0.2" 99999999999 ++ secret_line "xyz")) started =
    (Throw "stoi argument out of range", set_controllerHost_ "10.0.0.2" started, []).
Proof.
  apply resolver_throws_after_host; [reflexivity | reflexivity | vm_compute; reflexivity].
Defined.

(** X28.  A file that begins with the controller line of a host and a
    port printed in decimal is read back: the host is stored whatever
    follows the line, and the port is stored when it fits [int], while a
    larger one makes the call throw. *)
Theorem resolver_reads_controller_line (host : string) (port : Z) (rest : string)
    (c : MihomoCore) :
  all_chars host_char host = true -> is_empty host = false -> 0 <= port ->
  let r := ParseControllerSettings (Some (controller_line host port ++ rest)) c in
  controllerHost_ (core_of r) = host
  /\ if port <=? INT_MAX
     then result_of r = Normal tt /\ controllerPort_ (core_of r) = port
     else result_of r = Throw "stoi argument out of range".
Proof.
  intros A N P. destruct (to_string_numeral port P) as (_ & E & _).
  unfold ParseControllerSettings. cbv zeta.
  rewrite (controller_of_line host port rest A N P), E, (stoi_to_string port P).
  destruct c.
  destruct (port <=? INT_MAX);
    destruct (secretRegex (controller_line host port ++ rest)); compute_core; auto.
Qed.

Lemma resolver_reads_controller_line_witness :
  controllerHost_
    (core_of (ParseControllerSettings
                (Some (controller_line "192.168.1.7" 19090 ++ secret_line "abc"))
                constructed)) = "192.168.1.7"
  /\ controllerPort_
       (core_of (ParseControllerSettings
                   (Some (controller_line "192.168.1.7" 19090 ++ secret_line "abc"))
                   constructed)) = 19090.
Proof.
  destruct (resolver_reads_controller_line "192.168.1.7" 19090 (secret_line "abc")
              constructed eq_refl eq_refl ltac:(lia)) as [H [_ P]].
  exact (conj H P).
Defined.

(** X29.  A file that begins with the secret line is read back: when the
    call returns, the secret stored is the one of the line, whatever
    follows it. *)
Theorem resolver_reads_secret_line (secret rest : string) (c : MihomoCore) :
  all_chars secret_char secret = true -> is_empty secret = false ->
  port_fits (Some (secret_line secret ++ rest)) = true ->
  result_of (ParseControllerSettings (Some (secret_line secret ++ rest)) c) = Normal tt
  /\ controllerSecret_
       (core_of (ParseControllerSettings (Some (secret_line secret ++ rest)) c)) = secret.
Proof.
  intros A N. unfold port_fits, ParseControllerSettings.
  rewrite (secret_of_line secret rest A N). destruct c.
  destruct (controllerRegex (secret_line secret ++ rest)) as [[host port] |];
    [destruct (is_empty port); [| destruct (stoi port)] |];
    compute_core; intros F; try discriminate F; auto.
Qed.

Lemma resolver_reads_secret_line_witness :
  controllerSecret_
    (core_of (ParseControllerSettings
                (Some (secret_line "s3cr3t" ++ controller_line "127.0.0.1" 9090))
                constructed)) = "s3cr3t".
Proof.
  apply (resolver_reads_secret_line "s3cr3t" (controller_line "127.0.0.1" 9090)
           constructed); reflexivity.
Defined.

(* ===================================================================== *)
(** ** The log files *)
(* ===================================================================== *)

Lemma eqb_append_prefix (a b c : string) :
  String.eqb (a ++ b) (a ++ c) = String.eqb b c.
Proof.
  induction a as [| ch r IH]; [reflexivity |].
  cbn [append String.eqb]. rewrite Ascii.eqb_refl. exact IH.
Qed.

(** X30.  [ExportLogs] never touches the log itself: what [GetLogs]
    returns is the same before and after, for every work directory and
    clock value.  When the export file can be opened it holds exactly
    what [GetLogs] returned (the placeholder text when there is no log),
    its path is returned and no other file changes; when it cannot, the
    empty string is returned and nothing is written. *)
Theorem ExportLogs_copies_log (time : Z) (writable : bool) (fs : filesystem)
    (c : MihomoCore) :
  let '(path, fs') := ExportLogs time writable fs c in
  GetLogs fs' c = GetLogs fs c
  /\ if writable then
       path = (workDir_ c ++ "\vortex_logs_" ++ to_string time ++ ".txt")%string
       /\ fs' path = Some (GetLogs fs c)
       /\ forall p, p <> path -> fs' p = fs p
     else path = "" /\ fs' = fs.
Proof.
  unfold ExportLogs. cbv zeta. destruct writable; [| auto].
  split; [| split; [reflexivity | split]].
  - unfold GetLogs at 1, write_file. cbv zeta.
    rewrite eqb_append_prefix. reflexivity.
  - unfold write_file. rewrite String.eqb_refl. reflexivity.
  - intros p H. unfold write_file. apply String.eqb_neq in H. rewrite H. reflexivity.
Qed.
